(** * Checkpoint / rollback engine: a shallow embedding and its properties

    The development follows the Python sources:
    - [rollback_portocal/protocol.py], [rollback_portocal/registry.py],
      [rollback_portocal/adapters.py]
      (tool specifications, the invocation track, undo and redo);
    - [src/checkpoints/checkpoint.py], [src/sessions/internal_session.py],
      [src/sessions/external_session.py] (the in-memory models);
    - [src/database/repositories/*.py] (the SQLite repositories);
    - [src/agents/rollback_agent.py], [src/agents/agent_service.py]
      (the agent, its built-in checkpoint tools and the fork on rollback).

    Part I holds the definitions, Part II the lemmas and theorems,
    Part III further properties of the code. *)

From Stdlib Require Import ZArith Lia.
From stdpp Require Import base option list strings gmap sorting.

Local Open Scope Z_scope.
Local Open Scope string_scope.
Local Open Scope list_scope.

(* ===================================================================== *)
(** * Part I: definitions                                                 *)
(* ===================================================================== *)

(** ** Python calls: a call returns a value or raises *)

Inductive outcome (A : Type) : Type :=
| Returned (a : A)
| Raised (msg : string).
Arguments Returned {A} a.
Arguments Raised {A} msg.

(** ** rollback_portocal/protocol.py *)

Module Protocol.

(** Tools that act as logical checkpoints and need no reverse handler. *)
Definition CHECKPOINT_TOOL_NAMES : list string :=
  [ "save_checkpoint"; "checkpoint";
    "create_checkpoint_tool"; "list_checkpoints_tool";
    "rollback_to_checkpoint_tool"; "delete_checkpoint_tool";
    "get_checkpoint_info_tool"; "cleanup_auto_checkpoints_tool" ].

(** [name in CHECKPOINT_TOOL_NAMES] *)
Definition in_CHECKPOINT_TOOL_NAMES (name : string) : bool :=
  bool_decide (name ∈ CHECKPOINT_TOOL_NAMES).

Section Handlers.
Context {Args Result World : Type}.

(** Handlers are Python callables: they act on the outside world, and
    they return or raise.  The recorded result is [Any]; [None] is the
    value recorded for a failed forward call. *)
Definition ForwardTool : Type := Args → World → outcome Result * World.
Definition ReverseTool : Type := Args → option Result → World → outcome unit * World.

Record ToolSpec : Type := mkToolSpec {
  name : string;
  forward : ForwardTool;
  reverse : option ReverseTool
}.

Definition validate_message (n : string) : string :=
  "Tool '" ++ n ++ "' must register a reverse handler unless it is a checkpoint tool.".

(** [ToolSpec.validate]: raises [ValueError] or returns [None]. *)
Definition validate (self : ToolSpec) : outcome unit :=
  if negb (in_CHECKPOINT_TOOL_NAMES (name self)) && bool_decide (reverse self = None :> option ReverseTool)
  then Raised (validate_message (name self))
  else Returned tt.

Record ToolInvocationRecord : Type := mkToolInvocationRecord {
  tool_name : string;
  args : Args;
  result : option Result;
  success : bool;
  error_message : option string;
  timestamp : Z
}.

Record ReverseInvocationResult : Type := mkReverseInvocationResult {
  rir_tool_name : string;
  reversed_successfully : bool;
  rir_error_message : option string
}.

End Handlers.

Arguments ToolSpec : clear implicits.
Arguments ToolInvocationRecord : clear implicits.
Arguments ForwardTool : clear implicits.
Arguments ReverseTool : clear implicits.

(** The class body of [ToolInvocationRecord] runs once, when the module is
    imported: the default of the [timestamp] field,
    [datetime.utcnow()], is evaluated there and stored in the class. *)
Record module_state : Type := mkModule {
  ToolInvocationRecord_timestamp_default : Z
}.

Definition import_module (utcnow : Z) : module_state :=
  {| ToolInvocationRecord_timestamp_default := utcnow |}.

(** The generated [__init__]: a missing [timestamp] argument takes the
    class default. *)
Definition new_ToolInvocationRecord {Args Result : Type} (m : module_state)
    (tool_name : string) (args : Args) (result : option Result) (success : bool)
    (error_message : option string) (timestamp : option Z)
  : ToolInvocationRecord Args Result :=
  mkToolInvocationRecord tool_name args result success error_message
    (default (ToolInvocationRecord_timestamp_default m) timestamp).

End Protocol.

(** ** rollback_portocal/registry.py *)

Module Registry.
Import Protocol.

Section Registry.
Context {Args Result World : Type}.

Local Abbreviation Spec := (ToolSpec Args Result World).
Local Abbreviation Rec := (ToolInvocationRecord Args Result).

Record ToolRollbackRegistry : Type := mkRegistry {
  _tools : gmap string Spec;
  _track : list Rec
}.

(** [__init__] *)
Definition init : ToolRollbackRegistry := {| _tools := ∅; _track := [] |}.

(** [register_tool]: validate, then [self._tools[spec.name] = spec]. *)
Definition register_tool (self : ToolRollbackRegistry) (spec : Spec)
  : outcome unit * ToolRollbackRegistry :=
  match validate spec with
  | Raised e => (Raised e, self)
  | Returned _ =>
      (Returned tt, {| _tools := <[name spec := spec]> (_tools self); _track := _track self |})
  end.

Definition get_tool (self : ToolRollbackRegistry) (n : string) : option Spec :=
  _tools self !! n.

(** [record_invocation] builds the record without a [timestamp] argument
    and appends it to the track. *)
Definition record_invocation (m : module_state) (self : ToolRollbackRegistry)
    (tool_name : string) (args : Args) (result : option Result) (success : bool)
    (error_message : option string) : ToolRollbackRegistry :=
  let record := new_ToolInvocationRecord m tool_name args result success error_message None in
  {| _tools := _tools self; _track := _track self ++ [record] |}.

Definition clear_track (self : ToolRollbackRegistry) : ToolRollbackRegistry :=
  {| _tools := _tools self; _track := [] |}.

Definition get_track (self : ToolRollbackRegistry) : list Rec := _track self.

Definition no_reverse_result (n : string) : ReverseInvocationResult :=
  mkReverseInvocationResult n false (Some "No reverse handler registered").

(** The body of the [for record in reversed(self._track)] loop of
    [rollback], one iteration per record; [results] is the list being
    appended to and [w] the world the handlers act on. *)
Fixpoint rollback_loop (tools : gmap string Spec) (records : list Rec)
    (results : list ReverseInvocationResult) (w : World)
  : list ReverseInvocationResult * World :=
  match records with
  | [] => (results, w)
  | record :: rest =>
      let tool_name := tool_name record in
      if in_CHECKPOINT_TOOL_NAMES tool_name then rollback_loop tools rest results w
      else
        match tools !! tool_name with
        | None => rollback_loop tools rest (results ++ [no_reverse_result tool_name]) w
        | Some spec =>
            match reverse spec with
            | None => rollback_loop tools rest (results ++ [no_reverse_result tool_name]) w
            | Some rev =>
                match rev (args record) (result record) w with
                | (Returned _, w') =>
                    rollback_loop tools rest
                      (results ++ [mkReverseInvocationResult tool_name true None]) w'
                | (Raised e, w') =>
                    rollback_loop tools rest
                      (results ++ [mkReverseInvocationResult tool_name false (Some e)]) w'
                end
            end
        end
  end.

(** [rollback]: the method takes no index and assigns neither
    [self._tools] nor [self._track]; the registry it leaves behind is
    returned with the results. *)
Definition rollback (self : ToolRollbackRegistry) (w : World)
  : list ReverseInvocationResult * ToolRollbackRegistry * World :=
  let '(results, w') := rollback_loop (_tools self) (List.rev (_track self)) [] w in
  (results, self, w').

(** The loop of [redo] runs over a copy of the track taken at entry
    ([list(self._track)]) and appends to the live track. *)
Fixpoint redo_loop (m : module_state) (tools : gmap string Spec) (records : list Rec)
    (track new_records : list Rec) (w : World) : list Rec * list Rec * World :=
  match records with
  | [] => (track, new_records, w)
  | record :: rest =>
      match tools !! tool_name record with
      | None => redo_loop m tools rest track new_records w
      | Some spec =>
          match forward spec (args record) w with
          | (Returned new_result, w') =>
              let new_record :=
                new_ToolInvocationRecord m (tool_name record) (args record)
                  (Some new_result) true None None in
              redo_loop m tools rest (track ++ [new_record]) (new_records ++ [new_record]) w'
          | (Raised e, w') =>
              let new_record :=
                new_ToolInvocationRecord m (tool_name record) (args record)
                  None false (Some e) None in
              redo_loop m tools rest (track ++ [new_record]) (new_records ++ [new_record]) w'
          end
      end
  end.

Definition redo (m : module_state) (self : ToolRollbackRegistry) (w : World)
  : list Rec * ToolRollbackRegistry * World :=
  let '(track, new_records, w') :=
    redo_loop m (_tools self) (_track self) (_track self) [] w in
  (new_records, {| _tools := _tools self; _track := track |}, w').

(** [AgnoToolkitAdapter.execute_and_record] (adapters.py): a failed
    forward call is recorded with [result=None], [success=False], and the
    exception is raised again. *)
Definition execute_and_record (m : module_state) (self : ToolRollbackRegistry)
    (tool_name : string) (args : Args) (w : World)
  : outcome Result * ToolRollbackRegistry * World :=
  match get_tool self tool_name with
  | None =>
      (Raised ("Tool '" ++ tool_name ++ "' is not registered in rollback registry"), self, w)
  | Some spec =>
      match forward spec args w with
      | (Returned r, w') =>
          (Returned r, record_invocation m self tool_name args (Some r) true None, w')
      | (Raised e, w') =>
          (Raised e, record_invocation m self tool_name args None false (Some e), w')
      end
  end.

(** [AgnoToolkitAdapter.register_tools] (adapters.py).  The toolkit is
    an object whose callable attributes are the forward tools:
    [getattr(self.toolkit, name, None)] is the lookup, and a name that
    gives no callable raises [AttributeError].  A reverse handler given
    for a checkpoint tool is dropped.  Tools registered before a failure
    stay registered. *)
Fixpoint register_tools (toolkit : gmap string (ForwardTool Args Result World))
    (self : ToolRollbackRegistry) (tool_names : list string)
    (reverse_map : gmap string (ReverseTool Args Result World))
  : outcome unit * ToolRollbackRegistry :=
  match tool_names with
  | [] => (Returned tt, self)
  | n :: rest =>
      match toolkit !! n with
      | None => (Raised ("Toolkit has no callable tool '" ++ n ++ "'"), self)
      | Some forward =>
          let reverse := if in_CHECKPOINT_TOOL_NAMES n then None else reverse_map !! n in
          match register_tool self (mkToolSpec n forward reverse) with
          | (Raised e, self') => (Raised e, self')
          | (Returned _, self') => register_tools toolkit self' rest reverse_map
          end
      end
  end.

(** A run of tool calls through [execute_and_record], by a caller that
    catches what a call raises and goes on with the next one. *)
Definition execute_all (m : module_state) (self : ToolRollbackRegistry)
    (calls : list (string * Args)) (w : World) : ToolRollbackRegistry * World :=
  foldl (λ st call, ((execute_and_record m st.1 call.1 call.2 st.2).1.2,
                     (execute_and_record m st.1 call.1 call.2 st.2).2))
    (self, w) calls.

(** What a record keeps of a forward call: the value returned, or [None]. *)
Definition result_of (o : outcome Result) : option Result :=
  match o with
  | Returned r => Some r
  | Raised _ => None
  end.

(** [new_records] are the records of forward calls made one after the
    other from the world [w], the last of which left the world [w']:
    each record names a registered tool; the call ran that tool's
    forward function on the record's arguments in the world the call
    before it had left ([ws] lists the worlds the calls left); and the
    record keeps what the call returned, or the text of what it raised,
    under the default timestamp. *)
Definition records_of_calls (m : module_state) (tools : gmap string Spec) (w : World)
    (new_records : list Rec) (w' : World) : Prop :=
  ∃ ws : list World,
    length ws = length new_records
    ∧ last (w :: ws) = Some w'
    ∧ ∀ i r, new_records !! i = Some r →
        ∃ spec w_before,
          tools !! tool_name r = Some spec
          ∧ (w :: ws) !! i = Some w_before
          ∧ ws !! i = Some (forward spec (args r) w_before).2
          ∧ result r = result_of (forward spec (args r) w_before).1
          ∧ match (forward spec (args r) w_before).1 with
            | Returned _ => success r = true ∧ error_message r = None
            | Raised e => success r = false ∧ error_message r = Some e
            end
          ∧ timestamp r = ToolInvocationRecord_timestamp_default m.

(** Registered tools whose effects can be taken back: a checkpoint tool
    leaves the world as it is, and any other tool has a reverse handler
    that, given the arguments and what the forward call returned, puts
    the world back as it was before that call. *)
Definition undoable (tools : gmap string Spec) : Prop :=
  ∀ n spec, tools !! n = Some spec →
    if in_CHECKPOINT_TOOL_NAMES n
    then ∀ a w, (forward spec a w).2 = w
    else ∃ rev, reverse spec = Some rev
                ∧ ∀ a w, (rev a (result_of (forward spec a w).1) (forward spec a w).2).2 = w.

(** *** What [rollback] does, record by record

    [reverse_handler] is the handler the loop body reaches for a record:
    none for a checkpoint tool, an unknown tool or a spec without
    [reverse].  The loop body never reads [record.success]. *)
Definition reverse_handler (tools : gmap string Spec) (record : Rec)
  : option (ReverseTool Args Result World) :=
  if in_CHECKPOINT_TOOL_NAMES (tool_name record) then None
  else spec ← tools !! tool_name record; reverse spec.

(** The world after one record has been visited: its handler, if it has
    one, applied to [(record.args, record.result)]. *)
Definition undo_record (tools : gmap string Spec) (w : World) (record : Rec) : World :=
  match reverse_handler tools record with
  | Some rev => (rev (args record) (result record) w).2
  | None => w
  end.

(** The entry a visited record adds to the returned list. *)
Definition undo_result (tools : gmap string Spec) (w : World) (record : Rec)
  : list ReverseInvocationResult :=
  if in_CHECKPOINT_TOOL_NAMES (tool_name record) then []
  else
    match reverse_handler tools record with
    | None => [no_reverse_result (tool_name record)]
    | Some rev =>
        match (rev (args record) (result record) w).1 with
        | Returned _ => [mkReverseInvocationResult (tool_name record) true None]
        | Raised e => [mkReverseInvocationResult (tool_name record) false (Some e)]
        end
    end.

Fixpoint undo_results (tools : gmap string Spec) (w : World) (records : list Rec)
  : list ReverseInvocationResult :=
  match records with
  | [] => []
  | record :: rest =>
      undo_result tools w record ++ undo_results tools (undo_record tools w record) rest
  end.

(** *** The undo contract in the words of the specification

    "for each record at positions [index .. len-1] in reverse order,
    invoke the reverse handler with (args, result) if success=true";
    "after successful completion the Track is logically truncated to
    length index".  These two definitions follow the specification, not
    the code; they are what [rollback] is compared with. *)
Definition spec_undo_record (tools : gmap string Spec) (w : World) (record : Rec) : World :=
  if success record then undo_record tools w record else w.

Definition spec_rollback_from (self : ToolRollbackRegistry) (index : nat) (w : World)
  : ToolRollbackRegistry * World :=
  ({| _tools := _tools self; _track := take index (_track self) |},
   foldl (spec_undo_record (_tools self)) w (List.rev (drop index (_track self)))).

(** A record with its [success] flag replaced. *)
Definition with_success (b : bool) (record : Rec) : Rec :=
  mkToolInvocationRecord (tool_name record) (args record) (result record) b
    (error_message record) (timestamp record).

End Registry.

Arguments ToolRollbackRegistry : clear implicits.

End Registry.

(** ** Python values and JSON

    The repositories store [session_state], [conversation_history] and
    [metadata] as JSON text and rebuild Python objects from it.  Dicts and
    lists are mutable objects that several variables may share, so they
    live in a heap and values refer to them by location: [x.copy()] makes
    a new object with the same members (a shallow copy), [json.loads]
    builds new objects all the way down. *)

Module Py.

(** A JSON document.  An object lists its members in order; the texts the
    repositories store come from [json.dumps] of Python dicts, whose keys
    are distinct. *)
#[warnings="-register-all"]
Inductive json : Type :=
| JNull
| JBool (b : bool)
| JInt (z : Z)
| JStr (s : string)
| JList (xs : list json)
| JDict (kvs : list (string * json)).

Definition loc : Type := nat.

Inductive pyval : Type :=
| PNone
| PBool (b : bool)
| PInt (z : Z)
| PStr (s : string)
| PRef (l : loc).

Inductive pyobj : Type :=
| PList (xs : list pyval)
| PDict (kvs : list (string * pyval)).

(** Objects are never freed; a new object takes the next location. *)
Abbreviation heap := (list pyobj).

Definition alloc (o : pyobj) (h : heap) : pyval * heap :=
  (PRef (length h), h ++ [o]).

(** A loop that builds one value per element while the heap grows. *)
Fixpoint map_heap {A B : Type} (f : A → heap → B * heap) (xs : list A) (h : heap)
  : list B * heap :=
  match xs with
  | [] => ([], h)
  | x :: rest =>
      let '(v, h1) := f x h in
      let '(vs, h2) := map_heap f rest h1 in
      (v :: vs, h2)
  end.

(** [json.loads]: every list and object of the document becomes a new
    heap object. *)
Fixpoint json_loads (j : json) (h : heap) : pyval * heap :=
  match j with
  | JNull => (PNone, h)
  | JBool b => (PBool b, h)
  | JInt z => (PInt z, h)
  | JStr s => (PStr s, h)
  | JList xs =>
      let '(vs, h') := map_heap json_loads xs h in
      alloc (PList vs) h'
  | JDict kvs =>
      let '(vs, h') :=
        map_heap (λ kv h, let '(v, h1) := json_loads kv.2 h in ((kv.1, v), h1)) kvs h in
      alloc (PDict vs) h'
  end.

(** [json.dumps], by the depth it may still descend.  It fails on a
    reference that leads nowhere and when the depth runs out. *)
Fixpoint dumps_fuel (n : nat) (h : heap) (v : pyval) : option json :=
  match v with
  | PNone => Some JNull
  | PBool b => Some (JBool b)
  | PInt z => Some (JInt z)
  | PStr s => Some (JStr s)
  | PRef l =>
      match n with
      | O => None
      | S n' =>
          match h !! l with
          | None => None
          | Some (PList xs) => JList <$> mapM (dumps_fuel n' h) xs
          | Some (PDict kvs) =>
              JDict <$> mapM (λ kv, pair kv.1 <$> dumps_fuel n' h kv.2) kvs
          end
      end
  end.

(** [json.dumps]: a chain of distinct objects is no longer than the heap,
    so this depth lets every acyclic value through; what it refuses is a
    circular reference, on which Python raises [ValueError]. *)
Definition json_dumps (h : heap) (v : pyval) : option json :=
  dumps_fuel (S (length h)) h v.

(** [x.copy()] for a dict or a list: a new object with the same members. *)
Definition copy (v : pyval) (h : heap) : option (pyval * heap) :=
  match v with
  | PRef l => o ← h !! l; Some (alloc o h)
  | _ => None
  end.

(** Whether a document is a list or an object, the values [json.loads]
    turns into objects that have a [copy] method. *)
Definition is_container (j : json) : bool :=
  match j with
  | JList _ | JDict _ => true
  | _ => false
  end.

(** Members of a dict. *)
Fixpoint dict_get {A : Type} (kvs : list (string * A)) (k : string) : option A :=
  match kvs with
  | [] => None
  | (k', x) :: rest => if bool_decide (k' = k) then Some x else dict_get rest k
  end.

(** [d[k]] on the object [d] refers to; [None] when [d] is no dict or
    has no such key. *)
Definition getitem (d : pyval) (k : string) (h : heap) : option pyval :=
  match d with
  | PRef l =>
      match h !! l with
      | Some (PDict kvs) => dict_get kvs k
      | _ => None
      end
  | _ => None
  end.

(** [d.get(k)] on the object [d] refers to: [None] (the outer one) when
    [d] is no dict. *)
Definition getitem_or_None (d : pyval) (k : string) (h : heap) : option pyval :=
  match d with
  | PRef l =>
      match h !! l with
      | Some (PDict kvs) => Some (default PNone (dict_get kvs k))
      | _ => None
      end
  | _ => None
  end.

(** [d[k] = x] on the members: an existing key keeps its place. *)
Fixpoint dict_set {A : Type} (kvs : list (string * A)) (k : string) (x : A)
  : list (string * A) :=
  match kvs with
  | [] => [(k, x)]
  | (k', x') :: rest =>
      if bool_decide (k' = k) then (k, x) :: rest else (k', x') :: dict_set rest k x
  end.

(** [d[k] = x] on the object [d] refers to; [None] when [d] is no dict
    ([TypeError]). *)
Definition setitem (d : pyval) (k : string) (x : pyval) (h : heap) : option heap :=
  match d with
  | PRef l =>
      match h !! l with
      | Some (PDict kvs) => Some (<[l := PDict (dict_set kvs k x)]> h)
      | _ => None
      end
  | _ => None
  end.

(** [xs.append(x)]. *)
Definition append (xs : pyval) (x : pyval) (h : heap) : option heap :=
  match xs with
  | PRef l =>
      match h !! l with
      | Some (PList vs) => Some (<[l := PList (vs ++ [x])]> h)
      | _ => None
      end
  | _ => None
  end.

(** Truth value of [x] ([if x], [x or y], [not x]); a dangling reference
    does not occur and counts as true. *)
Definition truthy (h : heap) (v : pyval) : bool :=
  match v with
  | PNone => false
  | PBool b => b
  | PInt z => negb (z =? 0)%Z
  | PStr s => negb (bool_decide (s = ""))
  | PRef l =>
      match h !! l with
      | Some (PList []) | Some (PDict []) => false
      | _ => true
      end
  end.

End Py.

(** ** The SQLite store

    One database file holds the three tables.  A table keeps its rows in
    rowid order; [seq] is the largest id handed out so far
    ([AUTOINCREMENT]).  The columns a repository writes beside the JSON
    text ([internal_session_id], [checkpoint_name], [is_auto],
    [created_at]) come from the same object as the text, in the one
    [INSERT] that writes a row, so a row is modelled once, with the three
    JSON members of the text kept as documents. *)

Module Store.
Import Py.

Record Table (R : Type) : Type := mkTable {
  rows : list R;
  seq : Z
}.
Arguments mkTable {R} rows seq.
Arguments rows {R} t.
Arguments seq {R} t.

Definition empty_table {R : Type} : Table R := mkTable [] 0.

(** [INSERT]: the new row takes the next id ([cursor.lastrowid]). *)
Definition insert {R : Type} (mk : Z → R) (t : Table R) : Z * Table R :=
  let id := (seq t + 1)%Z in
  (id, mkTable (rows t ++ [mk id]) id).

(** Table [checkpoints]. *)
Record CheckpointRow : Type := mkCheckpointRow {
  cp_id : Z;
  cp_internal_session_id : Z;
  cp_checkpoint_name : option string;
  cp_session_state : json;
  cp_conversation_history : json;
  cp_is_auto : bool;
  cp_created_at : Z;
  cp_metadata : json
}.

(** Table [internal_sessions]. *)
Record SessionRow : Type := mkSessionRow {
  s_id : Z;
  s_external_session_id : Z;
  s_agno_session_id : string;
  s_state_data : json;
  s_conversation_history : json;
  s_created_at : Z;
  s_is_current : bool;
  s_checkpoint_count : Z
}.

(** Table [external_sessions]; [data] holds the list of internal session
    ids and the current one. *)
Record ExternalRow : Type := mkExternalRow {
  es_id : Z;
  es_user_id : Z;
  es_session_name : string;
  es_is_active : bool;
  es_internal_session_ids : list string;
  es_current_internal_session_id : option string;
  es_updated_at : option Z
}.

Record Database : Type := mkDatabase {
  checkpoints : Table CheckpointRow;
  internal_sessions : Table SessionRow;
  external_sessions : Table ExternalRow
}.

Definition empty : Database := mkDatabase empty_table empty_table empty_table.

Definition with_checkpoints (d : Database) (t : Table CheckpointRow) : Database :=
  mkDatabase t (internal_sessions d) (external_sessions d).
Definition with_internal_sessions (d : Database) (t : Table SessionRow) : Database :=
  mkDatabase (checkpoints d) t (external_sessions d).
Definition with_external_sessions (d : Database) (t : Table ExternalRow) : Database :=
  mkDatabase (checkpoints d) (internal_sessions d) t.

(** [ORDER BY created_at DESC] over rows met in rowid order: rows with
    the same [created_at] keep their rowid order. *)
Fixpoint insert_newest {R : Type} (created_at : R → Z) (r : R) (sorted : list R) : list R :=
  match sorted with
  | [] => [r]
  | r' :: rest =>
      if (created_at r <? created_at r')%Z
      then r' :: insert_newest created_at r rest
      else r :: r' :: rest
  end.

Definition newest_first {R : Type} (created_at : R → Z) (rs : list R) : list R :=
  foldr (insert_newest created_at) [] rs.

(** *** checkpoints *)

(** [SELECT ... WHERE id = ?] *)
Definition select_checkpoint (d : Database) (id : Z) : option CheckpointRow :=
  head (filter (λ r, cp_id r = id) (rows (checkpoints d))).

(** [SELECT ... WHERE internal_session_id = ? [AND is_auto = 1]
    ORDER BY created_at DESC] *)
Definition select_checkpoints_by_session (d : Database) (internal_session_id : Z)
    (auto_only : bool) : list CheckpointRow :=
  newest_first cp_created_at
    (filter (λ r, cp_internal_session_id r = internal_session_id
                  ∧ (auto_only = true → cp_is_auto r = true))
       (rows (checkpoints d))).

(** [DELETE FROM checkpoints WHERE id = ?]; the second component is
    [cursor.rowcount]. *)
Definition delete_checkpoint (d : Database) (id : Z) : Database * nat :=
  let t := checkpoints d in
  (with_checkpoints d (mkTable (filter (λ r, cp_id r ≠ id) (rows t)) (seq t)),
   length (filter (λ r, cp_id r = id) (rows t))).

(** The two statements of [delete_auto_checkpoints]: the ids to keep
    ([... AND is_auto = 1 ORDER BY created_at DESC LIMIT ?]; a negative
    [LIMIT] is no limit), then the [DELETE] of the automatic checkpoints
    of the session whose id is not among them, or of all of them when
    there is nothing to keep. *)
Definition sql_limit {R : Type} (limit : Z) (rs : list R) : list R :=
  if (limit <? 0)%Z then rs else take (Z.to_nat limit) rs.

Definition select_keep_ids (d : Database) (internal_session_id : Z) (keep_latest : Z)
  : list Z :=
  cp_id <$> sql_limit keep_latest (select_checkpoints_by_session d internal_session_id true).

Definition delete_auto_checkpoints_sql (d : Database) (internal_session_id : Z)
    (keep_latest : Z) : Database * nat :=
  let t := checkpoints d in
  let keep_ids := select_keep_ids d internal_session_id keep_latest in
  let doomed (r : CheckpointRow) : bool :=
    match keep_ids with
    | [] => bool_decide (cp_internal_session_id r = internal_session_id) && cp_is_auto r
    | _ => bool_decide (cp_internal_session_id r = internal_session_id) && cp_is_auto r
           && bool_decide (cp_id r ∉ keep_ids)
    end in
  (with_checkpoints d (mkTable (filter (λ r, doomed r = false) (rows t)) (seq t)),
   length (filter (λ r, doomed r = true) (rows t))).

(** *** internal_sessions *)

Definition set_is_current (b : bool) (r : SessionRow) : SessionRow :=
  mkSessionRow (s_id r) (s_external_session_id r) (s_agno_session_id r) (s_state_data r)
    (s_conversation_history r) (s_created_at r) b (s_checkpoint_count r).

Definition map_sessions (f : SessionRow → SessionRow) (d : Database) : Database :=
  let t := internal_sessions d in
  with_internal_sessions d (mkTable (f <$> rows t) (seq t)).

(** [UPDATE internal_sessions SET is_current = 0
     WHERE external_session_id = ?], with [AND id != ?] when an id to
    leave out is given. *)
Definition sql_mark_not_current (d : Database) (external_session_id : Z)
    (exclude_id : option Z) : Database :=
  map_sessions
    (λ r, if bool_decide (s_external_session_id r = external_session_id)
             && bool_decide (Some (s_id r) ≠ exclude_id)
          then set_is_current false r else r) d.

(** [UPDATE internal_sessions SET is_current = 1 WHERE id = ?] *)
Definition sql_mark_current (d : Database) (id : Z) : Database :=
  map_sessions (λ r, if bool_decide (s_id r = id) then set_is_current true r else r) d.

(** [UPDATE internal_sessions SET state_data = ?, conversation_history = ?,
     is_current = ?, checkpoint_count = ? WHERE id = ?] *)
Definition sql_update_session (d : Database) (id : Z) (state_data conversation_history : json)
    (is_current : bool) (checkpoint_count : Z) : Database :=
  map_sessions
    (λ r, if bool_decide (s_id r = id)
          then mkSessionRow (s_id r) (s_external_session_id r) (s_agno_session_id r)
                 state_data conversation_history (s_created_at r) is_current checkpoint_count
          else r) d.

Definition select_session (d : Database) (id : Z) : option SessionRow :=
  head (filter (λ r, s_id r = id) (rows (internal_sessions d))).

(** [SELECT ... WHERE agno_session_id = ?], first row. *)
Definition select_session_by_agno (d : Database) (agno_session_id : string)
  : option SessionRow :=
  head (filter (λ r, s_agno_session_id r = agno_session_id) (rows (internal_sessions d))).

(** [SELECT ... WHERE external_session_id = ? ORDER BY created_at DESC] *)
Definition select_sessions_by_external (d : Database) (external_session_id : Z)
  : list SessionRow :=
  newest_first s_created_at
    (filter (λ r, s_external_session_id r = external_session_id)
       (rows (internal_sessions d))).

(** [SELECT ... WHERE external_session_id = ? AND is_current = 1 LIMIT 1] *)
Definition select_current_session (d : Database) (external_session_id : Z)
  : option SessionRow :=
  head (filter (λ r, s_external_session_id r = external_session_id ∧ s_is_current r = true)
          (rows (internal_sessions d))).

(** The rows of an external session that are marked current. *)
Definition current_sessions (d : Database) (external_session_id : Z) : list SessionRow :=
  filter (λ r, s_external_session_id r = external_session_id ∧ s_is_current r = true)
    (rows (internal_sessions d)).

(** *** external_sessions *)

Definition select_external_session (d : Database) (id : Z) : option ExternalRow :=
  head (filter (λ r, es_id r = id) (rows (external_sessions d))).

(** [UPDATE external_sessions SET session_name = ?, updated_at = ?,
     is_active = ?, data = ? WHERE id = ?] *)
Definition sql_update_external_session (d : Database) (new : ExternalRow) : Database :=
  let t := external_sessions d in
  with_external_sessions d
    (mkTable ((λ r, if bool_decide (es_id r = es_id new)
                    then mkExternalRow (es_id r) (es_user_id r) (es_session_name new)
                           (es_is_active new) (es_internal_session_ids new)
                           (es_current_internal_session_id new) (es_updated_at new)
                    else r) <$> rows t) (seq t)).

End Store.

(** ** The running program: heap, database, clock and tool track

    A method is a function of the machine state that returns or raises;
    what it did to the heap and the database before raising stays done
    (every statement of the repositories commits on its own).  [track] is
    the track of the tool registry the integrator runs beside the agent:
    the agent of these sources holds no registry, and none of its methods
    reads or writes the track. *)

Record Machine : Type := mkMachine {
  pyheap : Py.heap;
  db : Store.Database;
  clock : Z;
  track : list (Protocol.ToolInvocationRecord Py.pyval Py.pyval)
}.

Definition M (A : Type) : Type := Machine → outcome A * Machine.

#[global] Instance M_ret : MRet M := λ A a m, (Returned a, m).
#[global] Instance M_bind : MBind M := λ A B f c m,
  match c m with
  | (Returned a, m') => f a m'
  | (Raised e, m') => (Raised e, m')
  end.

Definition raise {A : Type} (e : string) : M A := λ m, (Raised e, m).

(** [datetime.now()] *)
Definition now : M Z := λ m, (Returned (clock m), m).

Definition get_db : M Store.Database := λ m, (Returned (db m), m).
Definition put_db (d : Store.Database) : M unit :=
  λ m, (Returned tt, mkMachine (pyheap m) d (clock m) (track m)).
Definition get_heap : M Py.heap := λ m, (Returned (pyheap m), m).
Definition put_heap (h : Py.heap) : M unit :=
  λ m, (Returned tt, mkMachine h (db m) (clock m) (track m)).

(** A heap operation that builds a value. *)
Definition on_heap {A : Type} (f : Py.heap → A * Py.heap) : M A :=
  λ m, let '(a, h) := f (pyheap m) in (Returned a, mkMachine h (db m) (clock m) (track m)).

(** A heap operation that may fail, with the exception it then raises. *)
Definition try_heap {A : Type} (e : string) (f : Py.heap → option (A * Py.heap)) : M A :=
  λ m, match f (pyheap m) with
       | Some (a, h) => (Returned a, mkMachine h (db m) (clock m) (track m))
       | None => (Raised e, m)
       end.

Definition py_copy (v : Py.pyval) : M Py.pyval :=
  try_heap "AttributeError: object has no attribute 'copy'" (Py.copy v).

(** [d[k] = x] *)
Definition py_setitem (d : Py.pyval) (k : string) (x : Py.pyval) : M unit :=
  try_heap "TypeError: object does not support item assignment"
    (λ h, h' ← Py.setitem d k x h; Some (tt, h')).

(** [d.get(k)]: the member, or [None] when the dict has no such key. *)
Definition py_get (d : Py.pyval) (k : string) : M Py.pyval :=
  λ m, match Py.getitem_or_None d k (pyheap m) with
       | Some v => (Returned v, m)
       | None => (Raised "AttributeError: object has no attribute 'get'", m)
       end.

Definition py_dumps (v : Py.pyval) : M Py.json :=
  λ m, match Py.json_dumps (pyheap m) v with
       | Some j => (Returned j, m)
       | None => (Raised "ValueError: Circular reference detected", m)
       end.

Definition py_loads (j : Py.json) : M Py.pyval := on_heap (Py.json_loads j).

Definition py_new (o : Py.pyobj) : M Py.pyval := on_heap (Py.alloc o).

(** [v or <new object>] *)
Definition py_or_new (v : Py.pyval) (o : Py.pyobj) : M Py.pyval :=
  λ m, if Py.truthy (pyheap m) v then (Returned v, m) else py_new o m.

(** A [for] loop that collects one result per element. *)
Fixpoint for_each {A B : Type} (f : A → M B) (xs : list A) : M (list B) :=
  match xs with
  | [] => mret []
  | x :: rest => y ← f x; ys ← for_each f rest; mret (y :: ys)
  end.

(** ** src/checkpoints/checkpoint.py, src/sessions/internal_session.py,
       src/sessions/external_session.py: the in-memory objects *)

Module Checkpoint.
Import Py.

Record t : Type := mk {
  id : option Z;
  internal_session_id : option Z;
  checkpoint_name : option string;
  session_state : pyval;
  conversation_history : pyval;
  is_auto : bool;
  created_at : option Z;
  metadata : pyval
}.

Definition with_id (c : t) (i : option Z) : t :=
  mk i (internal_session_id c) (checkpoint_name c) (session_state c)
    (conversation_history c) (is_auto c) (created_at c) (metadata c).

Definition with_created_at (c : t) (ts : option Z) : t :=
  mk (id c) (internal_session_id c) (checkpoint_name c) (session_state c)
    (conversation_history c) (is_auto c) ts (metadata c).

End Checkpoint.

Module InternalSession.
Import Py.

Record t : Type := mk {
  id : option Z;
  external_session_id : Z;
  agno_session_id : string;
  session_state : pyval;
  conversation_history : pyval;
  created_at : option Z;
  is_current : bool;
  checkpoint_count : Z
}.

Definition with_id (s : t) (i : option Z) : t :=
  mk i (external_session_id s) (agno_session_id s) (session_state s)
    (conversation_history s) (created_at s) (is_current s) (checkpoint_count s).

Definition with_created_at (s : t) (ts : option Z) : t :=
  mk (id s) (external_session_id s) (agno_session_id s) (session_state s)
    (conversation_history s) ts (is_current s) (checkpoint_count s).

Definition with_session_state (s : t) (v : pyval) : t :=
  mk (id s) (external_session_id s) (agno_session_id s) v
    (conversation_history s) (created_at s) (is_current s) (checkpoint_count s).

Definition with_conversation_history (s : t) (v : pyval) : t :=
  mk (id s) (external_session_id s) (agno_session_id s) (session_state s)
    v (created_at s) (is_current s) (checkpoint_count s).

Definition with_checkpoint_count (s : t) (n : Z) : t :=
  mk (id s) (external_session_id s) (agno_session_id s) (session_state s)
    (conversation_history s) (created_at s) (is_current s) n.

(** [add_message]: a new message dict is appended to the history list. *)
Definition add_message (self : t) (role content : string) : M unit :=
  ts ← now;
  message ← py_new (PDict [("role", PStr role); ("content", PStr content);
                           ("timestamp", PInt ts)]);
  try_heap "AttributeError: object has no attribute 'append'"
    (λ h, h' ← append (conversation_history self) message h; Some (tt, h')).

End InternalSession.

(** An id as [if x.id:] reads it: set and not zero. *)
Definition truthy_id (i : option Z) : option Z :=
  match i with
  | Some x => if (x =? 0)%Z then None else Some x
  | None => None
  end.

(** [Checkpoint.from_internal_session]: shallow copies of the session's
    state and history, the creation time, and a fresh metadata dict with
    the keys [agno_session_id] and [checkpoint_count]. *)
Definition from_internal_session (internal_session : InternalSession.t)
    (checkpoint_name : option string) (is_auto : bool) : M Checkpoint.t :=
  state ← py_copy (InternalSession.session_state internal_session);
  history ← py_copy (InternalSession.conversation_history internal_session);
  ts ← now;
  metadata ← py_new (Py.PDict
    [("agno_session_id", Py.PStr (InternalSession.agno_session_id internal_session));
     ("checkpoint_count", Py.PInt (InternalSession.checkpoint_count internal_session + 1))]);
  mret (Checkpoint.mk None (InternalSession.id internal_session) checkpoint_name
          state history is_auto (Some ts) metadata).

(** The metadata [from_internal_session] gives a checkpoint, as stored. *)
Definition snapshot_metadata (s : InternalSession.t) : Py.json :=
  Py.JDict [("agno_session_id", Py.JStr (InternalSession.agno_session_id s));
            ("checkpoint_count", Py.JInt (InternalSession.checkpoint_count s + 1))].

(** A member of a stored object. *)
Definition json_member (j : Py.json) (k : string) : option Py.json :=
  match j with
  | Py.JDict kvs => Py.dict_get kvs k
  | _ => None
  end.

(** ** src/database/repositories/checkpoint_repository.py *)

Module CheckpointRepository.
Import Py Store.

(** [create]: the creation time is filled in when missing, the object is
    serialised, the row inserted, and the object takes the row's id. *)
Definition create (checkpoint : Checkpoint.t) : M Checkpoint.t :=
  created_at ← match Checkpoint.created_at checkpoint with
               | Some ts => mret ts
               | None => now
               end;
  state ← py_dumps (Checkpoint.session_state checkpoint);
  history ← py_dumps (Checkpoint.conversation_history checkpoint);
  metadata ← py_dumps (Checkpoint.metadata checkpoint);
  match Checkpoint.internal_session_id checkpoint with
  | None => raise "IntegrityError: NOT NULL constraint failed: checkpoints.internal_session_id"
  | Some sid =>
      d ← get_db;
      let '(id, t) :=
        insert (λ id, mkCheckpointRow id sid (Checkpoint.checkpoint_name checkpoint)
                        state history (Checkpoint.is_auto checkpoint) created_at metadata)
          (checkpoints d) in
      _ ← put_db (with_checkpoints d t);
      mret (Checkpoint.with_id (Checkpoint.with_created_at checkpoint (Some created_at))
              (Some id))
  end.

(** [_row_to_checkpoint]: [json.loads] of the stored text, then
    [Checkpoint.from_dict]; the id is the row's. *)
Definition _row_to_checkpoint (row : CheckpointRow) : M Checkpoint.t :=
  state ← py_loads (cp_session_state row);
  history ← py_loads (cp_conversation_history row);
  metadata ← py_loads (cp_metadata row);
  mret (Checkpoint.mk (Some (cp_id row)) (Some (cp_internal_session_id row))
          (cp_checkpoint_name row) state history (cp_is_auto row)
          (Some (cp_created_at row)) metadata).

Definition get_by_id (checkpoint_id : Z) : M (option Checkpoint.t) :=
  d ← get_db;
  match select_checkpoint d checkpoint_id with
  | Some row => c ← _row_to_checkpoint row; mret (Some c)
  | None => mret None
  end.

Definition get_by_internal_session (internal_session_id : Z) (auto_only : bool)
  : M (list Checkpoint.t) :=
  d ← get_db;
  for_each _row_to_checkpoint (select_checkpoints_by_session d internal_session_id auto_only).

Definition delete (checkpoint_id : Z) : M bool :=
  d ← get_db;
  let '(d', rowcount) := delete_checkpoint d checkpoint_id in
  _ ← put_db d';
  mret (bool_decide (0 < rowcount)%nat).

Definition delete_auto_checkpoints (internal_session_id : Z) (keep_latest : Z) : M nat :=
  d ← get_db;
  let '(d', rowcount) := delete_auto_checkpoints_sql d internal_session_id keep_latest in
  _ ← put_db d';
  mret rowcount.

(** [get_latest_checkpoint]: [... ORDER BY created_at DESC LIMIT 1]. *)
Definition get_latest_checkpoint (internal_session_id : Z) : M (option Checkpoint.t) :=
  d ← get_db;
  match head (select_checkpoints_by_session d internal_session_id false) with
  | Some row => c ← _row_to_checkpoint row; mret (Some c)
  | None => mret None
  end.

(** The dict [count_checkpoints] returns. *)
Record Counts : Type := mkCounts {
  count_total : nat;
  count_auto : nat;
  count_manual : nat
}.

(** [count_checkpoints]: [COUNT( * )] and the two [SUM(CASE ...)] over
    the checkpoints of the session; over no row a [SUM] is [NULL], which
    [or 0] makes 0. *)
Definition count_checkpoints (internal_session_id : Z) : M Counts :=
  d ← get_db;
  let rs := filter (λ r, cp_internal_session_id r = internal_session_id)
              (rows (checkpoints d)) in
  mret (mkCounts (length rs)
          (length (filter (λ r, cp_is_auto r = true) rs))
          (length (filter (λ r, cp_is_auto r = false) rs))).

End CheckpointRepository.

(** ** src/database/repositories/internal_session_repository.py *)

Module InternalSessionRepository.
Import Py Store.

(** [_mark_all_not_current]: [if exclude_id:] picks the statement. *)
Definition _mark_all_not_current (external_session_id : Z) (exclude_id : option Z) : M unit :=
  d ← get_db;
  put_db (sql_mark_not_current d external_session_id (truthy_id exclude_id)).

(** [create]: when the new session is current the others of its external
    session are demoted first; then the row is inserted
    ([agno_session_id] is [UNIQUE]). *)
Definition create (session : InternalSession.t) : M InternalSession.t :=
  created_at ← match InternalSession.created_at session with
               | Some ts => mret ts
               | None => now
               end;
  _ ← (if InternalSession.is_current session
       then _mark_all_not_current (InternalSession.external_session_id session) None
       else mret tt);
  state ← py_dumps (InternalSession.session_state session);
  history ← py_dumps (InternalSession.conversation_history session);
  d ← get_db;
  if bool_decide (InternalSession.agno_session_id session
                    ∈ s_agno_session_id <$> rows (internal_sessions d))
  then raise "IntegrityError: UNIQUE constraint failed: internal_sessions.agno_session_id"
  else
    let '(id, t) :=
      insert (λ id, mkSessionRow id (InternalSession.external_session_id session)
                      (InternalSession.agno_session_id session) state history created_at
                      (InternalSession.is_current session)
                      (InternalSession.checkpoint_count session))
        (internal_sessions d) in
    _ ← put_db (with_internal_sessions d t);
    mret (InternalSession.with_id
            (InternalSession.with_created_at session (Some created_at)) (Some id)).

(** [update]: nothing without an id; when the session is current the
    others of [session.external_session_id] are demoted; then the row
    with [session.id] is rewritten.  Returns [cursor.rowcount > 0]. *)
Definition update (session : InternalSession.t) : M bool :=
  match truthy_id (InternalSession.id session) with
  | None => mret false
  | Some id =>
      _ ← (if InternalSession.is_current session
           then _mark_all_not_current (InternalSession.external_session_id session)
                  (InternalSession.id session)
           else mret tt);
      state ← py_dumps (InternalSession.session_state session);
      history ← py_dumps (InternalSession.conversation_history session);
      d ← get_db;
      _ ← put_db (sql_update_session d id state history
                    (InternalSession.is_current session)
                    (InternalSession.checkpoint_count session));
      mret (bool_decide (is_Some (select_session d id)))
  end.

Definition _row_to_session (row : SessionRow) : M InternalSession.t :=
  state ← py_loads (s_state_data row);
  history ← py_loads (s_conversation_history row);
  mret (InternalSession.mk (Some (s_id row)) (s_external_session_id row)
          (s_agno_session_id row) state history (Some (s_created_at row))
          (s_is_current row) (s_checkpoint_count row)).

Definition get_by_id (session_id : Z) : M (option InternalSession.t) :=
  d ← get_db;
  match select_session d session_id with
  | Some row => s ← _row_to_session row; mret (Some s)
  | None => mret None
  end.

Definition get_current_session (external_session_id : Z) : M (option InternalSession.t) :=
  d ← get_db;
  match select_current_session d external_session_id with
  | Some row => s ← _row_to_session row; mret (Some s)
  | None => mret None
  end.

(** [set_current_session]: the row is read first, and the sessions
    demoted are those of the external session the row belongs to. *)
Definition set_current_session (session_id : Z) : M bool :=
  session ← get_by_id session_id;
  match session with
  | None => mret false
  | Some session =>
      _ ← _mark_all_not_current (InternalSession.external_session_id session) None;
      d ← get_db;
      _ ← put_db (sql_mark_current d session_id);
      mret (bool_decide (is_Some (select_session d session_id)))
  end.

(** A session object that stands for a row: the same attributes, and
    containers that read back as the row's documents. *)
Definition represents (h : heap) (s : InternalSession.t) (row : SessionRow) : Prop :=
  InternalSession.id s = Some (s_id row)
  ∧ InternalSession.external_session_id s = s_external_session_id row
  ∧ InternalSession.agno_session_id s = s_agno_session_id row
  ∧ InternalSession.created_at s = Some (s_created_at row)
  ∧ InternalSession.is_current s = s_is_current row
  ∧ InternalSession.checkpoint_count s = s_checkpoint_count row
  ∧ json_dumps h (InternalSession.session_state s) = Some (s_state_data row)
  ∧ json_dumps h (InternalSession.conversation_history s)
    = Some (s_conversation_history row).

Definition get_by_agno_session_id (agno_session_id : string)
  : M (option InternalSession.t) :=
  d ← get_db;
  match select_session_by_agno d agno_session_id with
  | Some row => s ← _row_to_session row; mret (Some s)
  | None => mret None
  end.

Definition get_by_external_session (external_session_id : Z)
  : M (list InternalSession.t) :=
  d ← get_db;
  for_each _row_to_session (select_sessions_by_external d external_session_id).

(** [count_sessions]: [SELECT COUNT( * ) ... WHERE external_session_id = ?] *)
Definition count_sessions (external_session_id : Z) : M nat :=
  d ← get_db;
  mret (length (filter (λ r, s_external_session_id r = external_session_id)
                  (rows (internal_sessions d)))).

End InternalSessionRepository.

(** ** src/database/repositories/external_session_repository.py *)

(** The methods of [ExternalSession] (src/sessions/external_session.py)
    on the object; a row of the table stands for the object loaded from
    it. *)
Module ExternalSession.
Import Store.

(** [add_internal_session]: an id that is not in the list yet is
    appended and becomes the current one. *)
Definition add_internal_session (self : ExternalRow) (agno_session_id : string)
  : ExternalRow :=
  if bool_decide (agno_session_id ∈ es_internal_session_ids self) then self
  else mkExternalRow (es_id self) (es_user_id self) (es_session_name self)
         (es_is_active self) (es_internal_session_ids self ++ [agno_session_id])
         (Some agno_session_id) (es_updated_at self).

(** [set_current_internal_session]: the value returned and the object
    afterwards. *)
Definition set_current_internal_session (self : ExternalRow) (agno_session_id : string)
  : bool * ExternalRow :=
  if bool_decide (agno_session_id ∈ es_internal_session_ids self)
  then (true,
        mkExternalRow (es_id self) (es_user_id self) (es_session_name self)
          (es_is_active self) (es_internal_session_ids self) (Some agno_session_id)
          (es_updated_at self))
  else (false, self).

Definition with_updated_at (self : ExternalRow) (ts : option Z) : ExternalRow :=
  mkExternalRow (es_id self) (es_user_id self) (es_session_name self) (es_is_active self)
    (es_internal_session_ids self) (es_current_internal_session_id self) ts.

Definition with_is_active (self : ExternalRow) (b : bool) : ExternalRow :=
  mkExternalRow (es_id self) (es_user_id self) (es_session_name self) b
    (es_internal_session_ids self) (es_current_internal_session_id self)
    (es_updated_at self).

(** The list of internal sessions has no id twice, and the current one
    is in the list. *)
Definition wf (self : ExternalRow) : Prop :=
  NoDup (es_internal_session_ids self)
  ∧ ∀ a, es_current_internal_session_id self = Some a → a ∈ es_internal_session_ids self.

End ExternalSession.

Module ExternalSessionRepository.
Import Store.

(** [ExternalSession.add_internal_session] followed by [update]. *)
Definition add_internal_session (external_session_id : Z) (agno_session_id : string)
  : M bool :=
  d ← get_db;
  match select_external_session d external_session_id with
  | None => mret false
  | Some session =>
      ts ← now;
      let session' :=
        if bool_decide (agno_session_id ∈ es_internal_session_ids session)
        then mkExternalRow (es_id session) (es_user_id session) (es_session_name session)
               (es_is_active session) (es_internal_session_ids session)
               (es_current_internal_session_id session) (Some ts)
        else mkExternalRow (es_id session) (es_user_id session) (es_session_name session)
               (es_is_active session) (es_internal_session_ids session ++ [agno_session_id])
               (Some agno_session_id) (Some ts) in
      if bool_decide (es_id session = 0)
      then mret false
      else
        _ ← put_db (sql_update_external_session d session');
        mret true
  end.

Definition get_by_id (session_id : Z) : M (option ExternalRow) :=
  d ← get_db; mret (select_external_session d session_id).

(** [update]: nothing without an id; [updated_at] becomes now and the
    row with the id is rewritten.  Returns [cursor.rowcount > 0]. *)
Definition update (session : ExternalRow) : M bool :=
  if bool_decide (es_id session = 0) then mret false
  else
    ts ← now;
    d ← get_db;
    _ ← put_db (sql_update_external_session d
                  (ExternalSession.with_updated_at session (Some ts)));
    mret (bool_decide (is_Some (select_external_session d (es_id session)))).

Definition set_current_internal_session (external_session_id : Z)
    (agno_session_id : string) : M bool :=
  session ← get_by_id external_session_id;
  match session with
  | None => mret false
  | Some session =>
      let '(found, session') :=
        ExternalSession.set_current_internal_session session agno_session_id in
      if found then update session' else mret false
  end.

(** [deactivate]: the soft delete. *)
Definition deactivate (session_id : Z) : M bool :=
  session ← get_by_id session_id;
  match session with
  | None => mret false
  | Some session =>
      ts ← now;
      update (ExternalSession.with_updated_at
                (ExternalSession.with_is_active session false) (Some ts))
  end.

(** [check_ownership]: [SELECT COUNT( * ) ... WHERE id = ? AND user_id = ?] *)
Definition check_ownership (session_id user_id : Z) : M bool :=
  d ← get_db;
  mret (bool_decide
          (0 < length (filter (λ r, es_id r = session_id ∧ es_user_id r = user_id)
                         (rows (external_sessions d))))%nat).

End ExternalSessionRepository.

(** ** Strings: [in], [strip], [rstrip], [endswith]

    [str.lower] is not defined here: the functions that call it take it
    as a parameter, and what is proved of them holds for every such
    function. *)

Module PyStr.

(** [needle in haystack] *)
Fixpoint contains (needle haystack : string) : bool :=
  String.prefix needle haystack
  || match haystack with
     | EmptyString => false
     | String _ rest => contains needle rest
     end.

(** Characters are code points below 256; [str.strip()] removes the
    white space of that range: tab to carriage return, the four
    separators, the space, NEL and the no-break space. *)
Definition is_space (a : Ascii.ascii) : bool :=
  let n := Ascii.nat_of_ascii a in
  (9 <=? n)%nat && (n <=? 13)%nat || (28 <=? n)%nat && (n <=? 32)%nat
  || (n =? 133)%nat || (n =? 160)%nat.

(** [s.lstrip(...)] and [s.rstrip(...)] for the characters [p] accepts. *)
Fixpoint lstrip (p : Ascii.ascii → bool) (s : string) : string :=
  match s with
  | EmptyString => EmptyString
  | String a rest => if p a then lstrip p rest else s
  end.

Fixpoint rstrip (p : Ascii.ascii → bool) (s : string) : string :=
  match s with
  | EmptyString => EmptyString
  | String a rest =>
      match rstrip p rest with
      | EmptyString => if p a then EmptyString else String a EmptyString
      | rest' => String a rest'
      end
  end.

(** [s.strip()] *)
Definition strip (s : string) : string := rstrip is_space (lstrip is_space s).

Definition is_slash (a : Ascii.ascii) : bool := (Ascii.nat_of_ascii a =? 47)%nat.

(** [s.endswith("/")] *)
Fixpoint ends_with_slash (s : string) : bool :=
  match s with
  | EmptyString => false
  | String a EmptyString => is_slash a
  | String _ rest => ends_with_slash rest
  end.

End PyStr.

(** ** src/agents/rollback_agent.py *)

Module RollbackAgent.
Import Py Store.

(** The attributes of a [RollbackAgent] the checkpoint code reads and
    writes.  The two repositories are handles on the one database; an
    agent may have been built without them ([None]).  [session_state] is
    the attribute of the Agno [Agent] base class: the value given to the
    constructor, or [None]. *)
Record t : Type := mk {
  external_session_id : Z;
  agno_session_id : string;
  auto_checkpoint : bool;
  internal_session_repo : bool;
  checkpoint_repo : bool;
  session_state : pyval;
  internal_session : option InternalSession.t;
  _restored_from_checkpoint : bool;
  _restored_history : pyval;
  _tool_was_called : bool;
  _last_tool_called : option string
}.

Definition with_internal_session (a : t) (s : option InternalSession.t) : t :=
  mk (external_session_id a) (agno_session_id a) (auto_checkpoint a)
    (internal_session_repo a) (checkpoint_repo a) (session_state a) s
    (_restored_from_checkpoint a) (_restored_history a) (_tool_was_called a)
    (_last_tool_called a).

Definition with_restored (a : t) (flag : bool) (history : pyval) : t :=
  mk (external_session_id a) (agno_session_id a) (auto_checkpoint a)
    (internal_session_repo a) (checkpoint_repo a) (session_state a) (internal_session a)
    flag history (_tool_was_called a) (_last_tool_called a).

(** What a built-in tool answers; each constructor stands for one of the
    messages the method returns. *)
Inductive reply : Type :=
| CheckpointCreated (name : string) (id : option Z)
| CheckpointNotCreated
| Unavailable
| NoActiveSession
| CheckpointNotFound
| RollbackRequested (id : option Z) (name : option string)
| CleanedUp (deleted : nat) (keep_latest : Z)
| NothingToCleanUp.

(** [self.internal_session], or [AttributeError] on [None]. *)
Definition the_session (self : t) : M InternalSession.t :=
  match internal_session self with
  | Some s => mret s
  | None => raise "AttributeError: 'NoneType' object has no attribute"
  end.

(** [_create_internal_session]: the new session is current; its state is
    [self.session_state or {}] (the agent's own dict when that is not
    empty), its history a new list. *)
Definition _create_internal_session (self : t) : M InternalSession.t :=
  state ← py_or_new (session_state self) (PDict []);
  ts ← now;
  history ← py_new (PList []);
  let internal_session :=
    InternalSession.mk None (external_session_id self) (agno_session_id self)
      state history (Some ts) true 0 in
  if internal_session_repo self
  then InternalSessionRepository.create internal_session
  else mret internal_session.

Definition _register_with_external_session (self : t) : M unit :=
  _ ← ExternalSessionRepository.add_internal_session
        (external_session_id self) (agno_session_id self);
  mret tt.

(** [__init__]: [agno_session_id] is the fresh random id, [session_state]
    the constructor argument handed on to the Agno [Agent]. *)
Definition init (external_session_id : Z) (agno_session_id : string)
    (auto_checkpoint internal_session_repo checkpoint_repo skip_session_creation : bool)
    (session_state : option pyval) : M t :=
  restored_history ← py_new (PList []);
  let self :=
    mk external_session_id agno_session_id auto_checkpoint internal_session_repo
      checkpoint_repo (default PNone session_state) None false restored_history
      false None in
  if skip_session_creation then mret self
  else
    s ← _create_internal_session self;
    _ ← _register_with_external_session (with_internal_session self (Some s));
    mret (with_internal_session self (Some s)).

Definition _save_internal_session (self : t) : M unit :=
  if internal_session_repo self
  then
    s ← the_session self;
    if bool_decide (is_Some (truthy_id (InternalSession.id s)))
    then _ ← InternalSessionRepository.update s; mret tt
    else mret tt
  else mret tt.

(** [self.internal_session.checkpoint_count += 1] *)
Definition bump_checkpoint_count (self : t) (s : InternalSession.t) : t :=
  with_internal_session self
    (Some (InternalSession.with_checkpoint_count s (InternalSession.checkpoint_count s + 1))).

(** [_create_auto_checkpoint] *)
Definition _create_auto_checkpoint (self : t) (name : string) : M t :=
  if checkpoint_repo self
  then
    s ← the_session self;
    if bool_decide (is_Some (truthy_id (InternalSession.id s)))
    then
      checkpoint ← from_internal_session s (Some name) true;
      _ ← CheckpointRepository.create checkpoint;
      mret (bump_checkpoint_count self s)
    else mret self
  else mret self.

(** The name a manual checkpoint gets when none is given. *)
Definition default_name (strftime : Z → string) : M string :=
  ts ← now; mret (String.append "Checkpoint at " (strftime ts)).

(** [create_checkpoint_tool]; [strftime] renders the clock reading for
    the default name. *)
Definition create_checkpoint_tool (strftime : Z → string) (self : t) (name : option string)
  : M (reply * t) :=
  name ← match name with
         | Some n => if bool_decide (n = "") then default_name strftime else mret n
         | None => default_name strftime
         end;
  if checkpoint_repo self
  then
    s ← the_session self;
    if bool_decide (is_Some (truthy_id (InternalSession.id s)))
    then
      checkpoint ← from_internal_session s (Some name) false;
      saved_checkpoint ← CheckpointRepository.create checkpoint;
      let self' := bump_checkpoint_count self s in
      _ ← _save_internal_session self';
      mret (CheckpointCreated name (Checkpoint.id saved_checkpoint), self')
    else mret (CheckpointNotCreated, self)
  else mret (CheckpointNotCreated, self).

(** [cp.checkpoint_name and
     cp.checkpoint_name.lower() == checkpoint_name_lower]; [lower] is
    the method [str.lower]. *)
Definition name_matches (lower : string → string) (checkpoint_name_lower : string)
    (checkpoint_name : option string) : bool :=
  match checkpoint_name with
  | Some n => bool_decide (n ≠ "") && bool_decide (lower n = checkpoint_name_lower)
  | None => false
  end.

(** The [for cp in all_checkpoints: ... break] loop of
    [rollback_to_checkpoint_tool]. *)
Fixpoint find_by_name (lower : string → string) (checkpoint_name_lower : string)
    (all_checkpoints : list Checkpoint.t) : option Checkpoint.t :=
  match all_checkpoints with
  | [] => None
  | cp :: rest =>
      if name_matches lower checkpoint_name_lower (Checkpoint.checkpoint_name cp)
      then Some cp
      else find_by_name lower checkpoint_name_lower rest
  end.

(** [rollback_to_checkpoint_tool].  The argument is an id (an [int]) or a
    name (a [str]); [py_int] is the built-in [int] on strings, [None]
    when it raises [ValueError], and [lower] is [str.lower]. *)
Definition lookup_by_name (lower : string → string) (self : t) (name : string)
  : M (option Checkpoint.t) :=
  match internal_session self with
  | Some s =>
      match truthy_id (InternalSession.id s) with
      | Some sid =>
          all_checkpoints ← CheckpointRepository.get_by_internal_session sid false;
          let checkpoint_name_lower := lower name in
          mret (find_by_name lower checkpoint_name_lower all_checkpoints)
      | None => mret None
      end
  | None => mret None
  end.

Definition rollback_to_checkpoint_tool (py_int : string → option Z)
    (lower : string → string) (self : t) (checkpoint_id_or_name : Z + string) : M reply :=
  if negb (checkpoint_repo self) then mret Unavailable
  else
    checkpoint ←
      match checkpoint_id_or_name with
      | inl checkpoint_id => CheckpointRepository.get_by_id checkpoint_id
      | inr s =>
          match py_int s with
          | Some checkpoint_id => CheckpointRepository.get_by_id checkpoint_id
          | None => lookup_by_name lower self s
          end
      end;
    match checkpoint with
    | None => mret CheckpointNotFound
    | Some checkpoint =>
        _ ← py_setitem (session_state self) "rollback_requested" (PBool true);
        _ ← py_setitem (session_state self) "rollback_checkpoint_id"
              (from_option PInt PNone (Checkpoint.id checkpoint));
        mret (RollbackRequested (Checkpoint.id checkpoint) (Checkpoint.checkpoint_name checkpoint))
    end.

(** [cleanup_auto_checkpoints_tool] *)
Definition cleanup_auto_checkpoints_tool (self : t) (keep_latest : Z) : M reply :=
  if negb (checkpoint_repo self) then mret NoActiveSession
  else
    s ← the_session self;
    match truthy_id (InternalSession.id s) with
    | None => mret NoActiveSession
    | Some sid =>
        deleted_count ← CheckpointRepository.delete_auto_checkpoints sid keep_latest;
        if bool_decide (0 < deleted_count)%nat
        then mret (CleanedUp deleted_count keep_latest)
        else mret NothingToCleanUp
    end.

(** *** The name lookup in the words of the specification

    "Name lookup is case-insensitive substring match on manual
    checkpoints in the current internal session", the first match of the
    newest-first listing.  This definition follows the specification, not
    the code; it is what [lookup_by_name] is compared with. *)
Definition spec_lookup_by_name (lower : string → string) (d : Database)
    (internal_session_id : Z) (name : string) : option CheckpointRow :=
  head (filter
          (λ row, cp_is_auto row = false
                  ∧ match cp_checkpoint_name row with
                    | Some n => PyStr.contains (lower name) (lower n)
                    | None => false
                    end = true)
          (select_checkpoints_by_session d internal_session_id false)).

(** The first row of a listing whose name the code accepts. *)
Definition first_match (lower : string → string) (name : string)
    (listing : list CheckpointRow) : option CheckpointRow :=
  head (filter (λ row, name_matches lower (lower name) (cp_checkpoint_name row) = true)
          listing).

(** A checkpoint object that stands for a row: the same attributes, and
    containers that read back as the row's documents. *)
Definition represents (h : heap) (cp : Checkpoint.t) (row : CheckpointRow) : Prop :=
  Checkpoint.id cp = Some (cp_id row)
  ∧ Checkpoint.internal_session_id cp = Some (cp_internal_session_id row)
  ∧ Checkpoint.checkpoint_name cp = cp_checkpoint_name row
  ∧ Checkpoint.is_auto cp = cp_is_auto row
  ∧ Checkpoint.created_at cp = Some (cp_created_at row)
  ∧ json_dumps h (Checkpoint.session_state cp) = Some (cp_session_state row)
  ∧ json_dumps h (Checkpoint.conversation_history cp) = Some (cp_conversation_history row)
  ∧ json_dumps h (Checkpoint.metadata cp) = Some (cp_metadata row).

(** *** The lineage of a checkpoint

    [lineage d target] lists, newest first, the checkpoints of the
    session [target] belongs to that were created no later than
    [target]; [retarget] is a row as it is copied for another session,
    and [insert_copies] inserts the copies one after the other. *)
Definition lineage (d : Database) (target : CheckpointRow) : list CheckpointRow :=
  filter (λ r, (cp_created_at r ≤ cp_created_at target)%Z)
    (select_checkpoints_by_session d (cp_internal_session_id target) false).

Definition retarget (id new_session_id : Z) (r : CheckpointRow) : CheckpointRow :=
  mkCheckpointRow id new_session_id (cp_checkpoint_name r) (cp_session_state r)
    (cp_conversation_history r) (cp_is_auto r) (cp_created_at r) (cp_metadata r).

Fixpoint insert_copies (new_session_id : Z) (rs : list CheckpointRow)
    (t : Table CheckpointRow) : Table CheckpointRow :=
  match rs with
  | [] => t
  | r :: rest =>
      insert_copies new_session_id rest (insert (λ id, retarget id new_session_id r) t).2
  end.

(** The rows [insert_copies] appends: the rows of the listing, one after
    the other from [first_id] on. *)
Definition copies (first_id new_session_id : Z) (rs : list CheckpointRow)
  : list CheckpointRow :=
  imap (λ i r, retarget (first_id + Z.of_nat i) new_session_id r) rs.

(** A row whose three documents are lists or objects, as every row
    written by [CheckpointRepository.create] from a [Checkpoint] is. *)
Definition copyable (r : CheckpointRow) : bool :=
  is_container (cp_session_state r) && is_container (cp_conversation_history r)
  && is_container (cp_metadata r).

(** *** [from_checkpoint]: the fork on rollback *)

(** [cp.created_at and checkpoint.created_at and
     cp.created_at <= checkpoint.created_at] *)
Definition created_no_later (cp checkpoint : Checkpoint.t) : bool :=
  match Checkpoint.created_at cp, Checkpoint.created_at checkpoint with
  | Some a, Some b => (a <=? b)%Z
  | _, _ => false
  end.

(** The copy of one checkpoint for the new session: same attributes,
    shallow copies of the three containers, a new owner. *)
Definition copy_checkpoint (new_session_id : Z) (cp : Checkpoint.t) : M Checkpoint.t :=
  state ← py_copy (Checkpoint.session_state cp);
  history ← py_copy (Checkpoint.conversation_history cp);
  metadata ← py_copy (Checkpoint.metadata cp);
  CheckpointRepository.create
    (Checkpoint.mk None (Some new_session_id) (Checkpoint.checkpoint_name cp)
       state history (Checkpoint.is_auto cp) (Checkpoint.created_at cp) metadata).

(** The [for cp in original_checkpoints] loop. *)
Fixpoint copy_lineage (new_session_id : Z) (checkpoint : Checkpoint.t)
    (original_checkpoints : list Checkpoint.t) : M unit :=
  match original_checkpoints with
  | [] => mret tt
  | cp :: rest =>
      _ ← (if created_no_later cp checkpoint
           then _ ← copy_checkpoint new_session_id cp; mret tt
           else mret tt);
      copy_lineage new_session_id checkpoint rest
  end.

(** [from_checkpoint].  [agno_session_id] is the fresh random id of the
    new agent; [session_state] is the keyword argument of that name, if
    the caller gave one. *)
Definition from_checkpoint (checkpoint_id external_session_id : Z) (agno_session_id : string)
    (checkpoint_repo internal_session_repo auto_checkpoint : bool)
    (session_state : option pyval) : M t :=
  if negb checkpoint_repo
  then raise "AttributeError: 'NoneType' object has no attribute 'get_by_id'"
  else
    checkpoint ← CheckpointRepository.get_by_id checkpoint_id;
    match checkpoint with
    | None => raise "ValueError: Checkpoint not found"
    | Some checkpoint =>
        session_state ← match session_state with
                        | Some v => mret v
                        | None => py_copy (Checkpoint.session_state checkpoint)
                        end;
        agent ← init external_session_id agno_session_id auto_checkpoint
                   internal_session_repo checkpoint_repo true (Some session_state);
        s ← _create_internal_session agent;
        _ ← _register_with_external_session (with_internal_session agent (Some s));
        state ← py_copy (Checkpoint.session_state checkpoint);
        history ← py_copy (Checkpoint.conversation_history checkpoint);
        restored_history ← py_copy (Checkpoint.conversation_history checkpoint);
        let s' := InternalSession.with_conversation_history
                    (InternalSession.with_session_state s state) history in
        let agent' := with_restored (with_internal_session agent (Some s')) true
                        restored_history in
        _ ← match truthy_id (InternalSession.id s') with
            | Some new_session_id =>
                original_checkpoints ←
                  match Checkpoint.internal_session_id checkpoint with
                  | Some source => CheckpointRepository.get_by_internal_session source false
                  | None => mret []
                  end;
                copy_lineage new_session_id checkpoint original_checkpoints
            | None => mret tt
            end;
        _ ← _save_internal_session agent';
        mret agent'
    end.

(** *** The other built-in tools *)

(** [_is_checkpoint_tool]: [not tool_name] holds for [None] and for the
    empty string. *)
Definition checkpoint_tool_names : list string :=
  [ "create_checkpoint_tool"; "list_checkpoints_tool"; "rollback_to_checkpoint_tool";
    "delete_checkpoint_tool"; "get_checkpoint_info_tool";
    "cleanup_auto_checkpoints_tool" ].

Definition _is_checkpoint_tool (tool_name : option string) : bool :=
  match tool_name with
  | None => false
  | Some n => if bool_decide (n = "") then false else bool_decide (n ∈ checkpoint_tool_names)
  end.

(** What [delete_checkpoint_tool] answers. *)
Inductive delete_reply : Type :=
| DeleteUnavailable
| DeleteNotFound (id : Z)
| DeleteForeign
| Deleted (id : Z)
| DeleteFailed (id : Z).

(** [delete_checkpoint_tool] *)
Definition delete_checkpoint_tool (self : t) (checkpoint_id : Z) : M delete_reply :=
  if negb (checkpoint_repo self) then mret DeleteUnavailable
  else
    checkpoint ← CheckpointRepository.get_by_id checkpoint_id;
    match checkpoint with
    | None => mret (DeleteNotFound checkpoint_id)
    | Some checkpoint =>
        s ← the_session self;
        if bool_decide (Checkpoint.internal_session_id checkpoint ≠ InternalSession.id s)
        then mret DeleteForeign
        else
          CheckpointRepository.delete checkpoint_id ≫= λ success : bool,
          mret (if success then Deleted checkpoint_id else DeleteFailed checkpoint_id)
    end.

Definition with_agno_session_id (a : t) (agno : string) : t :=
  mk (external_session_id a) agno (auto_checkpoint a)
    (internal_session_repo a) (checkpoint_repo a) (session_state a) (internal_session a)
    (_restored_from_checkpoint a) (_restored_history a) (_tool_was_called a)
    (_last_tool_called a).

End RollbackAgent.

(** ** src/agents/agent_service.py *)

Module AgentService.
Import Py.

(** The guard [checkpoint and "tool_track_position" in checkpoint.metadata]
    of [rollback_to_checkpoint], with the position it then reads.  On a
    dict [in] looks for the key; on a list for an equal element and on a
    string for a substring, and the subscript that follows a find there
    raises [TypeError]; [None], a number and a boolean are not
    iterable. *)
Definition tool_track_position (checkpoint : option Checkpoint.t) : M (option pyval) :=
  match checkpoint with
  | None => mret None
  | Some checkpoint =>
      h ← get_heap;
      match Checkpoint.metadata checkpoint with
      | PRef l =>
          match h !! l with
          | Some (PDict kvs) => mret (dict_get kvs "tool_track_position")
          | Some (PList xs) =>
              if existsb (λ x, match x with
                               | PStr s => bool_decide (s = "tool_track_position")
                               | _ => false
                               end) xs
              then raise "TypeError: list indices must be integers or slices, not str"
              else mret None
          | None => raise "TypeError: argument of type is not iterable"
          end
      | PStr s =>
          if PyStr.contains "tool_track_position" s
          then raise "TypeError: string indices must be integers, not 'str'"
          else mret None
      | _ => raise "TypeError: argument of type is not iterable"
      end
  end.

(** [try: ... except ValueError as e: return None] *)
Definition except_ValueError {A : Type} (c : M A) : M (option A) :=
  λ m, match c m with
       | (Returned a, m') => (Returned (Some a), m')
       | (Raised e, m') =>
           if String.prefix "ValueError" e then (Returned None, m') else (Raised e, m')
       end.

(** [rollback_to_checkpoint].  The method of the agent that reverses the
    tools from a track position, [rollback_tools_from_track_index], is
    called here and defined nowhere in the sources: it is a parameter. *)
Definition rollback_to_checkpoint
    (rollback_tools_from_track_index : RollbackAgent.t → pyval → M unit)
    (current_agent : option RollbackAgent.t)
    (external_session_id checkpoint_id : Z) (agno_session_id : string)
    (rollback_tools : bool) : M (option RollbackAgent.t) :=
  except_ValueError (
    _ ← match current_agent with
        | Some agent =>
            if rollback_tools
            then
              checkpoint ← CheckpointRepository.get_by_id checkpoint_id;
              position ← tool_track_position checkpoint;
              match position with
              | Some tool_track_position =>
                  rollback_tools_from_track_index agent tool_track_position
              | None => mret tt
              end
            else mret tt
        | None => mret tt
        end;
    RollbackAgent.from_checkpoint checkpoint_id external_session_id agno_session_id
      true true true None).

(** [_sanitize_base_url] *)
Definition _sanitize_base_url (raw_url : option string) : option string :=
  match raw_url with
  | None => None
  | Some raw_url =>
      if bool_decide (raw_url = "") then None
      else
        let url := PyStr.rstrip PyStr.is_slash (PyStr.strip raw_url) in
        if bool_decide (url = "") then None
        else if String.prefix "http://" url || String.prefix "https://" url
             then Some url
             else Some (String.append "https://" url)
  end.

(** [create_new_agent]: the agent is built with both repositories and
    the defaults; [agno_session_id] is the fresh random id. *)
Definition create_new_agent (external_session_id : Z) (agno_session_id : string)
  : M RollbackAgent.t :=
  RollbackAgent.init external_session_id agno_session_id true true true false None.

(** [resume_agent]; [agno_session_id] is the fresh random id of the
    agent that is constructed. *)
Definition resume_agent (external_session_id : Z) (internal_session_id : option Z)
    (agno_session_id : string) : M (option RollbackAgent.t) :=
  external_session ← ExternalSessionRepository.get_by_id external_session_id;
  match external_session with
  | None => mret None
  | Some _ =>
      internal_session ←
        match truthy_id internal_session_id with
        | Some id => InternalSessionRepository.get_by_id id
        | None => InternalSessionRepository.get_current_session external_session_id
        end;
      match internal_session with
      | None =>
          agent ← create_new_agent external_session_id agno_session_id;
          mret (Some agent)
      | Some internal_session =>
          agent ← RollbackAgent.init external_session_id agno_session_id true true true
                     true (Some (InternalSession.session_state internal_session));
          mret (Some (RollbackAgent.with_agno_session_id
                        (RollbackAgent.with_internal_session agent (Some internal_session))
                        (InternalSession.agno_session_id internal_session)))
      end
  end.

(** [handle_agent_response]: the request flag is cleared, the id is
    kept for the caller. *)
Definition handle_agent_response (agent : RollbackAgent.t) : M bool :=
  requested ← py_get (RollbackAgent.session_state agent) "rollback_requested";
  h ← get_heap;
  if truthy h requested return M bool
  then
    checkpoint_id ← py_get (RollbackAgent.session_state agent) "rollback_checkpoint_id";
    h ← get_heap;
    if truthy h checkpoint_id return M bool
    then
      _ ← py_setitem (RollbackAgent.session_state agent) "rollback_requested" (PBool false);
      _ ← RollbackAgent._save_internal_session agent;
      mret true
    else mret false
  else mret false.

End AgentService.

(** ** Sequences of session operations *)

Module SessionOps.
Import Py Store.

(** The three repository calls that write [is_current]. *)
Inductive op : Type :=
| Create (session : InternalSession.t)
| Update (session : InternalSession.t)
| SetCurrent (session_id : Z).

(** One call; whether it returned or raised, what it wrote stays. *)
Definition run_op (o : op) (m : Machine) : Machine :=
  match o with
  | Create session => (InternalSessionRepository.create session m).2
  | Update session => (InternalSessionRepository.update session m).2
  | SetCurrent session_id => (InternalSessionRepository.set_current_session session_id m).2
  end.

Definition run_ops (ops : list op) (m : Machine) : Machine :=
  foldl (λ m o, run_op o m) m ops.

(** The primary key: ids are distinct and none exceeds the counter. *)
Definition wf_sessions (d : Database) : Prop :=
  NoDup (s_id <$> rows (internal_sessions d))
  ∧ ∀ r, r ∈ rows (internal_sessions d) → (s_id r ≤ seq (internal_sessions d))%Z.

(** The invariant: no external session has two current sessions. *)
Definition at_most_one_current (d : Database) : Prop :=
  ∀ external_session_id, (length (current_sessions d external_session_id) ≤ 1)%nat.

(** The invariant, row by row. *)
Definition unique_current (d : Database) : Prop :=
  ∀ r1 r2, r1 ∈ rows (internal_sessions d) → r2 ∈ rows (internal_sessions d) →
           s_external_session_id r1 = s_external_session_id r2 →
           s_is_current r1 = true → s_is_current r2 = true → s_id r1 = s_id r2.

(** The session object names the external session its row belongs to. *)
Definition agrees_with_store (d : Database) (session : InternalSession.t) : Prop :=
  ∀ row, row ∈ rows (internal_sessions d) →
         Some (s_id row) = InternalSession.id session →
         s_external_session_id row = InternalSession.external_session_id session.

(** Every [update] of the sequence is given such an object. *)
Fixpoint updates_agree (ops : list op) (m : Machine) : Prop :=
  match ops with
  | [] => True
  | o :: rest =>
      match o with
      | Update session => agrees_with_store (db m) session
      | _ => True
      end
      ∧ updates_agree rest (run_op o m)
  end.

End SessionOps.

(** ** A concrete registry: one file tool

    The world is the list of files that exist.  [create_file] fails on an
    empty path; its reverse handler deletes the path it was called with. *)

Module FileScenario.
Import Protocol Registry.

Definition Files : Type := list string.

Definition create_file : ForwardTool string string Files :=
  λ path files,
    if bool_decide (path = "") then (Raised "empty path", files)
    else (Returned path, files ++ [path]).

Definition delete_file : ReverseTool string string Files :=
  λ path _ files, (Returned tt, filter (λ f, f ≠ path) files).

Definition create_file_spec : ToolSpec string string Files :=
  mkToolSpec "create_file" create_file (Some delete_file).

Definition module0 : module_state := import_module 1700000000.

(** The registry after [register_tool(create_file_spec)]. *)
Definition registry0 : ToolRollbackRegistry string string Files :=
  (register_tool init create_file_spec).2.

(** A forward call that failed, recorded as the adapter records it. *)
Definition failed_record : ToolInvocationRecord string string :=
  new_ToolInvocationRecord module0 "create_file" "a.txt" None false (Some "disk full") None.

Definition registry_failed : ToolRollbackRegistry string string Files :=
  record_invocation module0 registry0 "create_file" "a.txt" None false (Some "disk full").

(** A forward call that succeeded. *)
Definition registry_done : ToolRollbackRegistry string string Files :=
  record_invocation module0 registry0 "create_file" "t.txt" (Some "t.txt") true None.

End FileScenario.

(** ** A tool whose reverse handler undoes it

    [add] adds an amount to a counter and returns the old value; a
    negative amount is refused.  [subtract], its reverse handler, takes
    the amount off again when the forward call had returned. *)

Module CounterScenario.
Import Protocol Registry.

Definition add : ForwardTool Z Z Z :=
  λ amount counter,
    if (amount <? 0)%Z then (Raised "negative amount", counter)
    else (Returned counter, (counter + amount)%Z).

Definition subtract : ReverseTool Z Z Z :=
  λ amount result counter,
    match result with
    | Some _ => (Returned tt, (counter - amount)%Z)
    | None => (Returned tt, counter)
    end.

Definition add_spec : ToolSpec Z Z Z := mkToolSpec "add" add (Some subtract).

Definition module0 : module_state := import_module 1700000000.

Definition registry0 : ToolRollbackRegistry Z Z Z := (register_tool init add_spec).2.

Definition calls : list (string * Z) := [("add", 2); ("add", -1); ("missing", 5); ("add", 3)]%Z.

End CounterScenario.

(** ** A concrete store: ten automatic and three manual checkpoints

    Session 1 holds ten automatic checkpoints and three manual ones,
    interleaved; session 2 holds one automatic checkpoint. *)

Module PruneScenario.
Import Py Store.

Definition auto_row (id internal_session_id created_at : Z) : CheckpointRow :=
  mkCheckpointRow id internal_session_id (Some "After create_file")
    (JDict []) (JList []) true created_at
    (JDict [("agno_session_id", JStr "agno_1"); ("checkpoint_count", JInt id)]).

Definition manual_row (id internal_session_id created_at : Z) (name : string)
  : CheckpointRow :=
  mkCheckpointRow id internal_session_id (Some name)
    (JDict []) (JList []) false created_at
    (JDict [("agno_session_id", JStr "agno_1"); ("checkpoint_count", JInt id)]).

Definition checkpoint_rows : list CheckpointRow :=
  [ auto_row 1 1 10; auto_row 2 1 20; manual_row 3 1 25 "A"; auto_row 4 1 30;
    auto_row 5 1 40; auto_row 6 2 45; auto_row 7 1 50; manual_row 8 1 55 "B";
    auto_row 9 1 60; auto_row 10 1 70; auto_row 11 1 80; manual_row 12 1 85 "C";
    auto_row 13 1 90; auto_row 14 1 100 ].

Definition machine0 : Machine :=
  mkMachine [] (mkDatabase (mkTable checkpoint_rows 14) empty_table empty_table) 1000 [].

End PruneScenario.

(** ** A concrete run of session operations

    Two sessions are created in external session 1, each one current at
    its creation.  [stale] is the first of them as a caller holds it;
    [misfiled] has the id of the first session and names external
    session 2. *)

Module SessionScenario.
Import Py Store SessionOps.

(** The heap holds one empty dict and one empty list. *)
Definition machine0 : Machine := mkMachine [PDict []; PList []] Store.empty 0 [].

Definition new_session (agno_session_id : string) : InternalSession.t :=
  InternalSession.mk None 1 agno_session_id (PRef 0%nat) (PRef 1%nat) None true 0.

Definition stale : InternalSession.t :=
  InternalSession.mk (Some 1) 1 "agno_a" (PRef 0%nat) (PRef 1%nat) (Some 0) true 1.

Definition misfiled : InternalSession.t :=
  InternalSession.mk (Some 1) 2 "agno_a" (PRef 0%nat) (PRef 1%nat) (Some 0) true 1.

Definition good_run : list op :=
  [Create (new_session "agno_a"); Create (new_session "agno_b"); Update stale; SetCurrent 2].

Definition bad_run : list op :=
  [Create (new_session "agno_a"); Create (new_session "agno_b"); Update misfiled].

End SessionScenario.

(** ** A concrete agent

    External session 1 exists; an agent is built for it with both
    repositories, which creates internal session 1. *)

Module AgentScenario.
Import Py Store.

Definition machine0 : Machine :=
  mkMachine []
    (mkDatabase empty_table empty_table
       (mkTable [mkExternalRow 1 1 "Project Discussion" true [] None None] 1))
    100 [].

Definition strftime (ts : Z) : string := "2025-01-01 00:00:00".

(** [int] on the strings of the scenario: digits only. *)
Definition py_int (s : string) : option Z :=
  if bool_decide (s = "1") then Some 1%Z
  else if bool_decide (s = "2") then Some 2%Z
  else None.

(** [str.lower] on the strings of the scenario, which hold ASCII
    characters only: the letters A to Z become a to z. *)
Definition lower_char (a : Ascii.ascii) : Ascii.ascii :=
  let n := Ascii.nat_of_ascii a in
  if (65 <=? n)%nat && (n <=? 90)%nat then Ascii.ascii_of_nat (n + 32) else a.

Fixpoint str_lower (s : string) : string :=
  match s with
  | EmptyString => EmptyString
  | String a rest => String (lower_char a) (str_lower rest)
  end.

(** The agent and the machine after [RollbackAgent(...)]. *)
Definition started : outcome RollbackAgent.t * Machine :=
  RollbackAgent.init 1 "agno_a" true true true false None machine0.

Definition agent0 : RollbackAgent.t :=
  match started.1 with
  | Returned a => a
  | Raised _ => RollbackAgent.mk 0 "" false false false PNone None false PNone false None
  end.

Definition machine1 : Machine := started.2.

End AgentScenario.

(** ** A concrete conversation with two checkpoints

    The agent of the scenario starts with the session state
    [{"counter": 0}], makes the manual checkpoint "Before Phase 2" and
    then the automatic checkpoint "After create_file". *)

Module LookupScenario.
Import Py Store.

Definition machine0 : Machine :=
  mkMachine [PDict [("counter", PInt 0)]]
    (mkDatabase empty_table empty_table
       (mkTable [mkExternalRow 1 1 "Project Discussion" true [] None None] 1))
    100 [].

Definition run {A : Type} (fallback : A) (c : M A) (m : Machine) : A * Machine :=
  match c m with
  | (Returned a, m') => (a, m')
  | (Raised _, m') => (fallback, m')
  end.

Definition no_agent : RollbackAgent.t :=
  RollbackAgent.mk 0 "" false false false PNone None false PNone false None.

Definition step1 : RollbackAgent.t * Machine :=
  run no_agent (RollbackAgent.init 1 "agno_a" true true true false (Some (PRef 0%nat)))
    machine0.

Definition tick (m : Machine) : Machine :=
  mkMachine (pyheap m) (db m) (clock m + 10) (track m).

Definition step2 : RollbackAgent.t * Machine :=
  let '(_, a, m) :=
    run (RollbackAgent.CheckpointNotCreated, no_agent)
      (RollbackAgent.create_checkpoint_tool AgentScenario.strftime step1.1
         (Some "Before Phase 2")) (tick step1.2) in
  (a, m).

Definition step3 : RollbackAgent.t * Machine :=
  run no_agent (RollbackAgent._create_auto_checkpoint step2.1 "After create_file")
    (tick step2.2).

Definition agent3 : RollbackAgent.t := step3.1.
Definition machine3 : Machine := step3.2.

End LookupScenario.

(** ** A rollback in a concrete conversation

    The agent starts with the session state [{"files": ["a.txt"]}], the
    user says hello, the agent makes the manual checkpoint
    "Before Phase 2" and then the automatic checkpoint
    "After create_file"; the service then rolls back to the first
    checkpoint, and afterwards the new session's list of files gets
    another entry. *)

Module ForkScenario.
Import Py Store.

Definition machine0 : Machine :=
  mkMachine [PList [PStr "a.txt"]; PDict [("files", PRef 0%nat)]]
    (mkDatabase empty_table empty_table
       (mkTable [mkExternalRow 1 1 "Project Discussion" true [] None None] 1))
    100 [].

Definition step1 : RollbackAgent.t * Machine :=
  LookupScenario.run LookupScenario.no_agent
    (RollbackAgent.init 1 "agno_a" true true true false (Some (PRef 1%nat))) machine0.

Definition no_session : InternalSession.t :=
  InternalSession.mk None 0 "" PNone PNone None false 0.

Definition step2 : RollbackAgent.t * Machine :=
  let s := default no_session (RollbackAgent.internal_session step1.1) in
  let '(_, m) := LookupScenario.run tt (InternalSession.add_message s "user" "hello")
                   (LookupScenario.tick step1.2) in
  (step1.1, m).

Definition step3 : RollbackAgent.t * Machine :=
  let '(_, a, m) :=
    LookupScenario.run (RollbackAgent.CheckpointNotCreated, LookupScenario.no_agent)
      (RollbackAgent.create_checkpoint_tool AgentScenario.strftime step2.1
         (Some "Before Phase 2")) (LookupScenario.tick step2.2) in
  (a, m).

Definition step4 : RollbackAgent.t * Machine :=
  LookupScenario.run LookupScenario.no_agent
    (RollbackAgent._create_auto_checkpoint step3.1 "After create_file")
    (LookupScenario.tick step3.2).

(** The machine the rollback starts from, and the target. *)
Definition machine4 : Machine := LookupScenario.tick step4.2.

Definition target : CheckpointRow :=
  mkCheckpointRow 1 1 (Some "Before Phase 2") (JDict [("files", JList [JStr "a.txt"])])
    (JList [JDict [("role", JStr "user"); ("content", JStr "hello");
                   ("timestamp", JInt 110)]])
    false 120
    (JDict [("agno_session_id", JStr "agno_a"); ("checkpoint_count", JInt 1)]).

Definition fork : RollbackAgent.t * Machine :=
  LookupScenario.run LookupScenario.no_agent
    (RollbackAgent.from_checkpoint 1 1 "agno_b" true true true None) machine4.

(** [agent.internal_session.session_state["files"].append("b.txt")] *)
Definition add_file (agent : RollbackAgent.t) : M unit :=
  s ← RollbackAgent.the_session agent;
  files ← try_heap "KeyError: 'files'"
            (λ h, v ← getitem (InternalSession.session_state s) "files" h; Some (v, h));
  try_heap "AttributeError: object has no attribute 'append'"
    (λ h, h' ← append files (PStr "b.txt") h; Some (tt, h')).

Definition later : Machine := (LookupScenario.run tt (add_file fork.1) fork.2).2.

(** The checkpoint with the given id, as [get_by_id] loads it and
    [json.dumps] writes its state again. *)
Definition reload_state (checkpoint_id : Z) (m : Machine) : option json :=
  match CheckpointRepository.get_by_id checkpoint_id m with
  | (Returned (Some cp), m') => json_dumps (pyheap m') (Checkpoint.session_state cp)
  | _ => None
  end.

End ForkScenario.

(** ** A concrete store with two sessions

    External session 1 holds the internal sessions [agno_a] and
    [agno_b], the second one current.  Session 1 has a manual and an
    automatic checkpoint, session 2 one manual checkpoint.  The agent
    runs on session 2; its state dict (cell 3 of the heap) carries a
    rollback request for checkpoint 1. *)

Module StoreScenario.
Import Py Store.

Definition checkpoint_row1 : CheckpointRow :=
  mkCheckpointRow 1 1 (Some "Before Phase 2") (JDict [("counter", JInt 0)]) (JList [])
    false 110 (JDict [("agno_session_id", JStr "agno_a"); ("checkpoint_count", JInt 1)]).

Definition checkpoint_row2 : CheckpointRow :=
  mkCheckpointRow 2 1 (Some "After create_file") (JDict [("counter", JInt 1)]) (JList [])
    true 120 (JDict [("agno_session_id", JStr "agno_a"); ("checkpoint_count", JInt 2)]).

Definition checkpoint_row3 : CheckpointRow :=
  mkCheckpointRow 3 2 (Some "Draft") (JDict [("counter", JInt 1)]) (JList [])
    false 140 (JDict [("agno_session_id", JStr "agno_b"); ("checkpoint_count", JInt 1)]).

Definition session_row1 : SessionRow :=
  mkSessionRow 1 1 "agno_a" (JDict [("counter", JInt 1)]) (JList []) 100 false 2.

Definition session_row2 : SessionRow :=
  mkSessionRow 2 1 "agno_b" (JDict [("counter", JInt 1)]) (JList []) 130 true 1.

Definition external_row1 : ExternalRow :=
  mkExternalRow 1 1 "Project Discussion" true ["agno_a"; "agno_b"] (Some "agno_b")
    (Some 130).

Definition request : list (string * pyval) :=
  [("counter", PInt 1); ("rollback_requested", PBool true);
   ("rollback_checkpoint_id", PInt 1)].

Definition machine0 : Machine :=
  mkMachine [PDict [("counter", PInt 0)]; PList []; PDict []; PDict request]
    (mkDatabase (mkTable [checkpoint_row1; checkpoint_row2; checkpoint_row3] 3)
       (mkTable [session_row1; session_row2] 2)
       (mkTable [external_row1] 1))
    200 [].

(** A checkpoint and sessions not yet stored, over the first three
    cells of the heap. *)
Definition new_checkpoint : Checkpoint.t :=
  Checkpoint.mk None (Some 2) (Some "Manual") (PRef 0%nat) (PRef 1%nat) false None
    (PRef 2%nat).

Definition new_session : InternalSession.t :=
  InternalSession.mk None 1 "agno_c" (PRef 0%nat) (PRef 1%nat) None true 0.

Definition duplicate_session : InternalSession.t :=
  InternalSession.mk None 1 "agno_a" (PRef 0%nat) (PRef 1%nat) None true 0.

(** A session object whose row is gone. *)
Definition deleted_session : InternalSession.t :=
  InternalSession.mk (Some 7) 1 "agno_x" (PRef 0%nat) (PRef 1%nat) (Some 100) true 0.

(** The agent on session 2. *)
Definition session2 : InternalSession.t :=
  InternalSession.mk (Some 2) 1 "agno_b" (PRef 3%nat) (PRef 1%nat) (Some 130) true 1.

Definition agent : RollbackAgent.t :=
  RollbackAgent.mk 1 "agno_b" true true true (PRef 3%nat) (Some session2) false PNone
    false None.

End StoreScenario.

(* ===================================================================== *)
(** * Part II: properties                                                 *)
(* ===================================================================== *)

(** ** The tool registry and its track *)

Section RegistryFacts.
Import Protocol Registry.
Context {Args Result World : Type}.

Local Abbreviation Spec := (ToolSpec Args Result World).
Local Abbreviation Rec := (ToolInvocationRecord Args Result).
Local Abbreviation Reg := (ToolRollbackRegistry Args Result World).

Lemma in_CHECKPOINT_TOOL_NAMES_spec (n : string) :
  in_CHECKPOINT_TOOL_NAMES n = true ↔ n ∈ CHECKPOINT_TOOL_NAMES.
Proof. unfold in_CHECKPOINT_TOOL_NAMES. by rewrite bool_decide_eq_true. Qed.

Lemma validate_raises (spec : Spec) :
  (∃ e, validate spec = Raised e) ↔
  reverse spec = None ∧ name spec ∉ CHECKPOINT_TOOL_NAMES.
Proof.
  unfold validate, in_CHECKPOINT_TOOL_NAMES.
  destruct (bool_decide_reflect (name spec ∈ CHECKPOINT_TOOL_NAMES)) as [Hin|Hin];
    destruct (bool_decide_reflect (reverse spec = None)) as [Hr|Hr]; simpl;
    split; try (intros [e He]; discriminate); try (intros [? ?]; done); eauto.
Qed.

(** The loop of [rollback] appends to [results] and threads the world:
    its outcome is the record-by-record description. *)
Lemma rollback_loop_spec (tools : gmap string Spec) (records : list Rec)
    (results : list ReverseInvocationResult) (w : World) :
  rollback_loop tools records results w =
  (results ++ undo_results tools w records, foldl (undo_record tools) w records).
Proof.
  revert results w.
  induction records as [|record rest IH]; intros results w; simpl.
  - by rewrite app_nil_r.
  - unfold undo_result, undo_record, reverse_handler.
    destruct (in_CHECKPOINT_TOOL_NAMES (tool_name record)) eqn:Hcp; simpl.
    + apply IH.
    + destruct (tools !! tool_name record) as [spec|] eqn:Hspec; simpl.
      * destruct (reverse spec) as [rev|] eqn:Hrev; simpl.
        -- destruct (rev (args record) (result record) w) as [[u|e] w'] eqn:Hcall;
             simpl; rewrite IH, <- app_assoc; done.
        -- rewrite IH, <- app_assoc. done.
      * rewrite IH, <- app_assoc. done.
Qed.

Lemma rollback_spec (self : Reg) (w : World) :
  rollback self w =
  (undo_results (_tools self) w (List.rev (_track self)), self,
   foldl (undo_record (_tools self)) w (List.rev (_track self))).
Proof. unfold rollback. by rewrite rollback_loop_spec. Qed.

Lemma undo_record_checkpoint_tool (tools : gmap string Spec) (w : World) (record : Rec) :
  tool_name record ∈ CHECKPOINT_TOOL_NAMES →
  undo_record tools w record = w ∧ undo_result tools w record = [].
Proof.
  intros Hin%in_CHECKPOINT_TOOL_NAMES_spec.
  unfold undo_record, undo_result, reverse_handler. by rewrite Hin.
Qed.

Lemma undo_record_reversible (tools : gmap string Spec) (w : World) (record : Rec)
    (spec : Spec) (rev : ReverseTool Args Result World) :
  tool_name record ∉ CHECKPOINT_TOOL_NAMES →
  tools !! tool_name record = Some spec →
  reverse spec = Some rev →
  undo_record tools w record = (rev (args record) (result record) w).2.
Proof.
  intros Hin Hspec Hrev. unfold undo_record, reverse_handler.
  destruct (in_CHECKPOINT_TOOL_NAMES (tool_name record)) eqn:Hcp.
  - by apply in_CHECKPOINT_TOOL_NAMES_spec in Hcp.
  - rewrite Hspec. simpl. by rewrite Hrev.
Qed.

Lemma undo_record_ignores_success (tools : gmap string Spec) (w : World)
    (record : Rec) (b : bool) :
  undo_record tools w (with_success b record) = undo_record tools w record ∧
  undo_result tools w (with_success b record) = undo_result tools w record.
Proof. done. Qed.

(** C1 (as amended): [rollback] takes no index; it visits every record of
    the track, positions [len-1] down to [0], and runs the reverse handler
    on [(args, result)] for each record whose tool is not a checkpoint tool
    and has a registered reverse handler, whatever the record's [success]
    flag; records of checkpoint tools are never reversed. *)
Theorem rollback_reverses_whole_track (self : Reg) (w : World) :
  (rollback self w).2 = foldl (undo_record (_tools self)) w (List.rev (_track self))
  ∧ (rollback self w).1.1 = undo_results (_tools self) w (List.rev (_track self))
  ∧ (∀ (record : Rec) (w0 : World),
       tool_name record ∈ CHECKPOINT_TOOL_NAMES →
       undo_record (_tools self) w0 record = w0 ∧ undo_result (_tools self) w0 record = [])
  ∧ (∀ (record : Rec) (w0 : World) spec rev,
       tool_name record ∉ CHECKPOINT_TOOL_NAMES →
       _tools self !! tool_name record = Some spec →
       reverse spec = Some rev →
       undo_record (_tools self) w0 record = (rev (args record) (result record) w0).2)
  ∧ (∀ (record : Rec) (w0 : World) (b : bool),
       undo_record (_tools self) w0 (with_success b record)
       = undo_record (_tools self) w0 record).
Proof.
  rewrite rollback_spec. simpl. repeat split.
  - by apply undo_record_checkpoint_tool.
  - by apply undo_record_checkpoint_tool.
  - intros. by eapply undo_record_reversible.
Qed.

(** C2 (as amended): [rollback] leaves the registry as it found it: the
    track keeps every record and its length; emptying the track is what
    [clear_track] does, and [redo] replays the records [rollback] kept. *)
Theorem rollback_keeps_track (self : Reg) (w : World) :
  (rollback self w).1.2 = self
  ∧ _track (rollback self w).1.2 = _track self
  ∧ length (get_track (rollback self w).1.2) = length (get_track self)
  ∧ get_track (clear_track (rollback self w).1.2) = [].
Proof. rewrite rollback_spec. done. Qed.

(** C6: [register_tool] fails exactly when the spec has no reverse handler
    and its name is not a checkpoint-tool name, and then records nothing;
    otherwise the spec is stored under its name, the other entries and the
    track are kept, and a later registration under the same name replaces
    it. *)
Theorem register_tool_contract (self : Reg) (spec : Spec) :
  ((∃ e, (register_tool self spec).1 = Raised e) ↔
     reverse spec = None ∧ name spec ∉ CHECKPOINT_TOOL_NAMES)
  ∧ (∀ e, (register_tool self spec).1 = Raised e →
       e = validate_message (name spec) ∧ (register_tool self spec).2 = self)
  ∧ ((register_tool self spec).1 = Returned tt →
       get_tool (register_tool self spec).2 (name spec) = Some spec
       ∧ (∀ n, n ≠ name spec → get_tool (register_tool self spec).2 n = get_tool self n)
       ∧ _track (register_tool self spec).2 = _track self)
  ∧ (∀ spec' : Spec,
       name spec' = name spec →
       (register_tool (register_tool self spec).2 spec').1 = Returned tt →
       get_tool (register_tool (register_tool self spec).2 spec').2 (name spec) = Some spec').
Proof.
  split; [|split; [|split]].
  - rewrite <- validate_raises. unfold register_tool.
    destruct (validate spec) as [[]|e]; simpl; split; intros [e' He]; by eauto.
  - intros e. unfold register_tool, validate.
    destruct (_ && _); simpl; [|done]. intros [= <-]. done.
  - unfold register_tool. destruct (validate spec) as [[]|e]; simpl; [|done].
    intros _. unfold get_tool. simpl. split; [by rewrite lookup_insert_eq|].
    split; [|done]. intros n Hn. by rewrite lookup_insert_ne.
  - intros spec' Hname. unfold register_tool at 1 3.
    destruct (validate spec') as [[]|e]; simpl; [|done].
    intros _. unfold get_tool. simpl. rewrite Hname. by rewrite lookup_insert_eq.
Qed.

(** C10: two records built by [record_invocation] carry the same
    timestamp, the one computed when the class was defined, whatever the
    registries, the arguments and the moments of the two calls. *)
Theorem record_invocation_timestamps_equal (utcnow_at_import : Z) (reg1 reg2 : Reg)
    (n1 n2 : string) (a1 a2 : Args) (r1 r2 : option Result) (s1 s2 : bool)
    (e1 e2 : option string) :
  let m := import_module utcnow_at_import in
  ∃ rec1 rec2 : Rec,
    last (get_track (record_invocation m reg1 n1 a1 r1 s1 e1)) = Some rec1
    ∧ last (get_track (record_invocation m reg2 n2 a2 r2 s2 e2)) = Some rec2
    ∧ timestamp rec1 = timestamp rec2
    ∧ timestamp rec1 = utcnow_at_import.
Proof.
  intros m. unfold record_invocation, get_track. simpl.
  eexists _, _. rewrite !last_snoc. done.
Qed.

End RegistryFacts.

(** *** The file scenario *)

Section FileScenarioFacts.
Import Protocol Registry FileScenario.

(** C1, counterexample: the track holds one record of a failed call
    ([success = False]); [rollback] runs its reverse handler all the same
    (the file [a.txt] is deleted and the reversal is reported as done),
    where the undo contract as stated leaves the world alone. *)
Lemma rollback_reverses_failed_record :
  map success (get_track registry_failed) = [false]
  ∧ (rollback registry_failed ["a.txt"]).2 = []
  ∧ (rollback registry_failed ["a.txt"]).1.1
    = [mkReverseInvocationResult "create_file" true None]
  ∧ (spec_rollback_from registry_failed 0 ["a.txt"]).2 = ["a.txt"].
Proof. vm_compute. done. Qed.

(** C2, counterexample: after [rollback] (every record from position 0 is
    visited) the track still has its one record; the contract as stated
    asks for length 0. *)
Lemma rollback_track_length_unchanged :
  length (get_track registry_done) = 1%nat
  ∧ (rollback registry_done ["t.txt"]).2 = []
  ∧ length (get_track (rollback registry_done ["t.txt"]).1.2) = 1%nat
  ∧ length (get_track (spec_rollback_from registry_done 0 ["t.txt"]).1) = 0%nat.
Proof. vm_compute. done. Qed.

End FileScenarioFacts.

(** ** Python values and JSON *)

Section PyFacts.
Import Py.

(** Induction over documents, with the members of lists and objects. *)
Lemma json_nested_ind (P : json → Prop) :
  P JNull → (∀ b, P (JBool b)) → (∀ z, P (JInt z)) → (∀ s, P (JStr s)) →
  (∀ xs, Forall P xs → P (JList xs)) →
  (∀ kvs, Forall (λ kv, P kv.2) kvs → P (JDict kvs)) →
  ∀ j, P j.
Proof.
  intros Hnull Hbool Hint Hstr Hlist Hdict.
  fix IH 1. intros [| b | z | s | xs | kvs].
  - exact Hnull.
  - apply Hbool.
  - apply Hint.
  - apply Hstr.
  - apply Hlist. induction xs as [|x xs IHxs]; constructor; [apply IH|exact IHxs].
  - apply Hdict. induction kvs as [|[k x] kvs IHkvs]; constructor; [apply IH|exact IHkvs].
Qed.

(** Serialising needs no more than it was given: more depth and a longer
    heap give the same document. *)
Lemma dumps_fuel_mono (n n' : nat) (h h' : heap) (v : pyval) (j : json) :
  (n ≤ n')%nat →
  dumps_fuel n h v = Some j →
  dumps_fuel n' (h ++ h') v = Some j.
Proof.
  revert n' v j. induction n as [|n IH]; intros n' v j Hle Hd.
  - destruct v; simpl in *; try done; destruct n'; done.
  - destruct v as [| | | |l]; try (destruct n'; simpl in *; done).
    destruct n' as [|n']; [lia|]. simpl in *.
    destruct (h !! l) as [o|] eqn:Hl; [|done].
    rewrite (lookup_app_l_Some _ _ _ _ Hl).
    destruct o as [xs|kvs].
    + apply fmap_Some in Hd as (js & Hjs & ->).
      apply fmap_Some. exists js. split; [|done].
      apply mapM_Some. apply mapM_Some in Hjs.
      eapply Forall2_impl; [exact Hjs|]. intros x y Hxy. apply IH; [lia|done].
    + apply fmap_Some in Hd as (js & Hjs & ->).
      apply fmap_Some. exists js. split; [|done].
      apply mapM_Some. apply mapM_Some in Hjs.
      eapply Forall2_impl; [exact Hjs|]. intros [k x] y Hxy. simpl in *.
      apply fmap_Some in Hxy as (y' & Hy' & ->).
      apply fmap_Some. exists y'. split; [|done]. apply IH; [lia|done].
Qed.

Lemma json_dumps_app (h h' : heap) (v : pyval) (j : json) :
  json_dumps h v = Some j → json_dumps (h ++ h') v = Some j.
Proof.
  unfold json_dumps. intros Hd. eapply dumps_fuel_mono; [|exact Hd].
  rewrite length_app. lia.
Qed.

(** A loop over [map_heap] only adds objects, and keeps what each step
    established about its own value. *)
Lemma map_heap_spec {A B : Type} (f : A → heap → B * heap) (Q : A → heap → B → Prop)
    (xs : list A) :
  (∀ x h v h', Q x h v → Q x (h ++ h') v) →
  Forall (λ x, ∀ h, ∃ h', (f x h).2 = h ++ h' ∧ Q x (h ++ h') (f x h).1) xs →
  ∀ h, ∃ h', (map_heap f xs h).2 = h ++ h'
             ∧ Forall2 (λ x v, Q x (h ++ h') v) xs (map_heap f xs h).1.
Proof.
  intros Hmono Hall. induction Hall as [|x rest Hx Hrest IH]; intros h; simpl.
  - exists []. rewrite app_nil_r. split; [done|constructor].
  - destruct (Hx h) as (h1 & Hh1 & Hq1).
    destruct (f x h) as [v hx] eqn:Hf. simpl in *. subst hx.
    destruct (IH (h ++ h1)) as (h2 & Hh2 & Hq2).
    destruct (map_heap f rest (h ++ h1)) as [vs hr] eqn:Hm. simpl in *. subst hr.
    exists (h1 ++ h2). rewrite app_assoc. split; [done|].
    constructor; [by apply Hmono|done].
Qed.

(** What [json.loads] builds reads back as the document it was given. *)
Lemma json_loads_spec (j : json) :
  ∀ h, ∃ h', (json_loads j h).2 = h ++ h'
             ∧ dumps_fuel (length (h ++ h')) (h ++ h') (json_loads j h).1 = Some j.
Proof.
  induction j as [| b | z | s | xs IH | kvs IH] using json_nested_ind; intros h;
    try (exists []; rewrite app_nil_r; simpl; split; [done|by destruct (length h)]).
  - simpl.
    destruct (map_heap_spec json_loads
                (λ x h v, dumps_fuel (length h) h v = Some x) xs) with (h := h)
      as (h1 & Hh1 & Hall).
    { intros x h0 v h' Hd. eapply dumps_fuel_mono; [|exact Hd]. rewrite length_app. lia. }
    { exact IH. }
    destruct (map_heap json_loads xs h) as [vs hx]. simpl in *. subst hx.
    exists (h1 ++ [PList vs]). rewrite app_assoc. split; [done|].
    rewrite length_app. simpl. rewrite Nat.add_1_r. simpl.
    rewrite list_lookup_middle by done. simpl.
    apply fmap_Some. exists xs. split; [|done]. apply mapM_Some.
    apply Forall2_flip. eapply Forall2_impl; [exact Hall|].
    intros x v Hd. simpl. eapply dumps_fuel_mono; [|exact Hd]. lia.
  - simpl.
    destruct (map_heap_spec
                (λ (kv : string * json) h,
                   let '(v, h1) := json_loads kv.2 h in ((kv.1, v), h1))
                (λ kv h (r : string * pyval),
                   r.1 = kv.1 ∧ dumps_fuel (length h) h r.2 = Some kv.2) kvs)
      with (h := h) as (h1 & Hh1 & Hall).
    { intros x h0 v h' [Hk Hd]. split; [done|].
      eapply dumps_fuel_mono; [|exact Hd]. rewrite length_app. lia. }
    { eapply Forall_impl; [exact IH|]. intros [k x] Hx h0. simpl in *.
      destruct (Hx h0) as (h' & Hh' & Hd). exists h'.
      destruct (json_loads x h0) as [v hx]. simpl in *. done. }
    destruct (map_heap _ kvs h) as [vs hx]. simpl in *. subst hx.
    exists (h1 ++ [PDict vs]). rewrite app_assoc. split; [done|].
    rewrite length_app. simpl. rewrite Nat.add_1_r. simpl.
    rewrite list_lookup_middle by done. simpl.
    apply fmap_Some. exists kvs. split; [|done]. apply mapM_Some.
    apply Forall2_flip. eapply Forall2_impl; [exact Hall|].
    intros [k x] [k' v] [Hk Hd]. simpl in *. subst k'.
    apply fmap_Some. exists x. split; [|done].
    eapply dumps_fuel_mono; [|exact Hd]. lia.
Qed.

Lemma json_loads_dumps (j : json) (h : heap) :
  json_dumps (json_loads j h).2 (json_loads j h).1 = Some j.
Proof.
  destruct (json_loads_spec j h) as (h' & Hh & Hd). rewrite Hh.
  unfold json_dumps. rewrite <- (app_nil_r (h ++ h')) at 2.
  eapply dumps_fuel_mono; [|exact Hd]. lia.
Qed.

Lemma json_loads_extends (j : json) (h : heap) :
  ∃ h', (json_loads j h).2 = h ++ h'.
Proof. destruct (json_loads_spec j h) as (h' & Hh & _). eauto. Qed.

Lemma dumps_fuel_ref (n : nat) (h : heap) (l : loc) :
  dumps_fuel (S n) h (PRef l) =
  match h !! l with
  | None => None
  | Some (PList xs) => JList <$> mapM (dumps_fuel n h) xs
  | Some (PDict kvs) => JDict <$> mapM (λ kv, pair kv.1 <$> dumps_fuel n h kv.2) kvs
  end.
Proof. done. Qed.

(** A shallow copy reads back as the original does. *)
Lemma copy_dumps (h h1 : heap) (v v1 : pyval) (j : json) :
  copy v h = Some (v1, h1) →
  json_dumps h v = Some j →
  (∃ o, h1 = h ++ [o]) ∧ json_dumps h1 v1 = Some j.
Proof.
  unfold copy. destruct v as [| | | |l]; try done.
  destruct (h !! l) as [o|] eqn:Hl; [|done].
  intros Hc Hd. simpl in Hc. injection Hc as <- <-. split; [by eexists|].
  unfold json_dumps in *.
  rewrite dumps_fuel_ref in Hd. rewrite Hl in Hd.
  rewrite dumps_fuel_ref, list_lookup_middle by done.
  destruct o as [xs|kvs].
  - apply fmap_Some in Hd as (js & Hjs & ->). apply fmap_Some. exists js.
    split; [|done]. apply mapM_Some. apply mapM_Some in Hjs.
    eapply Forall2_impl; [exact Hjs|]. intros x y Hxy.
    eapply dumps_fuel_mono; [|exact Hxy]. rewrite length_app. lia.
  - apply fmap_Some in Hd as (js & Hjs & ->). apply fmap_Some. exists js.
    split; [|done]. apply mapM_Some. apply mapM_Some in Hjs.
    eapply Forall2_impl; [exact Hjs|]. intros [k x] y Hxy. simpl in *.
    apply fmap_Some in Hxy as (y' & Hy' & ->). apply fmap_Some. exists y'.
    split; [|done]. eapply dumps_fuel_mono; [|exact Hy']. rewrite length_app. lia.
Qed.

End PyFacts.

(** ** The store *)

Section StoreFacts.
Import Py Store.

Lemma insert_newest_perm {R : Type} (created_at : R → Z) (r : R) (sorted : list R) :
  insert_newest created_at r sorted ≡ₚ r :: sorted.
Proof.
  induction sorted as [|r' rest IH]; simpl; [done|].
  destruct (created_at r <? created_at r')%Z; [|done].
  rewrite IH. apply Permutation_swap.
Qed.

Lemma newest_first_perm {R : Type} (created_at : R → Z) (rs : list R) :
  newest_first created_at rs ≡ₚ rs.
Proof.
  induction rs as [|r rs IH]; simpl; [done|].
  unfold newest_first in *. simpl. by rewrite insert_newest_perm, IH.
Qed.

(** The listing is ordered newest first. *)
Lemma newest_first_sorted {R : Type} (created_at : R → Z) (rs : list R) :
  StronglySorted (λ a b, (created_at b ≤ created_at a)%Z) (newest_first created_at rs).
Proof.
  induction rs as [|r rs IH]; [constructor|].
  change (newest_first created_at (r :: rs))
    with (insert_newest created_at r (newest_first created_at rs)).
  induction IH as [|r' rest Hrest IHrest Hall]; simpl.
  - repeat constructor.
  - destruct (created_at r <? created_at r')%Z eqn:Hlt.
    + apply Z.ltb_lt in Hlt. constructor; [exact IHrest|].
      rewrite insert_newest_perm. constructor; [lia|done].
    + apply Z.ltb_ge in Hlt. constructor; [by constructor|].
      constructor; [done|]. eapply Forall_impl; [exact Hall|]. simpl. intros x Hx. lia.
Qed.

(** Checkpoints created at the same instant keep their rowid order. *)
Lemma newest_first_stable {R : Type} (created_at : R → Z) (rs : list R) (ts : Z) :
  filter (λ r, created_at r = ts) (newest_first created_at rs)
  = filter (λ r, created_at r = ts) rs.
Proof.
  induction rs as [|r rs IH]; [done|].
  change (newest_first created_at (r :: rs))
    with (insert_newest created_at r (newest_first created_at rs)).
  rewrite (filter_cons _ r rs), <- IH. clear IH.
  induction (newest_first created_at rs) as [|r' rest IHrest]; [done|]. simpl.
  destruct (created_at r <? created_at r')%Z eqn:Hlt.
  - apply Z.ltb_lt in Hlt. rewrite (filter_cons _ r' (insert_newest _ _ _)), IHrest.
    rewrite (filter_cons _ r' rest).
    destruct (decide (created_at r = ts)); destruct (decide (created_at r' = ts));
      try done. lia.
  - by rewrite (filter_cons _ r (r' :: rest)).
Qed.

Lemma head_filter_Some {A : Type} (P : A → Prop) `{!∀ x, Decision (P x)} (l : list A) (x : A) :
  head (filter P l) = Some x →
  ∃ l1 l2, l = l1 ++ x :: l2 ∧ P x ∧ ∀ y, y ∈ l1 → ¬ P y.
Proof.
  induction l as [|a l IH]; [done|]. rewrite filter_cons.
  destruct (decide (P a)) as [Ha|Ha]; simpl.
  - intros [= ->]. exists [], l. split; [done|]. split; [done|].
    intros y Hy. by apply elem_of_nil in Hy.
  - intros (l1 & l2 & -> & Hx & Hl1)%IH. exists (a :: l1), l2.
    split; [done|]. split; [done|].
    intros y [->|Hy]%elem_of_cons; [done|by apply Hl1].
Qed.

(** Filtering with two predicates that agree on the elements. *)
Lemma filter_ext_in {A : Type} (P1 P2 : A → Prop)
    `{!∀ x, Decision (P1 x), !∀ x, Decision (P2 x)} (l : list A) :
  (∀ x, x ∈ l → (P1 x ↔ P2 x)) → filter P1 l = filter P2 l.
Proof.
  induction l as [|a l IH]; intros Hiff; [done|].
  assert (P1 a ↔ P2 a) as Ha by (apply Hiff; left).
  assert (filter P1 l = filter P2 l) as Hl by (apply IH; intros x Hx; apply Hiff; by right).
  destruct (decide (P1 a)).
  - rewrite !filter_cons_True by tauto. by rewrite Hl.
  - rewrite !filter_cons_False by tauto. done.
Qed.

Lemma filter_all {A : Type} (P : A → Prop) `{!∀ x, Decision (P x)} (l : list A) :
  (∀ x, x ∈ l → P x) → filter P l = l.
Proof.
  induction l as [|a l IH]; intros Hall; [done|].
  rewrite filter_cons_True by (apply Hall; left).
  f_equal. apply IH. intros x Hx. apply Hall. by right.
Qed.

Lemma filter_none {A : Type} (P : A → Prop) `{!∀ x, Decision (P x)} (l : list A) :
  (∀ x, x ∈ l → ¬ P x) → filter P l = [].
Proof.
  induction l as [|a l IH]; intros Hall; [done|].
  rewrite filter_cons_False by (apply Hall; left).
  apply IH. intros x Hx. apply Hall. by right.
Qed.

(** With distinct keys, the first [n] elements and the rest share no key. *)
Lemma take_drop_keys {A : Type} (key : A → Z) (n : nat) (l : list A) (x : A) :
  NoDup (key <$> l) → x ∈ l →
  (key x ∈ key <$> take n l ↔ key x ∉ key <$> drop n l).
Proof.
  intros Hnd Hx.
  rewrite <- (take_drop n l) in Hnd, Hx.
  rewrite fmap_app in Hnd. apply NoDup_app in Hnd as (_ & Hdisj & _).
  split; [apply Hdisj|].
  intros Hnot. apply elem_of_app in Hx as [Hx|Hx].
  - apply list_elem_of_fmap. eauto.
  - exfalso. apply Hnot. apply list_elem_of_fmap. eauto.
Qed.

Lemma select_checkpoints_by_session_elem (d : Database) (sid : Z) (auto_only : bool)
    (r : CheckpointRow) :
  r ∈ select_checkpoints_by_session d sid auto_only ↔
  r ∈ rows (checkpoints d) ∧ cp_internal_session_id r = sid
  ∧ (auto_only = true → cp_is_auto r = true).
Proof.
  unfold select_checkpoints_by_session.
  rewrite newest_first_perm, list_elem_of_filter. tauto.
Qed.

Lemma select_checkpoints_by_session_NoDup (d : Database) (sid : Z) (auto_only : bool) :
  NoDup (cp_id <$> rows (checkpoints d)) →
  NoDup (cp_id <$> select_checkpoints_by_session d sid auto_only).
Proof.
  intros Hnd. unfold select_checkpoints_by_session.
  rewrite newest_first_perm.
  refine (sublist_NoDup _ _ Hnd _). apply fmap_sublist, sublist_filter.
Qed.

Lemma NoDup_fmap_elem_inj {A : Type} (key : A → Z) (l : list A) (x y : A) :
  NoDup (key <$> l) → x ∈ l → y ∈ l → key x = key y → x = y.
Proof.
  induction l as [|a l IH]; intros Hnd Hx Hy Hk; [by apply elem_of_nil in Hx|].
  rewrite fmap_cons in Hnd. apply NoDup_cons in Hnd as [Ha Hnd].
  apply elem_of_cons in Hx as [->|Hx]; apply elem_of_cons in Hy as [->|Hy]; try done.
  - exfalso. apply Ha. rewrite Hk. apply list_elem_of_fmap. eauto.
  - exfalso. apply Ha. rewrite <- Hk. apply list_elem_of_fmap. eauto.
  - by apply IH.
Qed.

(** The rows the [DELETE] of [delete_auto_checkpoints] removes, for a
    limit that is not negative: the automatic checkpoints of the session
    past the first [keep_latest] of the newest-first listing. *)
Lemma delete_auto_checkpoints_sql_spec (d : Database) (sid keep_latest : Z) :
  (0 ≤ keep_latest)%Z →
  NoDup (cp_id <$> rows (checkpoints d)) →
  let pruned := drop (Z.to_nat keep_latest) (select_checkpoints_by_session d sid true) in
  delete_auto_checkpoints_sql d sid keep_latest =
  (with_checkpoints d
     (mkTable (filter (λ r, cp_id r ∉ cp_id <$> pruned) (rows (checkpoints d)))
        (seq (checkpoints d))),
   length pruned).
Proof.
  intros HN Hnd pruned.
  set (autos := select_checkpoints_by_session d sid true) in *.
  set (n := Z.to_nat keep_latest) in *.
  assert (Hautos : ∀ r, r ∈ autos ↔
            r ∈ rows (checkpoints d) ∧ cp_internal_session_id r = sid ∧ cp_is_auto r = true).
  { intros r. unfold autos. rewrite select_checkpoints_by_session_elem. tauto. }
  assert (Hnda : NoDup (cp_id <$> autos))
    by by apply select_checkpoints_by_session_NoDup.
  assert (Hpruned_sub : ∀ r, r ∈ pruned → r ∈ autos).
  { intros r Hr. unfold pruned in Hr. rewrite <- (take_drop n autos).
    apply elem_of_app. by right. }
  assert (Hkeep : select_keep_ids d sid keep_latest = cp_id <$> take n autos).
  { unfold select_keep_ids, sql_limit.
    destruct (keep_latest <? 0)%Z eqn:Hneg; [apply Z.ltb_lt in Hneg; lia|done]. }
  (* the rows the statement removes, among the rows of the table *)
  assert (Hdoomed : ∀ r, r ∈ rows (checkpoints d) →
            (bool_decide (cp_internal_session_id r = sid) && cp_is_auto r
             && bool_decide (cp_id r ∉ cp_id <$> take n autos) = true
             ↔ cp_id r ∈ cp_id <$> pruned)).
  { intros r Hr. rewrite !andb_true_iff, !bool_decide_eq_true. split.
    - intros [[Hs Ha] Hk].
      assert (r ∈ autos) as Hin by (apply Hautos; done).
      destruct (decide (cp_id r ∈ cp_id <$> pruned)) as [|Hnot]; [done|].
      exfalso. apply Hk. by apply take_drop_keys.
    - intros (r' & Hid & Hr')%list_elem_of_fmap.
      assert (r' ∈ autos) as Hin' by by apply Hpruned_sub.
      assert (r = r') as <-.
      { eapply (NoDup_fmap_elem_inj cp_id); [exact Hnd|done| |done].
        by apply Hautos in Hin' as [? _]. }
      apply Hautos in Hin' as (_ & Hs & Ha). repeat split; [done|done|].
      intros Hk. apply (take_drop_keys cp_id n autos r) in Hk; [|done|by apply Hautos].
      apply Hk. apply list_elem_of_fmap. eauto. }
  assert (Hdoomed' : ∀ r, r ∈ rows (checkpoints d) →
            (match select_keep_ids d sid keep_latest with
             | [] => bool_decide (cp_internal_session_id r = sid) && cp_is_auto r
             | _ => bool_decide (cp_internal_session_id r = sid) && cp_is_auto r
                    && bool_decide (cp_id r ∉ select_keep_ids d sid keep_latest)
             end = true ↔ cp_id r ∈ cp_id <$> pruned)).
  { intros r Hr. rewrite <- (Hdoomed r Hr), Hkeep.
    destruct (cp_id <$> take n autos) as [|k ks] eqn:Hk; [|done].
    rewrite (bool_decide_eq_true_2 (cp_id r ∉ [])) by apply not_elem_of_nil.
    by rewrite andb_true_r. }
  unfold delete_auto_checkpoints_sql. f_equal.
  - f_equal. f_equal. apply filter_ext_in. intros r Hr.
    rewrite <- (Hdoomed' r Hr). by destruct (match _ with [] => _ | _ => _ end).
  - apply Permutation_length.
    rewrite (filter_ext_in _ (λ r, cp_id r ∈ cp_id <$> pruned)) by exact Hdoomed'.
    apply NoDup_Permutation.
    + apply NoDup_filter. by apply NoDup_fmap_1 in Hnd.
    + apply NoDup_fmap_1 with (f := cp_id). unfold pruned. rewrite fmap_drop.
      refine (sublist_NoDup _ _ Hnda _). apply sublist_drop.
    + intros r. rewrite list_elem_of_filter. split.
      * intros [(r' & Hid & Hr')%list_elem_of_fmap Hr].
        assert (r = r') as <-; [|done].
        eapply (NoDup_fmap_elem_inj cp_id); [exact Hnd|done| |done].
        apply Hpruned_sub, Hautos in Hr'. tauto.
      * intros Hr. split; [apply list_elem_of_fmap; eauto|].
        apply Hpruned_sub, Hautos in Hr. tauto.
Qed.

End StoreFacts.

(** ** Pruning automatic checkpoints *)

Section PruneFacts.
Import Py Store.

(** C9: for [keep_latest >= 1], [delete_auto_checkpoints] removes the
    automatic checkpoints of the session that come after the first
    [keep_latest] of its newest-first listing, and only those: every
    manual checkpoint, every checkpoint of another session and the
    [keep_latest] most recent automatic ones stay; with [keep_latest] or
    fewer automatic checkpoints nothing changes at all.  That the rows
    kept are the most recent ones is stated on the rows themselves: the
    automatic checkpoints of the session that remain are
    [min keep_latest n] of the [n] there were, and none of them was
    created before one that went. *)
Theorem delete_auto_checkpoints_prunes (m : Machine) (sid keep_latest : Z) :
  (1 ≤ keep_latest)%Z →
  NoDup (cp_id <$> rows (checkpoints (db m))) →
  let autos := select_checkpoints_by_session (db m) sid true in
  let pruned := drop (Z.to_nat keep_latest) autos in
  let out := CheckpointRepository.delete_auto_checkpoints sid keep_latest m in
  let automatic := λ r, cp_internal_session_id r = sid ∧ cp_is_auto r = true in
  out.1 = Returned (length pruned)
  ∧ rows (checkpoints (db out.2))
    = filter (λ r, cp_id r ∉ cp_id <$> pruned) (rows (checkpoints (db m)))
  ∧ (∀ r, r ∈ pruned →
       r ∈ rows (checkpoints (db m)) ∧ cp_internal_session_id r = sid ∧ cp_is_auto r = true)
  ∧ (∀ r, r ∈ rows (checkpoints (db m)) → cp_is_auto r = false →
       r ∈ rows (checkpoints (db out.2)))
  ∧ (∀ r, r ∈ rows (checkpoints (db m)) → cp_internal_session_id r ≠ sid →
       r ∈ rows (checkpoints (db out.2)))
  ∧ (∀ r, r ∈ take (Z.to_nat keep_latest) autos → r ∈ rows (checkpoints (db out.2)))
  ∧ ((length autos ≤ Z.to_nat keep_latest)%nat → out.2 = m)
  ∧ autos ≡ₚ filter automatic (rows (checkpoints (db m)))
  ∧ StronglySorted (λ a b, (cp_created_at b ≤ cp_created_at a)%Z) autos
  ∧ length (filter automatic (rows (checkpoints (db out.2))))
    = Nat.min (Z.to_nat keep_latest)
        (length (filter automatic (rows (checkpoints (db m)))))
  ∧ (∀ kept gone,
       kept ∈ rows (checkpoints (db out.2)) → automatic kept →
       gone ∈ rows (checkpoints (db m)) → gone ∉ rows (checkpoints (db out.2)) →
       (cp_created_at gone ≤ cp_created_at kept)%Z)
  ∧ out.1 = Returned (length (rows (checkpoints (db m)))
                      - length (rows (checkpoints (db out.2))))%nat.
Proof.
  intros HN Hnd autos pruned out automatic.
  set (n := Z.to_nat keep_latest) in *.
  set (before := rows (checkpoints (db m))) in *.
  set (after := filter (λ r, cp_id r ∉ cp_id <$> pruned) before).
  assert (Hout : out = (Returned (length pruned),
            mkMachine (pyheap m)
              (with_checkpoints (db m) (mkTable after (seq (checkpoints (db m)))))
              (clock m) (track m))).
  { unfold out, CheckpointRepository.delete_auto_checkpoints.
    cbv beta iota delta [mbind M_bind mret M_ret get_db put_db].
    rewrite delete_auto_checkpoints_sql_spec by (done || lia). done. }
  assert (Hautos : ∀ r, r ∈ autos ↔ r ∈ before ∧ automatic r).
  { intros r. unfold autos. rewrite select_checkpoints_by_session_elem.
    unfold automatic. tauto. }
  assert (Hsplit : autos = take n autos ++ pruned) by (symmetry; apply take_drop).
  assert (Hnda : NoDup (cp_id <$> autos)) by by apply select_checkpoints_by_session_NoDup.
  assert (Hprops : ∀ r, r ∈ pruned →
            r ∈ before ∧ cp_internal_session_id r = sid ∧ cp_is_auto r = true).
  { intros r Hr. apply Hautos. rewrite Hsplit. apply elem_of_app. by right. }
  assert (Hstay : ∀ r, r ∈ before → r ∉ pruned → cp_id r ∉ cp_id <$> pruned).
  { intros r Hr Hnot (r' & Hid & Hr')%list_elem_of_fmap.
    assert (r = r') as <-; [|done].
    eapply (NoDup_fmap_elem_inj cp_id); [exact Hnd|done| |done].
    by apply Hprops in Hr' as [? _]. }
  assert (Hgone : ∀ r, r ∈ before → r ∉ after → r ∈ pruned).
  { intros r Hr Hnot.
    destruct (decide (cp_id r ∈ cp_id <$> pruned)) as [Hid|Hid].
    - apply list_elem_of_fmap in Hid as (r' & Hid & Hr').
      assert (r = r') as <-; [|done].
      eapply (NoDup_fmap_elem_inj cp_id); [exact Hnd|done| |done].
      by apply Hprops in Hr' as [? _].
    - exfalso. apply Hnot. by apply list_elem_of_filter. }
  assert (Hkept : ∀ r, r ∈ after ∧ automatic r ↔ r ∈ take n autos).
  { intros r. split.
    - intros [[Hid Hr]%list_elem_of_filter Hauto].
      assert (r ∈ autos) as Hin by (by apply Hautos).
      rewrite Hsplit in Hin. apply elem_of_app in Hin as [|Hp]; [done|].
      exfalso. apply Hid. apply list_elem_of_fmap. eauto.
    - intros Hr.
      assert (r ∈ autos) as Hin by (rewrite Hsplit; apply elem_of_app; by left).
      apply Hautos in Hin as Hrow. destruct Hrow as [Hrow Hauto].
      split; [|done]. apply list_elem_of_filter. split; [|done].
      apply (take_drop_keys cp_id n autos r); [done|done|].
      apply list_elem_of_fmap. eauto. }
  assert (Hperm : autos ≡ₚ filter automatic before).
  { unfold autos, select_checkpoints_by_session. rewrite newest_first_perm.
    erewrite filter_ext_in; [reflexivity|]. intros r _. unfold automatic. tauto. }
  assert (Hsorted : StronglySorted (λ a b, (cp_created_at b ≤ cp_created_at a)%Z) autos)
    by apply newest_first_sorted.
  assert (Hndb : NoDup before) by (by apply NoDup_fmap_1 in Hnd).
  assert (Hcount : length (filter automatic after)
                   = Nat.min n (length (filter automatic before))).
  { rewrite <- Hperm, <- length_take. apply Permutation_length, NoDup_Permutation.
    - apply NoDup_filter. by apply NoDup_filter.
    - apply NoDup_fmap_1 with (f := cp_id). rewrite fmap_take.
      refine (sublist_NoDup _ _ Hnda _). apply sublist_take.
    - intros r. rewrite list_elem_of_filter, <- Hkept. tauto. }
  assert (Hlen : (length pruned = length before - length after)%nat).
  { assert (Hp : before ≡ₚ after ++ pruned).
    { apply NoDup_Permutation; [done| |].
      - apply NoDup_app. split; [by apply NoDup_filter|]. split.
        + intros r [Hid _]%list_elem_of_filter Hp. apply Hid.
          apply list_elem_of_fmap. eauto.
        + apply NoDup_fmap_1 with (f := cp_id). unfold pruned. rewrite fmap_drop.
          refine (sublist_NoDup _ _ Hnda _). apply sublist_drop.
      - intros r. rewrite elem_of_app. split.
        + intros Hr. destruct (decide (cp_id r ∈ cp_id <$> pruned)) as [Hid|Hid].
          * right. apply Hgone; [done|]. by intros [? _]%list_elem_of_filter.
          * left. by apply list_elem_of_filter.
        + intros [[_ ?]%list_elem_of_filter|Hp]; [done|by apply Hprops in Hp as [? _]]. }
    apply Permutation_length in Hp. rewrite length_app in Hp. lia. }
  rewrite Hout. cbn [fst snd db checkpoints with_checkpoints rows]. fold before.
  split; [done|]. split; [done|]. split; [exact Hprops|].
  split.
  { intros r Hr Hauto. apply list_elem_of_filter. split; [|done].
    apply Hstay; [done|]. intros Hp. apply Hprops in Hp as (_ & _ & Ha). congruence. }
  split.
  { intros r Hr Hsid. apply list_elem_of_filter. split; [|done].
    apply Hstay; [done|]. intros Hp. apply Hprops in Hp as (_ & Hs & _). congruence. }
  split; [intros r Hr; by apply Hkept in Hr as [? _]|].
  split.
  { intros Hle. unfold after, pruned. rewrite drop_ge by done. simpl.
    rewrite filter_all by (intros; apply not_elem_of_nil).
    unfold before. destruct m as [h [[rs sq] ss es] c t]. done. }
  split; [exact Hperm|]. split; [exact Hsorted|]. split; [exact Hcount|].
  split; [|by rewrite Hlen].
  intros kept gone Hk Hauto Hg Hnot.
  assert (kept ∈ take n autos) as Hkt by (by apply Hkept).
  assert (gone ∈ pruned) as Hgp by (by apply Hgone).
  rewrite Hsplit in Hsorted.
  exact (StronglySorted_app_1_elem_of _ _ _ _ _ Hsorted Hkt Hgp).
Qed.

End PruneFacts.

Section PruneScenarioFacts.
Import Py Store PruneScenario.

(** C9, witness: the store with ten automatic and three manual
    checkpoints in session 1, pruned to the five latest. *)
Lemma delete_auto_checkpoints_prunes_witness :
  let autos := select_checkpoints_by_session (db machine0) 1 true in
  let pruned := drop (Z.to_nat 5) autos in
  let out := CheckpointRepository.delete_auto_checkpoints 1 5 machine0 in
  let automatic := λ r, cp_internal_session_id r = 1 ∧ cp_is_auto r = true in
  out.1 = Returned (length pruned)
  ∧ rows (checkpoints (db out.2))
    = filter (λ r, cp_id r ∉ cp_id <$> pruned) (rows (checkpoints (db machine0)))
  ∧ (∀ r, r ∈ pruned →
       r ∈ rows (checkpoints (db machine0)) ∧ cp_internal_session_id r = 1 ∧ cp_is_auto r = true)
  ∧ (∀ r, r ∈ rows (checkpoints (db machine0)) → cp_is_auto r = false →
       r ∈ rows (checkpoints (db out.2)))
  ∧ (∀ r, r ∈ rows (checkpoints (db machine0)) → cp_internal_session_id r ≠ 1 →
       r ∈ rows (checkpoints (db out.2)))
  ∧ (∀ r, r ∈ take (Z.to_nat 5) autos → r ∈ rows (checkpoints (db out.2)))
  ∧ ((length autos ≤ Z.to_nat 5)%nat → out.2 = machine0)
  ∧ autos ≡ₚ filter automatic (rows (checkpoints (db machine0)))
  ∧ StronglySorted (λ a b, (cp_created_at b ≤ cp_created_at a)%Z) autos
  ∧ length (filter automatic (rows (checkpoints (db out.2))))
    = Nat.min (Z.to_nat 5) (length (filter automatic (rows (checkpoints (db machine0)))))
  ∧ (∀ kept gone,
       kept ∈ rows (checkpoints (db out.2)) → automatic kept →
       gone ∈ rows (checkpoints (db machine0)) → gone ∉ rows (checkpoints (db out.2)) →
       (cp_created_at gone ≤ cp_created_at kept)%Z)
  ∧ out.1 = Returned (length (rows (checkpoints (db machine0)))
                      - length (rows (checkpoints (db out.2))))%nat.
Proof.
  apply (delete_auto_checkpoints_prunes machine0 1 5).
  - lia.
  - refine (bool_decide_unpack _ _). vm_compute. exact I.
Defined.

(** The scenario, evaluated: the five oldest automatic checkpoints of
    session 1 go; five automatic and three manual ones stay, with the
    checkpoint of session 2. *)
Example prune_scenario_result :
  let out := CheckpointRepository.delete_auto_checkpoints 1 5 machine0 in
  out.1 = Returned 5%nat
  ∧ cp_id <$> rows (checkpoints (db out.2)) = [3; 6; 8; 9; 10; 11; 12; 13; 14]%Z
  ∧ (λ r, (cp_id r, cp_created_at r))
      <$> filter (λ r, cp_id r ∉ cp_id <$> rows (checkpoints (db out.2)))
            (rows (checkpoints (db machine0)))
    = [(1, 10); (2, 20); (4, 30); (5, 40); (7, 50)]%Z
  ∧ (CheckpointRepository.delete_auto_checkpoints 1 5 out.2).1 = Returned 0%nat.
Proof. vm_compute. done. Qed.

End PruneScenarioFacts.

(** ** The machine monad *)

Section MachineFacts.

Lemma bind_run {A B : Type} (c : M A) (k : A → M B) (m : Machine) :
  (c ≫= k) m =
  match c m with
  | (Returned a, m') => k a m'
  | (Raised e, m') => (Raised e, m')
  end.
Proof. done. Qed.

Lemma ret_run {A : Type} (a : A) (m : Machine) : (mret a : M A) m = (Returned a, m).
Proof. done. Qed.

Lemma py_dumps_run (v : Py.pyval) (m : Machine) :
  py_dumps v m =
  match Py.json_dumps (pyheap m) v with
  | Some j => (Returned j, m)
  | None => (Raised "ValueError: Circular reference detected", m)
  end.
Proof. done. Qed.

Lemma py_dumps_state (v : Py.pyval) (m : Machine) : (py_dumps v m).2 = m.
Proof. rewrite py_dumps_run. by destruct (Py.json_dumps _ _). Qed.

Lemma py_loads_db (j : Py.json) (m : Machine) :
  db (py_loads j m).2 = db m ∧ clock (py_loads j m).2 = clock m
  ∧ ∃ a, (py_loads j m).1 = Returned a.
Proof.
  unfold py_loads, on_heap. destruct (Py.json_loads j (pyheap m)). simpl. eauto.
Qed.

Lemma py_new_run (o : Py.pyobj) (m : Machine) :
  py_new o m
  = (Returned (Py.PRef (length (pyheap m))), mkMachine (pyheap m ++ [o]) (db m) (clock m) (track m)).
Proof. done. Qed.

Lemma py_copy_run (v : Py.pyval) (m : Machine) :
  py_copy v m =
  match Py.copy v (pyheap m) with
  | Some (v', h') => (Returned v', mkMachine h' (db m) (clock m) (track m))
  | None => (Raised "AttributeError: object has no attribute 'copy'", m)
  end.
Proof. done. Qed.

Lemma py_loads_run (j : Py.json) (m : Machine) :
  py_loads j m
  = (Returned (Py.json_loads j (pyheap m)).1,
     mkMachine (Py.json_loads j (pyheap m)).2 (db m) (clock m) (track m)).
Proof. unfold py_loads, on_heap. by destruct (Py.json_loads j (pyheap m)). Qed.

(** A new dict that holds a string and a number serialises to the object
    with these two members. *)
Lemma json_dumps_new_dict2 (h h' : Py.heap) (k1 k2 s : string) (z : Z) :
  Py.json_dumps (h ++ Py.PDict [(k1, Py.PStr s); (k2, Py.PInt z)] :: h') (Py.PRef (length h))
  = Some (Py.JDict [(k1, Py.JStr s); (k2, Py.JInt z)]).
Proof.
  unfold Py.json_dumps. rewrite dumps_fuel_ref, list_lookup_middle by done.
  simpl. by destruct (length _).
Qed.

End MachineFacts.

(** ** The current internal session *)

Section SessionFacts.
Import Py Store SessionOps.

Lemma NoDup_length_le_1 {A : Type} (key : A → Z) (l : list A) :
  NoDup (key <$> l) → (∀ x y, x ∈ l → y ∈ l → key x = key y) → (length l ≤ 1)%nat.
Proof.
  destruct l as [|a [|b l]]; simpl; intros Hnd Hall; [lia|lia|].
  exfalso. apply NoDup_cons in Hnd as [Ha _]. apply Ha.
  rewrite (Hall a b) by (repeat constructor). left.
Qed.

Lemma at_most_one_current_iff (d : Database) :
  NoDup (s_id <$> rows (internal_sessions d)) →
  (at_most_one_current d ↔ unique_current d).
Proof.
  intros Hnd. split.
  - intros Hone r1 r2 Hr1 Hr2 Hext Hc1 Hc2.
    specialize (Hone (s_external_session_id r1)). unfold current_sessions in Hone.
    assert (r1 ∈ filter (λ r, s_external_session_id r = s_external_session_id r1
                              ∧ s_is_current r = true) (rows (internal_sessions d)))
      as H1 by (apply list_elem_of_filter; done).
    assert (r2 ∈ filter (λ r, s_external_session_id r = s_external_session_id r1
                              ∧ s_is_current r = true) (rows (internal_sessions d)))
      as H2 by (apply list_elem_of_filter; done).
    destruct (filter _ _) as [|a [|b l]]; simpl in Hone; [|
      apply list_elem_of_singleton in H1, H2; congruence | lia].
    by apply elem_of_nil in H1.
  - intros Huniq ext. unfold current_sessions.
    apply (NoDup_length_le_1 s_id).
    + refine (sublist_NoDup _ _ Hnd _). apply fmap_sublist, sublist_filter.
    + intros x y [[Hx1 Hx2] Hx]%list_elem_of_filter [[Hy1 Hy2] Hy]%list_elem_of_filter.
      apply Huniq; congruence.
Qed.

Local Arguments Py.json_dumps : simpl never.
Local Arguments Py.json_loads : simpl never.

Lemma map_sessions_elem (f : SessionRow → SessionRow) (d : Database) (r' : SessionRow) :
  r' ∈ rows (internal_sessions (map_sessions f d)) ↔
  ∃ r, r' = f r ∧ r ∈ rows (internal_sessions d).
Proof. unfold map_sessions. simpl. apply list_elem_of_fmap. Qed.

Lemma map_sessions_wf (f : SessionRow → SessionRow) (d : Database) :
  (∀ r, s_id (f r) = s_id r) → wf_sessions d → wf_sessions (map_sessions f d).
Proof.
  intros Hid [Hnd Hle]. unfold wf_sessions, map_sessions. simpl. split.
  - rewrite <- list_fmap_compose.
    rewrite (list_fmap_ext (s_id ∘ f) s_id (rows (internal_sessions d))); [done|].
    intros i r _. simpl. apply Hid.
  - intros r' (r & -> & Hr)%list_elem_of_fmap. rewrite Hid. by apply Hle.
Qed.

(** Demoting the sessions of an external session, all of them or all but
    one. *)
Lemma sql_mark_not_current_spec (d : Database) (ext : Z) (exclude_id : option Z) :
  wf_sessions d → unique_current d →
  let d' := sql_mark_not_current d ext exclude_id in
  wf_sessions d' ∧ unique_current d'
  ∧ (∀ r', r' ∈ rows (internal_sessions d') → s_external_session_id r' = ext →
           s_is_current r' = true → Some (s_id r') = exclude_id)
  ∧ (∀ r', r' ∈ rows (internal_sessions d') →
           ∃ r, r ∈ rows (internal_sessions d) ∧ s_id r = s_id r'
                ∧ s_external_session_id r = s_external_session_id r'
                ∧ (s_is_current r' = true → s_is_current r = true)).
Proof.
  intros Hwf Huniq d'. unfold d', sql_mark_not_current.
  set (f := λ r : SessionRow,
         if bool_decide (s_external_session_id r = ext)
            && bool_decide (Some (s_id r) ≠ exclude_id)
         then set_is_current false r else r).
  assert (Hid : ∀ r, s_id (f r) = s_id r).
  { intros r. unfold f. by destruct (_ && _). }
  assert (Hext : ∀ r, s_external_session_id (f r) = s_external_session_id r).
  { intros r. unfold f. by destruct (_ && _). }
  assert (Hcur : ∀ r, s_is_current (f r) = true →
            s_is_current r = true
            ∧ (s_external_session_id r = ext → Some (s_id r) = exclude_id)).
  { intros r. unfold f.
    destruct (bool_decide_reflect (s_external_session_id r = ext)) as [He|He];
      destruct (bool_decide_reflect (Some (s_id r) ≠ exclude_id)) as [Hx|Hx]; simpl;
      try done; intros Hc; split; try done.
    intros _. by destruct (decide (Some (s_id r) = exclude_id)). }
  split; [by apply map_sessions_wf|]. split; [|split].
  - intros r1' r2' (r1 & -> & Hr1)%map_sessions_elem (r2 & -> & Hr2)%map_sessions_elem.
    rewrite !Hext, !Hid. intros He [Hc1 _]%Hcur [Hc2 _]%Hcur. by apply Huniq.
  - intros r' (r & -> & Hr)%map_sessions_elem. rewrite Hext, Hid.
    intros He [_ Hx]%Hcur. by apply Hx.
  - intros r' (r & -> & Hr)%map_sessions_elem. exists r.
    rewrite Hid, Hext. repeat split; try done. by intros [? _]%Hcur.
Qed.

(** Inserting a session row: the new id is fresh; a current row may come
    only where no row of its external session is current. *)
Lemma insert_session_spec (d : Database) (row : SessionRow) :
  wf_sessions d → unique_current d →
  s_id row = (seq (internal_sessions d) + 1)%Z →
  (s_is_current row = true →
   ∀ r, r ∈ rows (internal_sessions d) →
        s_external_session_id r = s_external_session_id row → s_is_current r = false) →
  let d' := with_internal_sessions d
              (mkTable (rows (internal_sessions d) ++ [row]) (s_id row)) in
  wf_sessions d' ∧ unique_current d'.
Proof.
  intros [Hnd Hle] Huniq Hid Hfresh d'. unfold d', wf_sessions, unique_current. simpl.
  split; [split|].
  - rewrite fmap_app. simpl. apply NoDup_app. split; [done|]. split.
    + intros x (r & -> & Hr)%list_elem_of_fmap [Hx|Hx]%elem_of_cons.
      * apply Hle in Hr. lia.
      * by apply elem_of_nil in Hx.
    + apply NoDup_singleton.
  - intros r [Hr|Hr%list_elem_of_singleton]%elem_of_app.
    + apply Hle in Hr. lia.
    + subst r. lia.
  - intros r1 r2 [H1|H1%list_elem_of_singleton]%elem_of_app
                 [H2|H2%list_elem_of_singleton]%elem_of_app He Hc1 Hc2; subst.
    + by apply Huniq.
    + rewrite (Hfresh Hc2 r1 H1 He) in Hc1. done.
    + rewrite (Hfresh Hc1 r2 H2 (eq_sym He)) in Hc2. done.
    + done.
Qed.

(** [create] keeps the invariant, whether it returns or raises; when it
    returns a current session, that session is the only current one of
    its external session. *)
Lemma create_spec (session : InternalSession.t) (m : Machine) :
  wf_sessions (db m) → unique_current (db m) →
  let out := InternalSessionRepository.create session m in
  wf_sessions (db out.2) ∧ unique_current (db out.2)
  ∧ (∀ session', out.1 = Returned session' →
       InternalSession.is_current session = true →
       ∃ id row, InternalSession.id session' = Some id
         ∧ s_id row = id
         ∧ current_sessions (db out.2) (InternalSession.external_session_id session) = [row]).
Proof.
  intros Hwf Huniq. destruct m as [h d c t]. simpl in *.
  unfold InternalSessionRepository.create,
    InternalSessionRepository._mark_all_not_current.
  set (ext := InternalSession.external_session_id session).
  set (d0 := if InternalSession.is_current session
             then sql_mark_not_current d ext None else d).
  assert (Hd0 : wf_sessions d0 ∧ unique_current d0
            ∧ (InternalSession.is_current session = true →
               ∀ r, r ∈ rows (internal_sessions d0) →
                    s_external_session_id r = ext → s_is_current r = false)).
  { unfold d0. destruct (InternalSession.is_current session); [|done].
    destruct (sql_mark_not_current_spec d ext None Hwf Huniq) as (? & ? & Hnone & _).
    split; [done|]. split; [done|]. intros _ r Hr He.
    destruct (s_is_current r) eqn:Hc; [|done]. by specialize (Hnone r Hr He Hc). }
  destruct Hd0 as (Hwf0 & Huniq0 & Hnone0).
  assert (Hstep : ∀ ts,
    let out :=
      (_ ← (if InternalSession.is_current session
            then (d1 ← get_db; put_db (sql_mark_not_current d1 ext (truthy_id None)))
            else mret tt);
       state ← py_dumps (InternalSession.session_state session);
       history ← py_dumps (InternalSession.conversation_history session);
       d1 ← get_db;
       if bool_decide (InternalSession.agno_session_id session
                         ∈ s_agno_session_id <$> rows (internal_sessions d1))
       then raise "IntegrityError: UNIQUE constraint failed: internal_sessions.agno_session_id"
       else
         let '(id, t) :=
           insert (λ id, mkSessionRow id ext (InternalSession.agno_session_id session)
                           state history ts (InternalSession.is_current session)
                           (InternalSession.checkpoint_count session))
             (internal_sessions d1) in
         _ ← put_db (with_internal_sessions d1 t);
         mret (InternalSession.with_id
                 (InternalSession.with_created_at session (Some ts)) (Some id)))
        (mkMachine h d c t) in
    wf_sessions (db out.2) ∧ unique_current (db out.2)
    ∧ (∀ session', out.1 = Returned session' →
         InternalSession.is_current session = true →
         ∃ id row, InternalSession.id session' = Some id ∧ s_id row = id
           ∧ current_sessions (db out.2) ext = [row])).
  { intros ts.
    assert (Hm0 : (if InternalSession.is_current session
                   then (d1 ← get_db; put_db (sql_mark_not_current d1 ext (truthy_id None)))
                   else mret tt) (mkMachine h d c t) = (Returned tt, mkMachine h d0 c t)).
    { unfold d0. by destruct (InternalSession.is_current session). }
    cbv zeta. rewrite bind_run, Hm0.
    rewrite bind_run, py_dumps_run. simpl pyheap.
    destruct (json_dumps h (InternalSession.session_state session)) as [state|];
      [|simpl; split; [done|split; done]].
    rewrite bind_run, py_dumps_run. simpl pyheap.
    destruct (json_dumps h (InternalSession.conversation_history session)) as [history|];
      [|simpl; split; [done|split; done]].
    rewrite bind_run. unfold get_db. simpl db.
    destruct (bool_decide _); [simpl; split; [done|split; done]|].
    unfold insert. rewrite bind_run. unfold put_db, mret, M_ret. simpl.
    set (row := mkSessionRow (seq (internal_sessions d0) + 1) ext
                  (InternalSession.agno_session_id session) state history ts
                  (InternalSession.is_current session)
                  (InternalSession.checkpoint_count session)).
    destruct (insert_session_spec d0 row Hwf0 Huniq0 eq_refl) as [Hwf1 Huniq1].
    { simpl. intros Hc r Hr He. by apply Hnone0. }
    simpl in Hwf1, Huniq1. split; [done|]. split; [done|].
    intros session' [= <-] Hc. exists (seq (internal_sessions d0) + 1)%Z, row.
    split; [done|]. split; [done|].
    unfold current_sessions. simpl. rewrite filter_app.
    rewrite filter_none.
    - simpl. rewrite filter_cons_True by done. done.
    - intros r Hr [He Hcr]. rewrite (Hnone0 Hc r Hr He) in Hcr. done. }
  rewrite bind_run.
  destruct (InternalSession.created_at session) as [ts|]; simpl; apply Hstep.
Qed.

Lemma truthy_id_Some (i : option Z) (x : Z) : truthy_id i = Some x → i = Some x ∧ x ≠ 0%Z.
Proof.
  destruct i as [y|]; simpl; [|done].
  destruct (y =? 0)%Z eqn:Hy; [done|]. apply Z.eqb_neq in Hy. by intros [= ->].
Qed.

Lemma select_session_Some (d : Database) (id : Z) (row : SessionRow) :
  select_session d id = Some row → row ∈ rows (internal_sessions d) ∧ s_id row = id.
Proof.
  unfold select_session. intros Hh%head_Some_elem_of.
  apply list_elem_of_filter in Hh. tauto.
Qed.

Lemma select_session_None (d : Database) (id : Z) (r : SessionRow) :
  select_session d id = None → r ∈ rows (internal_sessions d) → s_id r ≠ id.
Proof.
  unfold select_session. intros Hh Hr Hid.
  assert (r ∈ filter (λ r, s_id r = id) (rows (internal_sessions d))) as Hin
    by (apply list_elem_of_filter; done).
  destruct (filter _ _); [by apply elem_of_nil in Hin|done].
Qed.

(** With the invariant, a current row of an external session is the whole
    list of its current rows. *)
Lemma current_sessions_singleton (d : Database) (row : SessionRow) :
  wf_sessions d → unique_current d →
  row ∈ rows (internal_sessions d) → s_is_current row = true →
  current_sessions d (s_external_session_id row) = [row].
Proof.
  intros [Hnd Hle] Huniq Hr Hc.
  pose proof (proj2 (at_most_one_current_iff d Hnd) Huniq (s_external_session_id row)) as Hlen.
  assert (row ∈ current_sessions d (s_external_session_id row)) as Hin
    by (apply list_elem_of_filter; done).
  destruct (current_sessions d (s_external_session_id row)) as [|a [|b l]]; simpl in Hlen.
  - by apply elem_of_nil in Hin.
  - by apply list_elem_of_singleton in Hin as ->.
  - lia.
Qed.

(** Rewriting the row of one id: it may become current only where no
    other row of its external session is. *)
Lemma sql_update_session_spec (d : Database) (id : Z) (state history : json)
    (is_current : bool) (checkpoint_count : Z) :
  wf_sessions d → unique_current d →
  (is_current = true →
   ∀ r0 r, r0 ∈ rows (internal_sessions d) → r ∈ rows (internal_sessions d) →
           s_id r0 = id → s_id r ≠ id →
           s_external_session_id r = s_external_session_id r0 → s_is_current r = false) →
  let d' := sql_update_session d id state history is_current checkpoint_count in
  wf_sessions d' ∧ unique_current d'
  ∧ (∀ r0, r0 ∈ rows (internal_sessions d) → s_id r0 = id →
       ∃ row, row ∈ rows (internal_sessions d') ∧ s_id row = id
              ∧ s_external_session_id row = s_external_session_id r0
              ∧ s_is_current row = is_current).
Proof.
  intros Hwf Huniq Hfresh d'. unfold d', sql_update_session.
  set (f := λ r : SessionRow,
         if bool_decide (s_id r = id)
         then mkSessionRow (s_id r) (s_external_session_id r) (s_agno_session_id r)
                state history (s_created_at r) is_current checkpoint_count
         else r).
  assert (Hid : ∀ r, s_id (f r) = s_id r) by (intros r; unfold f; by destruct (bool_decide _)).
  assert (Hext : ∀ r, s_external_session_id (f r) = s_external_session_id r)
    by (intros r; unfold f; by destruct (bool_decide _)).
  split; [by apply map_sessions_wf|]. split.
  - intros r1' r2' (r1 & -> & Hr1)%map_sessions_elem (r2 & -> & Hr2)%map_sessions_elem.
    rewrite !Hext, !Hid. unfold f.
    destruct (bool_decide_reflect (s_id r1 = id)) as [H1|H1];
      destruct (bool_decide_reflect (s_id r2 = id)) as [H2|H2]; simpl; intros He Hc1 Hc2.
    + congruence.
    + rewrite (Hfresh Hc1 r1 r2) in Hc2; done.
    + rewrite (Hfresh Hc2 r2 r1) in Hc1; done.
    + by apply Huniq.
  - intros r0 Hr0 Hid0. exists (f r0). split; [apply map_sessions_elem; eauto|].
    rewrite Hid, Hext. split; [done|]. split; [done|].
    unfold f. by rewrite bool_decide_eq_true_2.
Qed.

(** [update] keeps the invariant when the object it is given agrees with
    the store on the external session of its row; an update that marks
    an existing session current leaves it the only current one. *)
Lemma update_spec (session : InternalSession.t) (m : Machine) :
  wf_sessions (db m) → unique_current (db m) →
  agrees_with_store (db m) session →
  let out := InternalSessionRepository.update session m in
  wf_sessions (db out.2) ∧ unique_current (db out.2)
  ∧ (out.1 = Returned true → InternalSession.is_current session = true →
     ∃ row, Some (s_id row) = InternalSession.id session
       ∧ current_sessions (db out.2) (InternalSession.external_session_id session) = [row]).
Proof.
  intros Hwf Huniq Hagree. destruct m as [h d c t]. simpl in *.
  unfold InternalSessionRepository.update,
    InternalSessionRepository._mark_all_not_current.
  destruct (truthy_id (InternalSession.id session)) as [id|] eqn:Hid;
    [|simpl; split; [done|split; done]].
  apply truthy_id_Some in Hid as Hid'. destruct Hid' as [Hsid Hnz].
  set (ext := InternalSession.external_session_id session) in *.
  set (d0 := if InternalSession.is_current session
             then sql_mark_not_current d ext (Some id) else d).
  assert (Hd0 : wf_sessions d0 ∧ unique_current d0
            ∧ (InternalSession.is_current session = true →
               ∀ r, r ∈ rows (internal_sessions d0) →
                    s_external_session_id r = ext → s_is_current r = true → s_id r = id)
            ∧ (∀ r, r ∈ rows (internal_sessions d0) → s_id r = id →
                    s_external_session_id r = ext)
            ∧ (∀ r, r ∈ rows (internal_sessions d) → s_id r = id →
                    ∃ r0, r0 ∈ rows (internal_sessions d0) ∧ s_id r0 = id)).
  { unfold d0. destruct (InternalSession.is_current session).
    - destruct (sql_mark_not_current_spec d ext (Some id) Hwf Huniq)
        as (? & ? & Honly & Hfrom).
      split; [done|]. split; [done|]. split; [|split].
      + intros _ r Hr He Hc. specialize (Honly r Hr He Hc). congruence.
      + intros r Hr Hrid. destruct (Hfrom r Hr) as (r0 & Hr0 & Hi & He & _).
        rewrite <- He. apply Hagree; [done|]. congruence.
      + intros r Hr Hrid. exists (if bool_decide (s_external_session_id r = ext)
                                    && bool_decide (Some (s_id r) ≠ Some id)
                                  then set_is_current false r else r).
        split; [apply map_sessions_elem; eauto|]. by destruct (_ && _).
    - split; [done|]. split; [done|]. split; [done|]. split; [|eauto].
      intros r Hr Hrid. apply Hagree; [done|]. congruence. }
  destruct Hd0 as (Hwf0 & Huniq0 & Honly0 & Hext0 & Hrow0).
  assert (Hm0 : (if InternalSession.is_current session
                 then (d1 ← get_db; put_db (sql_mark_not_current d1 ext (Some id)))
                 else mret tt) (mkMachine h d c t) = (Returned tt, mkMachine h d0 c t)).
  { unfold d0. by destruct (InternalSession.is_current session). }
  cbv zeta. rewrite bind_run, Hm0.
  rewrite bind_run, py_dumps_run. simpl pyheap.
  destruct (json_dumps h (InternalSession.session_state session)) as [state|];
    [|simpl; split; [done|split; done]].
  rewrite bind_run, py_dumps_run. simpl pyheap.
  destruct (json_dumps h (InternalSession.conversation_history session)) as [history|];
    [|simpl; split; [done|split; done]].
  rewrite bind_run. unfold get_db. simpl db.
  rewrite bind_run. unfold put_db, mret, M_ret. simpl.
  destruct (sql_update_session_spec d0 id state history
              (InternalSession.is_current session)
              (InternalSession.checkpoint_count session) Hwf0 Huniq0)
    as (Hwf1 & Huniq1 & Hrow1).
  { intros Hc r0 r Hr0 Hr Hi Hne He.
    destruct (s_is_current r) eqn:Hcr; [|done]. exfalso. apply Hne.
    apply Honly0; try done. rewrite He. by apply Hext0. }
  split; [done|]. split; [done|].
  intros Hret Hc. injection Hret as Hret. apply bool_decide_eq_true in Hret.
  destruct Hret as [row0 Hsel]. apply select_session_Some in Hsel as [Hin0 Hi0].
  destruct (Hrow1 row0 Hin0 Hi0) as (row & Hin & Hi & He & Hcur).
  exists row. split; [congruence|].
  rewrite <- (Hext0 row0 Hin0 Hi0), <- He.
  apply current_sessions_singleton; try done. congruence.
Qed.

Lemma row_to_session_run (row : SessionRow) (m : Machine) :
  ∃ state history h',
    InternalSessionRepository._row_to_session row m =
    (Returned (InternalSession.mk (Some (s_id row)) (s_external_session_id row)
                 (s_agno_session_id row) state history (Some (s_created_at row))
                 (s_is_current row) (s_checkpoint_count row)),
     mkMachine h' (db m) (clock m) (track m)).
Proof.
  unfold InternalSessionRepository._row_to_session, py_loads, on_heap.
  rewrite bind_run. destruct (json_loads (s_state_data row) (pyheap m)) as [v1 h1].
  rewrite bind_run. simpl.
  destruct (json_loads (s_conversation_history row) h1) as [v2 h2]. simpl. eauto.
Qed.

Lemma session_get_by_id_run (session_id : Z) (m : Machine) :
  (select_session (db m) session_id = None
   ∧ InternalSessionRepository.get_by_id session_id m = (Returned None, m))
  ∨ (∃ row state history h',
       select_session (db m) session_id = Some row
       ∧ InternalSessionRepository.get_by_id session_id m =
         (Returned (Some (InternalSession.mk (Some (s_id row)) (s_external_session_id row)
                            (s_agno_session_id row) state history (Some (s_created_at row))
                            (s_is_current row) (s_checkpoint_count row))),
          mkMachine h' (db m) (clock m) (track m))).
Proof.
  unfold InternalSessionRepository.get_by_id. rewrite bind_run. unfold get_db.
  destruct (select_session (db m) session_id) as [row|]; [right|left; done].
  rewrite bind_run. destruct (row_to_session_run row m) as (state & history & h' & ->).
  exists row, state, history, h'. done.
Qed.

(** [set_current_session] keeps the invariant, and leaves the session it
    promotes the only current one of its external session. *)
Lemma set_current_session_spec (session_id : Z) (m : Machine) :
  wf_sessions (db m) → unique_current (db m) →
  let out := InternalSessionRepository.set_current_session session_id m in
  wf_sessions (db out.2) ∧ unique_current (db out.2)
  ∧ (out.1 = Returned true →
     ∃ row, s_id row = session_id
       ∧ current_sessions (db out.2) (s_external_session_id row) = [row]).
Proof.
  intros Hwf Huniq.
  unfold InternalSessionRepository.set_current_session,
    InternalSessionRepository._mark_all_not_current.
  cbv zeta. rewrite !bind_run.
  destruct (session_get_by_id_run session_id m)
    as [[Hsel ->]|(row0 & state & history & h' & Hsel & ->)];
    [simpl; split; [done|split; done]|].
  apply select_session_Some in Hsel as [Hin0 Hid0].
  simpl InternalSession.external_session_id.
  rewrite !bind_run. unfold get_db, put_db, mret, M_ret. simpl.
  set (ext := s_external_session_id row0).
  destruct (sql_mark_not_current_spec (db m) ext None Hwf Huniq)
    as (Hwf0 & Huniq0 & Hnone & Hfrom).
  set (d0 := sql_mark_not_current (db m) ext None) in *.
  set (f := λ r : SessionRow,
         if bool_decide (s_id r = session_id) then set_is_current true r else r).
  assert (Hid : ∀ r, s_id (f r) = s_id r) by (intros r; unfold f; by destruct (bool_decide _)).
  assert (Hext : ∀ r, s_external_session_id (f r) = s_external_session_id r)
    by (intros r; unfold f; by destruct (bool_decide _)).
  assert (Hrow_ext : ∀ r, r ∈ rows (internal_sessions d0) → s_id r = session_id →
            s_external_session_id r = ext).
  { intros r Hr Hrid. destruct (Hfrom r Hr) as (r1 & Hr1 & Hi & He & _).
    rewrite <- He. unfold ext. f_equal.
    eapply (NoDup_fmap_elem_inj s_id); [apply Hwf|done|done|congruence]. }
  change (sql_mark_current d0 session_id) with (map_sessions f d0).
  assert (Hwf1 : wf_sessions (map_sessions f d0)) by by apply map_sessions_wf.
  assert (Huniq1 : unique_current (map_sessions f d0)).
  { intros r1' r2' (r1 & -> & Hr1)%map_sessions_elem (r2 & -> & Hr2)%map_sessions_elem.
    rewrite !Hext, !Hid. unfold f.
    destruct (bool_decide_reflect (s_id r1 = session_id)) as [H1|H1];
      destruct (bool_decide_reflect (s_id r2 = session_id)) as [H2|H2]; simpl;
      intros He Hc1 Hc2.
    - congruence.
    - exfalso. assert (s_external_session_id r2 = ext) as He2
        by (rewrite <- He; by apply Hrow_ext).
      by specialize (Hnone r2 Hr2 He2 Hc2).
    - exfalso. assert (s_external_session_id r1 = ext) as He1
        by (rewrite He; by apply Hrow_ext).
      by specialize (Hnone r1 Hr1 He1 Hc1).
    - by apply Huniq0. }
  split; [done|]. split; [done|].
  intros Hret. injection Hret as Hret. apply bool_decide_eq_true in Hret.
  destruct Hret as [row1 Hsel]. apply select_session_Some in Hsel as [Hin1 Hid1].
  exists (f row1). rewrite Hid. split; [done|].
  apply current_sessions_singleton; try done.
  - apply map_sessions_elem. eauto.
  - unfold f. by rewrite bool_decide_eq_true_2.
Qed.

Lemma run_op_spec (o : op) (m : Machine) :
  wf_sessions (db m) → unique_current (db m) →
  match o with Update session => agrees_with_store (db m) session | _ => True end →
  wf_sessions (db (run_op o m)) ∧ unique_current (db (run_op o m)).
Proof.
  intros Hwf Huniq Hagree. destruct o as [session|session|session_id]; simpl.
  - destruct (create_spec session m Hwf Huniq) as (? & ? & _). done.
  - destruct (update_spec session m Hwf Huniq Hagree) as (? & ? & _). done.
  - destruct (set_current_session_spec session_id m Hwf Huniq) as (? & ? & _). done.
Qed.

Lemma run_ops_spec (ops : list op) (m : Machine) :
  wf_sessions (db m) → unique_current (db m) → updates_agree ops m →
  wf_sessions (db (run_ops ops m)) ∧ unique_current (db (run_ops ops m)).
Proof.
  revert m. induction ops as [|o ops IH]; intros m Hwf Huniq Hagree; [done|].
  destruct Hagree as [Ho Hrest]. simpl.
  destruct (run_op_spec o m Hwf Huniq Ho) as [Hwf1 Huniq1].
  by apply IH.
Qed.

(** X27: starting from a store in which no external session
    has two current sessions, every sequence of [create], [update] and
    [set_current_session] calls in which each [update] is given a session
    object whose [external_session_id] is that of the stored row with its
    id leaves at most one current session per external session; and
    after such a sequence, a [create] of a current session, a
    [set_current_session] that finds its session and an [update] that
    marks an existing session current each leave that session the only
    current one of its external session. *)
Theorem session_ops_keep_one_current (m : Machine) (ops : list op) :
  wf_sessions (db m) → at_most_one_current (db m) → updates_agree ops m →
  let m' := run_ops ops m in
  at_most_one_current (db m')
  ∧ (∀ session session',
       (InternalSessionRepository.create session m').1 = Returned session' →
       InternalSession.is_current session = true →
       ∃ id row, InternalSession.id session' = Some id ∧ s_id row = id
         ∧ current_sessions (db (InternalSessionRepository.create session m').2)
             (InternalSession.external_session_id session) = [row])
  ∧ (∀ session_id,
       (InternalSessionRepository.set_current_session session_id m').1 = Returned true →
       ∃ row, s_id row = session_id
         ∧ current_sessions
             (db (InternalSessionRepository.set_current_session session_id m').2)
             (s_external_session_id row) = [row])
  ∧ (∀ session,
       agrees_with_store (db m') session →
       (InternalSessionRepository.update session m').1 = Returned true →
       InternalSession.is_current session = true →
       ∃ row, Some (s_id row) = InternalSession.id session
         ∧ current_sessions (db (InternalSessionRepository.update session m').2)
             (InternalSession.external_session_id session) = [row]).
Proof.
  intros Hwf Hone Hagree m'.
  assert (Huniq : unique_current (db m)) by (apply at_most_one_current_iff; [apply Hwf|done]).
  destruct (run_ops_spec ops m Hwf Huniq Hagree) as [Hwf' Huniq']. fold m' in Hwf', Huniq'.
  split; [apply at_most_one_current_iff; [apply Hwf'|done]|]. split; [|split].
  - intros session session'. by apply create_spec.
  - intros session_id. by apply set_current_session_spec.
  - intros session Ha. by apply update_spec.
Qed.

End SessionFacts.

Section SessionScenarioFacts.
Import Py Store SessionOps SessionScenario.

Lemma machine0_wf : wf_sessions (db machine0) ∧ at_most_one_current (db machine0).
Proof.
  split; [split|].
  - apply NoDup_nil_2.
  - intros r Hr. by apply elem_of_nil in Hr.
  - intros ext. simpl. lia.
Qed.

Lemma good_run_agrees : updates_agree good_run machine0.
Proof.
  simpl. repeat split.
  intros row Hrow Hid. vm_compute in Hrow.
  repeat (apply elem_of_cons in Hrow as [->|Hrow]); try done.
  by apply elem_of_nil in Hrow.
Qed.

(** X27, witness: two sessions created in one external session, the first
    saved again by the agent that still holds it, then the second
    promoted. *)
Lemma session_ops_keep_one_current_witness :
  at_most_one_current (db (run_ops good_run machine0)).
Proof.
  exact (proj1 (session_ops_keep_one_current machine0 good_run
                  (proj1 machine0_wf) (proj2 machine0_wf) good_run_agrees)).
Defined.


(** The good run, evaluated: session 2 ends current, session 1 not. *)
Example good_run_result :
  (λ r, (s_id r, s_is_current r)) <$> rows (internal_sessions (db (run_ops good_run machine0)))
  = [(1%Z, false); (2%Z, true)].
Proof. vm_compute. done. Qed.

End SessionScenarioFacts.

(** ** Checkpoints made by the agent *)

Section SnapshotFacts.
Import Py Store.

Local Arguments Py.json_dumps : simpl never.
Local Arguments Py.json_loads : simpl never.

(** [from_internal_session] followed by [create]: when it returns, the
    table has one more row, with the next id, the session's id as owner,
    the clock reading as creation time and the two-member metadata. *)
Lemma snapshot_run (s : InternalSession.t) (name : option string) (is_auto : bool)
    (m m' : Machine) (cp : Checkpoint.t) :
  (checkpoint ← from_internal_session s name is_auto;
   CheckpointRepository.create checkpoint) m = (Returned cp, m') →
  ∃ sid state history,
    InternalSession.id s = Some sid
    ∧ db m' = with_checkpoints (db m)
                (mkTable (rows (checkpoints (db m))
                          ++ [mkCheckpointRow (seq (checkpoints (db m)) + 1) sid name
                                state history is_auto (clock m) (snapshot_metadata s)])
                   (seq (checkpoints (db m)) + 1))
    ∧ Checkpoint.id cp = Some (seq (checkpoints (db m)) + 1)%Z
    ∧ clock m' = clock m.
Proof.
  unfold from_internal_session, CheckpointRepository.create.
  rewrite ?bind_run, py_copy_run.
  destruct (copy (InternalSession.session_state s) (pyheap m)) as [[v1 h1]|]; [|done].
  rewrite ?bind_run, py_copy_run. simpl pyheap.
  destruct (copy (InternalSession.conversation_history s) h1) as [[v2 h2]|]; [|done].
  rewrite ?bind_run. unfold now at 1. simpl clock.
  rewrite ?bind_run, py_new_run. simpl pyheap. simpl db. simpl clock.
  unfold mret at 1, M_ret at 1. simpl Checkpoint.created_at.
  rewrite ?bind_run. unfold mret at 1, M_ret at 1.
  rewrite ?bind_run, py_dumps_run. simpl pyheap. simpl Checkpoint.session_state.
  destruct (json_dumps _ v1) as [state|]; [|done].
  rewrite ?bind_run, py_dumps_run. simpl pyheap. simpl Checkpoint.conversation_history.
  destruct (json_dumps _ v2) as [history|]; [|done].
  rewrite ?bind_run, py_dumps_run. simpl pyheap. simpl Checkpoint.metadata.
  rewrite json_dumps_new_dict2. simpl Checkpoint.internal_session_id.
  destruct (InternalSession.id s) as [sid|]; [|done].
  rewrite ?bind_run. unfold get_db at 1. simpl db. unfold insert.
  rewrite ?bind_run. unfold put_db, mret, M_ret. simpl.
  intros [= <- <-]. exists sid, state, history. done.
Qed.

Lemma bind_assoc_run {A B C : Type} (c : M A) (k : A → M B) (k' : B → M C) (m : Machine) :
  (a ← c; b ← k a; k' b) m = (b ← (a ← c; k a); k' b) m.
Proof. rewrite !bind_run. by destruct (c m) as [[a|e] m1]. Qed.

(** [update] writes the table of internal sessions only. *)
Lemma update_frame (session : InternalSession.t) (m : Machine) :
  let out := InternalSessionRepository.update session m in
  checkpoints (db out.2) = checkpoints (db m)
  ∧ external_sessions (db out.2) = external_sessions (db m)
  ∧ pyheap out.2 = pyheap m ∧ clock out.2 = clock m.
Proof.
  unfold InternalSessionRepository.update,
    InternalSessionRepository._mark_all_not_current.
  destruct (truthy_id (InternalSession.id session)) as [id|]; [|done].
  cbv zeta. rewrite bind_run.
  assert (Hm0 : ∃ d0, checkpoints d0 = checkpoints (db m)
                  ∧ external_sessions d0 = external_sessions (db m)
                  ∧ (if InternalSession.is_current session
                     then (d1 ← get_db;
                           put_db (sql_mark_not_current d1
                                     (InternalSession.external_session_id session)
                                     (Some id)))
                     else mret tt) m = (Returned tt, mkMachine (pyheap m) d0 (clock m) (track m))).
  { destruct (InternalSession.is_current session).
    - eexists. split; [|split; [|reflexivity]]; done.
    - exists (db m). destruct m. done. }
  destruct Hm0 as (d0 & Hc0 & He0 & ->).
  rewrite bind_run, py_dumps_run. simpl pyheap.
  destruct (json_dumps _ _) as [state|]; [|done].
  rewrite bind_run, py_dumps_run. simpl pyheap.
  destruct (json_dumps _ _) as [history|]; [|done].
  rewrite ?bind_run. unfold get_db, put_db, mret, M_ret. simpl. done.
Qed.

Lemma save_internal_session_frame (self : RollbackAgent.t) (m : Machine) :
  let out := RollbackAgent._save_internal_session self m in
  checkpoints (db out.2) = checkpoints (db m)
  ∧ external_sessions (db out.2) = external_sessions (db m)
  ∧ pyheap out.2 = pyheap m ∧ clock out.2 = clock m.
Proof.
  unfold RollbackAgent._save_internal_session, RollbackAgent.the_session.
  cbv zeta. destruct (RollbackAgent.internal_session_repo self); [|done].
  rewrite bind_run.
  destruct (RollbackAgent.internal_session self) as [s|]; [|done].
  rewrite ret_run.
  destruct (bool_decide _); [|repeat split; reflexivity].
  rewrite bind_run. pose proof (update_frame s m) as Hf. cbv zeta in Hf.
  destruct (InternalSessionRepository.update s m) as [[b|e] m1]; exact Hf.
Qed.

Lemma default_name_run (strftime : Z → string) (m : Machine) :
  RollbackAgent.default_name strftime m
  = (Returned (String.append "Checkpoint at " (strftime (clock m))), m).
Proof. done. Qed.

(** A checkpoint loaded from a row with the two-member metadata does not
    pass the guard ["tool_track_position" in checkpoint.metadata]. *)
Lemma snapshot_has_no_track_position (s : InternalSession.t) (row : CheckpointRow)
    (m : Machine) :
  cp_metadata row = snapshot_metadata s →
  json_member (cp_metadata row) "tool_track_position" = None
  ∧ ∃ m', (cp ← CheckpointRepository._row_to_checkpoint row;
           AgentService.tool_track_position (Some cp)) m = (Returned None, m').
Proof.
  intros Hmeta. split; [by rewrite Hmeta|].
  unfold CheckpointRepository._row_to_checkpoint.
  rewrite ?bind_run, py_loads_run.
  rewrite ?bind_run, py_loads_run. simpl pyheap.
  rewrite ?bind_run, py_loads_run. simpl pyheap.
  rewrite Hmeta. unfold snapshot_metadata.
  set (h2 := (json_loads (cp_conversation_history row) _).2).
  change (json_loads (JDict _) h2)
    with (alloc (PDict [("agno_session_id", PStr (InternalSession.agno_session_id s));
                        ("checkpoint_count",
                         PInt (InternalSession.checkpoint_count s + 1))]) h2).
  unfold alloc. simpl fst. simpl snd.
  rewrite ret_run. unfold AgentService.tool_track_position.
  rewrite bind_run. unfold get_heap. cbn [Checkpoint.metadata pyheap db clock].
  rewrite list_lookup_middle by done. rewrite ret_run. eauto.
Qed.

(** What the engine stores as metadata: a checkpoint created by
    [create_checkpoint_tool] or by [_create_auto_checkpoint] is one new
    row whose metadata holds exactly the two keys [agno_session_id] and
    [checkpoint_count] (the session's count plus one); it has no
    [tool_track_position], and such a checkpoint, loaded again, does not
    pass the guard ["tool_track_position" in checkpoint.metadata]. *)
Theorem created_checkpoint_metadata (strftime : Z → string) (self : RollbackAgent.t)
    (m : Machine) :
  (∀ name n id self' m',
     RollbackAgent.create_checkpoint_tool strftime self name m
     = (Returned (RollbackAgent.CheckpointCreated n id, self'), m') →
     ∃ s row,
       RollbackAgent.internal_session self = Some s
       ∧ rows (checkpoints (db m')) = rows (checkpoints (db m)) ++ [row]
       ∧ Some (cp_id row) = id ∧ cp_is_auto row = false
       ∧ cp_checkpoint_name row = Some n
       ∧ cp_metadata row = snapshot_metadata s
       ∧ json_member (cp_metadata row) "tool_track_position" = None)
  ∧ (∀ name self' m',
       RollbackAgent._create_auto_checkpoint self name m = (Returned self', m') →
       (self' = self ∧ m' = m)
       ∨ ∃ s row,
           RollbackAgent.internal_session self = Some s
           ∧ rows (checkpoints (db m')) = rows (checkpoints (db m)) ++ [row]
           ∧ cp_is_auto row = true
           ∧ cp_checkpoint_name row = Some name
           ∧ cp_metadata row = snapshot_metadata s
           ∧ json_member (cp_metadata row) "tool_track_position" = None)
  ∧ (∀ s row m2,
       cp_metadata row = snapshot_metadata s →
       ∃ m2', (cp ← CheckpointRepository._row_to_checkpoint row;
               AgentService.tool_track_position (Some cp)) m2 = (Returned None, m2')).
Proof.
  split; [|split].
  - intros name n id self' m'. unfold RollbackAgent.create_checkpoint_tool.
    rewrite bind_run.
    assert (Hname : ∃ n0, match name with
                          | Some n1 => if bool_decide (n1 = "")
                                       then RollbackAgent.default_name strftime
                                       else mret n1
                          | None => RollbackAgent.default_name strftime
                          end m = (Returned n0, m)).
    { destruct name as [n1|]; [destruct (bool_decide _)|]; eexists; reflexivity. }
    destruct Hname as [n0 ->].
    destruct (RollbackAgent.checkpoint_repo self); [|done].
    unfold RollbackAgent.the_session. rewrite bind_run.
    destruct (RollbackAgent.internal_session self) as [s|]; [|done].
    rewrite ret_run. destruct (bool_decide _); [|done].
    rewrite bind_assoc_run, bind_run.
    destruct ((checkpoint ← from_internal_session s (Some n0) false;
               CheckpointRepository.create checkpoint) m) as [[cp|e] m1] eqn:Hsnap; [|done].
    apply snapshot_run in Hsnap as (sid & state & history & Hsid & Hdb & Hid & Hclock).
    cbv zeta. rewrite bind_run.
    pose proof (save_internal_session_frame (RollbackAgent.bump_checkpoint_count self s) m1)
      as (Hcp & _). cbv zeta in Hcp.
    destruct (RollbackAgent._save_internal_session _ m1) as [[u|e] m2]; [|done].
    rewrite ret_run. intros [= <- <- <- <-]. simpl in Hcp.
    eexists s, _. split; [done|]. rewrite Hcp, Hdb. simpl.
    split; [reflexivity|]. rewrite Hid. done.
  - intros name self' m'. unfold RollbackAgent._create_auto_checkpoint.
    destruct (RollbackAgent.checkpoint_repo self);
      [|rewrite ret_run; intros [= <- <-]; by left].
    unfold RollbackAgent.the_session. rewrite bind_run.
    destruct (RollbackAgent.internal_session self) as [s|]; [|done].
    rewrite ret_run.
    destruct (bool_decide _); [|rewrite ret_run; intros [= <- <-]; by left].
    rewrite bind_run.
    pose proof (snapshot_run s (Some name) true m) as Hsnap.
    unfold mbind at 1 in Hsnap. unfold M_bind at 1 in Hsnap.
    destruct (from_internal_session s (Some name) true m) as [[checkpoint|e] m0]; [|done].
    rewrite bind_run.
    destruct (CheckpointRepository.create checkpoint m0) as [[cp|e] m1]; [|done].
    destruct (Hsnap m1 cp eq_refl) as (sid & state & history & Hsid & Hdb & Hid & Hclock).
    rewrite ret_run. intros [= <- <-]. right.
    eexists s, _. split; [done|]. rewrite Hdb. simpl. split; [reflexivity|]. done.
  - intros s row m2 Hmeta.
    by destruct (snapshot_has_no_track_position s row m2 Hmeta) as [_ ?].
Qed.

(** [rollback_to_checkpoint] to a stored checkpoint with that metadata
    never reaches the call of [rollback_tools_from_track_index]: the
    outcome is the same whatever that method is, with the
    [rollback_tools] flag set or not. *)
Lemma engine_checkpoint_reverses_no_tool
    (f g : RollbackAgent.t → pyval → M unit) (current_agent : option RollbackAgent.t)
    (external_session_id checkpoint_id : Z) (agno_session_id : string)
    (rollback_tools : bool) (s : InternalSession.t) (row : CheckpointRow) (m : Machine) :
  select_checkpoint (db m) checkpoint_id = Some row →
  cp_metadata row = snapshot_metadata s →
  AgentService.rollback_to_checkpoint f current_agent external_session_id checkpoint_id
    agno_session_id rollback_tools m
  = AgentService.rollback_to_checkpoint g current_agent external_session_id checkpoint_id
      agno_session_id rollback_tools m.
Proof.
  intros Hsel Hmeta. unfold AgentService.rollback_to_checkpoint.
  destruct current_agent as [agent|]; [|done].
  destruct rollback_tools; [|done].
  assert (Hguard : ∀ h : RollbackAgent.t → pyval → M unit,
            (checkpoint ← CheckpointRepository.get_by_id checkpoint_id;
             position ← AgentService.tool_track_position checkpoint;
             match position with
             | Some tool_track_position => h agent tool_track_position
             | None => mret tt
             end) m
            = (_ ← (cp ← CheckpointRepository._row_to_checkpoint row;
                    AgentService.tool_track_position (Some cp));
               mret tt) m).
  { intros h. unfold CheckpointRepository.get_by_id.
    destruct (snapshot_has_no_track_position s row m Hmeta) as [_ [m' Hnone]].
    rewrite !bind_run in *. unfold get_db at 1. rewrite Hsel, bind_run.
    destruct (CheckpointRepository._row_to_checkpoint row m) as [[cp|e] m1]; [|done].
    rewrite ret_run, bind_run, Hnone. done. }
  unfold AgentService.except_ValueError.
  rewrite (bind_run _ _ m), (Hguard f), <- (Hguard g), <- (bind_run _ _ m). done.
Qed.

End SnapshotFacts.

(** ** Loading checkpoints *)

Section LoadFacts.
Import Py Store.

Local Arguments Py.json_dumps : simpl never.
Local Arguments Py.json_loads : simpl never.

Lemma represents_app (h g : heap) (cp : Checkpoint.t) (row : CheckpointRow) :
  RollbackAgent.represents h cp row → RollbackAgent.represents (h ++ g) cp row.
Proof.
  intros (? & ? & ? & ? & ? & Hs & Hh & Hm).
  repeat split; try done; by apply json_dumps_app.
Qed.

Lemma row_to_checkpoint_run (row : CheckpointRow) (m : Machine) :
  ∃ cp g,
    CheckpointRepository._row_to_checkpoint row m
    = (Returned cp, mkMachine (pyheap m ++ g) (db m) (clock m) (track m))
    ∧ RollbackAgent.represents (pyheap m ++ g) cp row.
Proof.
  unfold CheckpointRepository._row_to_checkpoint.
  rewrite ?bind_run, py_loads_run.
  rewrite ?bind_run, py_loads_run. cbn [pyheap db clock track].
  rewrite ?bind_run, py_loads_run. cbn [pyheap db clock track].
  rewrite ret_run.
  pose proof (json_loads_dumps (cp_session_state row) (pyheap m)) as Hd1.
  destruct (json_loads_extends (cp_session_state row) (pyheap m)) as [g1 Hg1].
  set (h1 := (json_loads (cp_session_state row) (pyheap m)).2) in *.
  pose proof (json_loads_dumps (cp_conversation_history row) h1) as Hd2.
  destruct (json_loads_extends (cp_conversation_history row) h1) as [g2 Hg2].
  set (h2 := (json_loads (cp_conversation_history row) h1).2) in *.
  pose proof (json_loads_dumps (cp_metadata row) h2) as Hd3.
  destruct (json_loads_extends (cp_metadata row) h2) as [g3 Hg3].
  set (h3 := (json_loads (cp_metadata row) h2).2) in *.
  eexists _, (g1 ++ g2 ++ g3).
  assert (h3 = pyheap m ++ g1 ++ g2 ++ g3) as Hh3.
  { rewrite Hg3, Hg2, Hg1. by rewrite <- !app_assoc. }
  rewrite <- Hh3. split; [reflexivity|].
  repeat split; cbn; try done.
  - rewrite Hg3, Hg2. rewrite <- app_assoc. by apply json_dumps_app.
  - rewrite Hg3. by apply json_dumps_app.
Qed.

Lemma for_each_row_to_checkpoint (rs : list CheckpointRow) (m : Machine) :
  ∃ cps g,
    for_each CheckpointRepository._row_to_checkpoint rs m
    = (Returned cps, mkMachine (pyheap m ++ g) (db m) (clock m) (track m))
    ∧ Forall2 (RollbackAgent.represents (pyheap m ++ g)) cps rs.
Proof.
  revert m. induction rs as [|row rs IH]; intros m.
  - exists [], []. rewrite app_nil_r. simpl. rewrite ret_run. destruct m. split; [done|constructor].
  - simpl. rewrite bind_run.
    destruct (row_to_checkpoint_run row m) as (cp & g1 & -> & Hrep).
    rewrite bind_run.
    destruct (IH (mkMachine (pyheap m ++ g1) (db m) (clock m) (track m)))
      as (cps & g2 & -> & Hreps).
    cbn [pyheap db clock track] in *. rewrite ret_run.
    exists (cp :: cps), (g1 ++ g2). rewrite app_assoc. split; [done|].
    constructor; [by apply represents_app|done].
Qed.

Lemma checkpoint_get_by_id_run (checkpoint_id : Z) (m : Machine) :
  (select_checkpoint (db m) checkpoint_id = None
   ∧ CheckpointRepository.get_by_id checkpoint_id m = (Returned None, m))
  ∨ (∃ row cp g,
       select_checkpoint (db m) checkpoint_id = Some row
       ∧ CheckpointRepository.get_by_id checkpoint_id m
         = (Returned (Some cp), mkMachine (pyheap m ++ g) (db m) (clock m) (track m))
       ∧ RollbackAgent.represents (pyheap m ++ g) cp row).
Proof.
  unfold CheckpointRepository.get_by_id. rewrite bind_run. unfold get_db.
  destruct (select_checkpoint (db m) checkpoint_id) as [row|]; [right|left; done].
  rewrite bind_run. destruct (row_to_checkpoint_run row m) as (cp & g & -> & Hrep).
  rewrite ret_run. eauto 10.
Qed.

Lemma get_by_internal_session_run (sid : Z) (auto_only : bool) (m : Machine) :
  ∃ cps g,
    CheckpointRepository.get_by_internal_session sid auto_only m
    = (Returned cps, mkMachine (pyheap m ++ g) (db m) (clock m) (track m))
    ∧ Forall2 (RollbackAgent.represents (pyheap m ++ g)) cps
        (select_checkpoints_by_session (db m) sid auto_only).
Proof.
  unfold CheckpointRepository.get_by_internal_session. rewrite bind_run. unfold get_db.
  apply for_each_row_to_checkpoint.
Qed.

(** The loop over the loaded checkpoints picks the object of the first
    row whose name matches. *)
Lemma find_by_name_first_match (lower : string → string) (h : heap) (name : string)
    (cps : list Checkpoint.t) (rs : list CheckpointRow) :
  Forall2 (RollbackAgent.represents h) cps rs →
  match RollbackAgent.find_by_name lower (lower name) cps with
  | Some cp => ∃ row, RollbackAgent.first_match lower name rs = Some row
                      ∧ RollbackAgent.represents h cp row
  | None => RollbackAgent.first_match lower name rs = None
  end.
Proof.
  unfold RollbackAgent.first_match.
  induction 1 as [|cp row cps rs Hrep Hreps IH]; simpl; [done|].
  assert (Checkpoint.checkpoint_name cp = cp_checkpoint_name row) as Hn
    by (destruct Hrep as (_ & _ & ? & _); done).
  rewrite Hn.
  destruct (RollbackAgent.name_matches lower (lower name) (cp_checkpoint_name row)) eqn:Hm.
  - rewrite filter_cons_True by done. simpl. eauto.
  - rewrite filter_cons_False by (rewrite Hm; done). exact IH.
Qed.

End LoadFacts.

(** ** The rollback tool *)

Section ToolFacts.
Import Py Store.

Local Arguments Py.json_dumps : simpl never.
Local Arguments Py.json_loads : simpl never.

Lemma py_setitem_run (d : pyval) (k : string) (x : pyval) (m : Machine) :
  py_setitem d k x m =
  match setitem d k x (pyheap m) with
  | Some h' => (Returned tt, mkMachine h' (db m) (clock m) (track m))
  | None => (Raised "TypeError: object does not support item assignment", m)
  end.
Proof. unfold py_setitem, try_heap. by destruct (setitem d k x (pyheap m)). Qed.

Lemma setitem_Some (d : pyval) (k : string) (x : pyval) (h h' : heap) :
  setitem d k x h = Some h' →
  ∃ l kvs, d = PRef l ∧ h !! l = Some (PDict kvs) ∧ h' = <[l := PDict (dict_set kvs k x)]> h.
Proof.
  unfold setitem. destruct d as [| | | |l]; try done.
  destruct (h !! l) as [[xs|kvs]|] eqn:Hl; try done.
  intros [= <-]. eauto.
Qed.

(** The two assignments to the session state. *)
Lemma mark_request_run (d x : pyval) (r : RollbackAgent.reply) (m : Machine) :
  let c := (_ ← py_setitem d "rollback_requested" (PBool true);
            _ ← py_setitem d "rollback_checkpoint_id" x;
            mret r) in
  (∃ l kvs,
     d = PRef l ∧ pyheap m !! l = Some (PDict kvs)
     ∧ c m = (Returned r,
              mkMachine
                (<[l := PDict (dict_set (dict_set kvs "rollback_requested" (PBool true))
                                 "rollback_checkpoint_id" x)]> (pyheap m))
                (db m) (clock m) (track m)))
  ∨ (∃ e, c m = (Raised e, m)).
Proof.
  cbv zeta. rewrite bind_run, py_setitem_run.
  destruct (setitem d "rollback_requested" (PBool true) (pyheap m)) as [h1|] eqn:H1;
    [|right; eauto].
  apply setitem_Some in H1 as (l & kvs & -> & Hl & ->). left. exists l, kvs.
  split; [done|]. split; [done|].
  rewrite bind_run, py_setitem_run. cbn [pyheap db clock track].
  unfold setitem. rewrite list_lookup_insert_eq by (by eapply lookup_lt_Some).
  rewrite list_insert_insert_eq. rewrite ret_run. done.
Qed.

Lemma mark_request_ok (l : loc) (kvs : list (string * pyval)) (x : pyval)
    (r : RollbackAgent.reply) (m : Machine) :
  pyheap m !! l = Some (PDict kvs) →
  (_ ← py_setitem (PRef l) "rollback_requested" (PBool true);
   _ ← py_setitem (PRef l) "rollback_checkpoint_id" x;
   mret r) m
  = (Returned r,
     mkMachine
       (<[l := PDict (dict_set (dict_set kvs "rollback_requested" (PBool true))
                        "rollback_checkpoint_id" x)]> (pyheap m))
       (db m) (clock m) (track m)).
Proof.
  intros Hl.
  destruct (mark_request_run (PRef l) x r m) as [(l' & kvs' & [= <-] & Hl' & ->)|[e He]].
  - rewrite Hl in Hl'. by injection Hl' as <-.
  - exfalso. revert He. rewrite bind_run, py_setitem_run. unfold setitem. rewrite Hl.
    rewrite bind_run, py_setitem_run. cbn [pyheap db clock track]. unfold setitem.
    rewrite list_lookup_insert_eq by (by eapply lookup_lt_Some). by rewrite ret_run.
Qed.

Lemma dict_get_set_eq {A : Type} (kvs : list (string * A)) (k : string) (x : A) :
  dict_get (dict_set kvs k x) k = Some x.
Proof.
  induction kvs as [|[k' x'] kvs IH]; simpl.
  - by rewrite bool_decide_eq_true_2.
  - destruct (bool_decide_reflect (k' = k)) as [->|Hne]; simpl.
    + by rewrite bool_decide_eq_true_2.
    + by rewrite bool_decide_eq_false_2.
Qed.

Lemma dict_get_set_ne {A : Type} (kvs : list (string * A)) (k k0 : string) (x : A) :
  k ≠ k0 → dict_get (dict_set kvs k x) k0 = dict_get kvs k0.
Proof.
  intros Hne. induction kvs as [|[k' x'] kvs IH]; simpl.
  - by rewrite bool_decide_eq_false_2.
  - destruct (bool_decide_reflect (k' = k)) as [->|Hne']; simpl.
    + by rewrite !bool_decide_eq_false_2.
    + destruct (bool_decide (k' = k0)); done.
Qed.

(** Looking a checkpoint up by name reads the database and adds objects
    to the heap; what it returns stands for the first matching row of the
    newest-first listing of the session. *)
Lemma lookup_by_name_run (lower : string → string) (self : RollbackAgent.t)
    (name : string) (m : Machine) :
  ∃ r g,
    RollbackAgent.lookup_by_name lower self name m
    = (Returned r, mkMachine (pyheap m ++ g) (db m) (clock m) (track m))
    ∧ match RollbackAgent.internal_session self with
      | Some s =>
          match truthy_id (InternalSession.id s) with
          | Some sid =>
              match r with
              | Some cp =>
                  ∃ row, RollbackAgent.first_match lower name
                           (select_checkpoints_by_session (db m) sid false) = Some row
                         ∧ RollbackAgent.represents (pyheap m ++ g) cp row
              | None =>
                  RollbackAgent.first_match lower name
                    (select_checkpoints_by_session (db m) sid false) = None
              end
          | None => r = None
          end
      | None => r = None
      end.
Proof.
  unfold RollbackAgent.lookup_by_name.
  destruct (RollbackAgent.internal_session self) as [s|];
    [|exists None, []; rewrite app_nil_r, ret_run; by destruct m].
  destruct (truthy_id (InternalSession.id s)) as [sid|];
    [|exists None, []; rewrite app_nil_r, ret_run; by destruct m].
  rewrite bind_run.
  destruct (get_by_internal_session_run sid false m) as (cps & g & -> & Hreps).
  cbv zeta. rewrite ret_run. eexists _, g. split; [done|].
  by apply find_by_name_first_match.
Qed.

(** Whichever way the tool looks the checkpoint up, the lookup only adds
    objects to the heap, and a checkpoint it finds stands for a row. *)
Lemma tool_lookup_run (py_int : string → option Z) (lower : string → string)
    (self : RollbackAgent.t) (checkpoint_id_or_name : Z + string) (m : Machine) :
  ∃ r g,
    match checkpoint_id_or_name with
    | inl checkpoint_id => CheckpointRepository.get_by_id checkpoint_id
    | inr s =>
        match py_int s with
        | Some checkpoint_id => CheckpointRepository.get_by_id checkpoint_id
        | None => RollbackAgent.lookup_by_name lower self s
        end
    end m = (Returned r, mkMachine (pyheap m ++ g) (db m) (clock m) (track m))
    ∧ ∀ cp, r = Some cp → ∃ row, RollbackAgent.represents (pyheap m ++ g) cp row.
Proof.
  assert (Hid : ∀ checkpoint_id, ∃ r g,
            CheckpointRepository.get_by_id checkpoint_id m
            = (Returned r, mkMachine (pyheap m ++ g) (db m) (clock m) (track m))
            ∧ ∀ cp, r = Some cp → ∃ row, RollbackAgent.represents (pyheap m ++ g) cp row).
  { intros checkpoint_id.
    destruct (checkpoint_get_by_id_run checkpoint_id m)
      as [[_ ->]|(row & cp & g & _ & -> & Hrep)].
    - exists None, []. rewrite app_nil_r. destruct m. done.
    - exists (Some cp), g. split; [done|]. intros ? [= <-]. eauto. }
  destruct checkpoint_id_or_name as [checkpoint_id|s]; [apply Hid|].
  destruct (py_int s) as [checkpoint_id|]; [apply Hid|].
  destruct (lookup_by_name_run lower self s m) as (r & g & -> & Hr).
  exists r, g. split; [done|]. intros cp ->.
  destruct (RollbackAgent.internal_session self) as [s0|]; [|done].
  destruct (truthy_id (InternalSession.id s0)) as [sid|]; [|done].
  destruct Hr as (row & _ & Hrep). eauto.
Qed.

(** C8: a call of [rollback_to_checkpoint_tool] that answers "rollback
    requested" leaves the database (checkpoints, internal sessions with
    their [is_current] flags, external sessions with their current
    pointer), the clock and the tool track as they were; in the heap it
    adds the objects of the lookup and rewrites one object, the dict of the
    session state, in which it sets [rollback_requested] to [True] and
    [rollback_checkpoint_id] to the id and keeps every other key; every
    other object, among them every list (the conversation history), is
    untouched. *)
Theorem rollback_tool_only_sets_flags (py_int : string → option Z)
    (lower : string → string) (self : RollbackAgent.t)
    (checkpoint_id_or_name : Z + string) (m m' : Machine)
    (id : option Z) (name : option string) :
  RollbackAgent.rollback_to_checkpoint_tool py_int lower self checkpoint_id_or_name m
  = (Returned (RollbackAgent.RollbackRequested id name), m') →
  db m' = db m ∧ clock m' = clock m ∧ track m' = track m
  ∧ ∃ l kvs g cid,
      RollbackAgent.session_state self = PRef l
      ∧ id = Some cid
      ∧ (pyheap m ++ g) !! l = Some (PDict kvs)
      ∧ let kvs' := dict_set (dict_set kvs "rollback_requested" (PBool true))
                      "rollback_checkpoint_id" (PInt cid) in
        pyheap m' = <[l := PDict kvs']> (pyheap m ++ g)
        ∧ dict_get kvs' "rollback_requested" = Some (PBool true)
        ∧ dict_get kvs' "rollback_checkpoint_id" = Some (PInt cid)
        ∧ (∀ k, k ≠ "rollback_requested" → k ≠ "rollback_checkpoint_id" →
                dict_get kvs' k = dict_get kvs k)
        ∧ (∀ l', l' ≠ l → (l' < length (pyheap m))%nat →
                 pyheap m' !! l' = pyheap m !! l')
        ∧ (∀ lh xs, pyheap m !! lh = Some (PList xs) →
                    pyheap m' !! lh = Some (PList xs)).
Proof.
  unfold RollbackAgent.rollback_to_checkpoint_tool.
  destruct (negb (RollbackAgent.checkpoint_repo self)); [done|].
  rewrite bind_run.
  destruct (tool_lookup_run py_int lower self checkpoint_id_or_name m)
    as (r & g & -> & Hr).
  destruct r as [cp|]; [|done].
  destruct (Hr cp eq_refl) as (row & Hid & _).
  destruct (mark_request_run (RollbackAgent.session_state self)
              (from_option PInt PNone (Checkpoint.id cp))
              (RollbackAgent.RollbackRequested (Checkpoint.id cp)
                 (Checkpoint.checkpoint_name cp))
              (mkMachine (pyheap m ++ g) (db m) (clock m) (track m)))
    as [(l & kvs & Hl & Hkvs & ->)|[e ->]]; [|done].
  intros [= <- <- <-]. cbn [pyheap db clock track] in *.
  split; [done|]. split; [done|]. split; [done|].
  exists l, kvs, g, (cp_id row). rewrite Hid. cbn [from_option].
  split; [done|]. split; [done|]. split; [done|]. cbv zeta.
  split; [done|]. split; [|split; [|split; [|split]]].
  - rewrite dict_get_set_ne by done. apply dict_get_set_eq.
  - apply dict_get_set_eq.
  - intros k H1 H2. by rewrite !dict_get_set_ne.
  - intros l' Hne Hlt. rewrite list_lookup_insert_ne by done. by apply lookup_app_l.
  - intros lh xs Hlh. rewrite list_lookup_insert_ne.
    + by apply lookup_app_l_Some.
    + intros <-. rewrite (lookup_app_l_Some _ _ _ _ Hlh) in Hkvs. done.
Qed.

Lemma name_matches_spec (lower : string → string) (name : string)
    (checkpoint_name : option string) :
  RollbackAgent.name_matches lower (lower name) checkpoint_name = true ↔
  ∃ n, checkpoint_name = Some n ∧ n ≠ "" ∧ lower n = lower name.
Proof.
  unfold RollbackAgent.name_matches. destruct checkpoint_name as [n|].
  - rewrite andb_true_iff, !bool_decide_eq_true. split.
    + intros [? ?]. eauto.
    + intros (? & [= <-] & ? & ?). done.
  - split; [done|]. by intros (? & ? & _).
Qed.

(** C7 (as amended): for a name that [int] rejects, the tool searches
    every checkpoint of the current internal session, automatic and
    manual, in newest-first order (equal creation times in rowid order);
    a checkpoint matches when its whole name, in lower case, equals the
    name asked for in lower case; the first match of the listing is the
    checkpoint selected, and without a match the answer is "not found".
    [lower] stands for [str.lower]: the statement holds whatever that
    function does to a string. *)
Theorem lookup_by_name_first_exact_match (py_int : string → option Z)
    (lower : string → string) (self : RollbackAgent.t) (s : InternalSession.t)
    (sid : Z) (name : string) (m : Machine) :
  py_int name = None →
  RollbackAgent.checkpoint_repo self = true →
  RollbackAgent.internal_session self = Some s →
  truthy_id (InternalSession.id s) = Some sid →
  let listing := select_checkpoints_by_session (db m) sid false in
  let out := RollbackAgent.rollback_to_checkpoint_tool py_int lower self (inr name) m in
  (∀ row, row ∈ listing ↔
          row ∈ rows (checkpoints (db m)) ∧ cp_internal_session_id row = sid)
  ∧ StronglySorted (λ a b, (cp_created_at b ≤ cp_created_at a)%Z) listing
  ∧ (∀ ts, filter (λ r, cp_created_at r = ts) listing
           = filter (λ r, cp_created_at r = ts)
               (filter (λ r, cp_internal_session_id r = sid) (rows (checkpoints (db m)))))
  ∧ (∀ row, RollbackAgent.name_matches lower (lower name) (cp_checkpoint_name row) = true ↔
            ∃ n, cp_checkpoint_name row = Some n ∧ n ≠ "" ∧ lower n = lower name)
  ∧ match RollbackAgent.first_match lower name listing with
    | None => out.1 = Returned RollbackAgent.CheckpointNotFound
    | Some row =>
        (∃ newer older,
           listing = newer ++ row :: older
           ∧ RollbackAgent.name_matches lower (lower name) (cp_checkpoint_name row) = true
           ∧ ∀ r, r ∈ newer →
                  RollbackAgent.name_matches lower (lower name) (cp_checkpoint_name r)
                  = false)
        ∧ (∀ l kvs,
             RollbackAgent.session_state self = PRef l →
             pyheap m !! l = Some (PDict kvs) →
             out.1 = Returned (RollbackAgent.RollbackRequested (Some (cp_id row))
                                 (cp_checkpoint_name row)))
    end.
Proof.
  intros Hint Hrepo Hs Hsid listing out.
  split; [|split; [|split; [|split]]].
  - intros row. unfold listing. rewrite select_checkpoints_by_session_elem. split.
    + intros (? & ? & _). done.
    + intros [? ?]. done.
  - apply newest_first_sorted.
  - intros ts. unfold listing, select_checkpoints_by_session.
    rewrite newest_first_stable. f_equal. apply list_filter_iff. intros r. split.
    + by intros [? _].
    + intros ?. done.
  - intros row. apply name_matches_spec.
  - unfold out, RollbackAgent.rollback_to_checkpoint_tool.
    rewrite Hrepo, Hint. cbn [negb]. rewrite bind_run.
    destruct (lookup_by_name_run lower self name m) as (r & g & -> & Hr).
    rewrite Hs, Hsid in Hr. fold listing in Hr.
    destruct r as [cp|].
    + destruct Hr as (row & Hfm & Hrep). rewrite Hfm. split.
      * unfold RollbackAgent.first_match in Hfm.
        apply head_filter_Some in Hfm as (newer & older & Hl & Hm & Hnewer).
        exists newer, older. split; [done|]. split; [done|].
        intros r Hin. apply not_true_is_false. by apply Hnewer.
      * intros l kvs Hst Hl. rewrite Hst.
        rewrite (mark_request_ok l kvs); [|cbn [pyheap]; by apply lookup_app_l_Some].
        destruct Hrep as (-> & _ & -> & _). done.
    + rewrite Hr. by rewrite ret_run.
Qed.

End ToolFacts.

(** ** The conversation with two checkpoints *)

Section LookupScenarioFacts.
Import Py Store LookupScenario.

(** The rollback tool of the scenario's agent, asked for a checkpoint. *)
Local Abbreviation ask x :=
  (RollbackAgent.rollback_to_checkpoint_tool AgentScenario.py_int AgentScenario.str_lower
     agent3 x machine3).

(** C3, the code at the failing input: the manual checkpoint made by
    [create_checkpoint_tool] and the automatic one made by
    [_create_auto_checkpoint] are stored with the two metadata keys
    [agno_session_id] and [checkpoint_count]; neither has
    [tool_track_position].  A rollback of the service to the first of
    them, with [rollback_tools] set and a current agent, returns the new
    agent without ever calling [rollback_tools_from_track_index]: the
    outcome is that of a run in which the method raises when called. *)
Lemma created_checkpoints_lack_track_position :
  cp_is_auto <$> rows (checkpoints (db machine3)) = [false; true]
  ∧ cp_metadata <$> rows (checkpoints (db machine3))
    = [JDict [("agno_session_id", JStr "agno_a"); ("checkpoint_count", JInt 1)];
       JDict [("agno_session_id", JStr "agno_a"); ("checkpoint_count", JInt 2)]]
  ∧ (λ row, json_member (cp_metadata row) "tool_track_position")
      <$> rows (checkpoints (db machine3)) = [None; None]
  ∧ (∀ rollback_tools_from_track_index,
       AgentService.rollback_to_checkpoint rollback_tools_from_track_index (Some agent3)
         1 1 "agno_b" true machine3
       = AgentService.rollback_to_checkpoint (λ _ _, raise "RuntimeError: tools reversed")
           (Some agent3) 1 1 "agno_b" true machine3)
  ∧ match (AgentService.rollback_to_checkpoint
             (λ _ _, raise "RuntimeError: tools reversed") (Some agent3) 1 1 "agno_b" true
             machine3).1 with
    | Returned (Some new_agent) => RollbackAgent.agno_session_id new_agent = "agno_b"
    | _ => False
    end.
Proof.
  split; [vm_compute; reflexivity|]. split; [vm_compute; reflexivity|].
  split; [vm_compute; reflexivity|]. split.
  - intros f.
    apply (engine_checkpoint_reverses_no_tool _ _ _ _ _ _ _
             (InternalSession.mk (Some 1%Z) 1 "agno_a" PNone PNone None true 0)
             (mkCheckpointRow 1 1 (Some "Before Phase 2") (JDict [("counter", JInt 0)])
                (JList []) false 110
                (JDict [("agno_session_id", JStr "agno_a");
                        ("checkpoint_count", JInt 1)])));
      vm_compute; reflexivity.
  - vm_compute. reflexivity.
Qed.

(** C7, counterexample: "phase" is part of the name of the manual
    checkpoint "Before Phase 2", and the tool answers "not found" where
    a substring match finds it; "after create_file" names an automatic
    checkpoint, and the tool selects it where a lookup among the manual
    checkpoints finds nothing.  The names are ASCII strings, on which
    [str.lower] is [AgentScenario.str_lower]. *)
Lemma name_lookup_is_not_substring_on_manual :
  (ask (inr "phase")).1 = Returned RollbackAgent.CheckpointNotFound
  ∧ cp_id <$> RollbackAgent.spec_lookup_by_name AgentScenario.str_lower (db machine3) 1
                "phase"
    = Some 1%Z
  ∧ (ask (inr "after create_file")).1
    = Returned (RollbackAgent.RollbackRequested (Some 2%Z) (Some "After create_file"))
  ∧ cp_is_auto <$> select_checkpoint (db machine3) 2 = Some true
  ∧ RollbackAgent.spec_lookup_by_name AgentScenario.str_lower (db machine3) 1
      "after create_file"
    = None.
Proof. vm_compute. done. Qed.

(** C7, witness: the manual checkpoint found by its whole name, in
    another case. *)
Lemma lookup_by_name_first_exact_match_witness :
  (ask (inr "before PHASE 2")).1
  = Returned (RollbackAgent.RollbackRequested (Some 1%Z) (Some "Before Phase 2")).
Proof.
  pose proof (lookup_by_name_first_exact_match AgentScenario.py_int
                AgentScenario.str_lower agent3
                (InternalSession.mk (Some 1%Z) 1 "agno_a" (PRef 0%nat) (PRef 2%nat)
                   (Some 100%Z) true 2)
                1 "before PHASE 2" machine3 eq_refl eq_refl eq_refl eq_refl) as H.
  cbv zeta in H. destruct H as (_ & _ & _ & _ & H).
  replace (RollbackAgent.first_match AgentScenario.str_lower "before PHASE 2"
             (select_checkpoints_by_session (db machine3) 1 false))
    with (Some (mkCheckpointRow 1 1 (Some "Before Phase 2") (JDict [("counter", JInt 0)])
                  (JList []) false 110
                  (JDict [("agno_session_id", JStr "agno_a"); ("checkpoint_count", JInt 1)])))
    in H by (vm_compute; reflexivity).
  destruct H as [_ H].
  exact (H 0%nat [("counter", PInt 0)] eq_refl eq_refl).
Defined.

(** C8, witness: the call that selects the automatic checkpoint. *)
Lemma rollback_tool_only_sets_flags_witness :
  let m' := (ask (inr "after create_file")).2 in
  db m' = db machine3 ∧ clock m' = clock machine3 ∧ track m' = track machine3.
Proof.
  cbv zeta.
  destruct (rollback_tool_only_sets_flags AgentScenario.py_int AgentScenario.str_lower
              agent3 (inr "after create_file") machine3
              (ask (inr "after create_file")).2
              (Some 2%Z) (Some "After create_file")) as (H1 & H2 & H3 & _).
  - vm_compute. reflexivity.
  - auto.
Defined.

(** The heap after that call: the session-state dict has the two flags
    and keeps its other key. *)
Example rollback_request_heap :
  (ask (inr "after create_file")).2.(pyheap) !! 0%nat
  = Some (PDict [("counter", PInt 0); ("rollback_requested", PBool true);
                 ("rollback_checkpoint_id", PInt 2)]).
Proof. vm_compute. done. Qed.

End LookupScenarioFacts.

(** ** The fork on rollback *)

Section ForkFacts.
Import Py Store.

Local Arguments Py.json_dumps : simpl never.
Local Arguments Py.json_loads : simpl never.

Local Abbreviation grow m g := (mkMachine (pyheap m ++ g) (db m) (clock m) (track m)).

Lemma grow_nil (m : Machine) : grow m [] = m.
Proof. rewrite app_nil_r. by destruct m. Qed.

(** [x.copy()] on a value that reads as a list or an object returns a
    new object that reads the same. *)
Lemma py_copy_total (v : pyval) (j : json) (m : Machine) :
  json_dumps (pyheap m) v = Some j → is_container j = true →
  ∃ v' o, py_copy v m = (Returned v', grow m [o])
          ∧ json_dumps (pyheap m ++ [o]) v' = Some j.
Proof.
  intros Hj Hc. rewrite py_copy_run.
  destruct v as [| | | |l];
    try (unfold json_dumps in Hj; simpl in Hj; injection Hj as <-; done).
  pose proof Hj as Hj'. unfold json_dumps in Hj'. rewrite dumps_fuel_ref in Hj'.
  destruct (pyheap m !! l) as [o|] eqn:Hl; [|done].
  assert (Hcopy : copy (PRef l) (pyheap m) = Some (PRef (length (pyheap m)), pyheap m ++ [o])).
  { unfold copy. rewrite Hl. done. }
  rewrite Hcopy. exists (PRef (length (pyheap m))), o. split; [done|].
  by destruct (copy_dumps _ _ _ _ _ Hcopy Hj).
Qed.

(** Copying one checkpoint for the new session: the copy is the row
    under the next id and the new owner. *)
Lemma copy_checkpoint_run (new_session_id : Z) (cp : Checkpoint.t) (row : CheckpointRow)
    (m : Machine) :
  RollbackAgent.represents (pyheap m) cp row →
  RollbackAgent.copyable row = true →
  ∃ cp' g,
    RollbackAgent.copy_checkpoint new_session_id cp m
    = (Returned cp',
       mkMachine (pyheap m ++ g)
         (with_checkpoints (db m)
            (insert (λ id, RollbackAgent.retarget id new_session_id row)
               (checkpoints (db m))).2)
         (clock m) (track m)).
Proof.
  intros (Hid & Hsid & Hname & Hauto & Hts & Hs & Hh & Hm) Hc.
  unfold RollbackAgent.copyable in Hc.
  apply andb_prop in Hc as [Hc Hc3]. apply andb_prop in Hc as [Hc1 Hc2].
  unfold RollbackAgent.copy_checkpoint. rewrite bind_run.
  destruct (py_copy_total _ _ m Hs Hc1) as (v1 & o1 & -> & Hd1).
  rewrite bind_run.
  destruct (py_copy_total _ _ (grow m [o1]) (json_dumps_app _ [o1] _ _ Hh) Hc2)
    as (v2 & o2 & -> & Hd2).
  cbn [pyheap db clock track] in *. rewrite bind_run.
  destruct (py_copy_total _ _ (mkMachine ((pyheap m ++ [o1]) ++ [o2]) (db m) (clock m)
                                 (track m))
              (json_dumps_app _ [o2] _ _ (json_dumps_app _ [o1] _ _ Hm)) Hc3)
    as (v3 & o3 & -> & Hd3).
  cbn [pyheap db clock track] in *.
  unfold CheckpointRepository.create. cbn [Checkpoint.created_at Checkpoint.session_state
    Checkpoint.conversation_history Checkpoint.metadata Checkpoint.internal_session_id
    Checkpoint.checkpoint_name Checkpoint.is_auto].
  rewrite Hts, bind_run, ret_run.
  rewrite bind_run, py_dumps_run. cbn [pyheap db clock track].
  rewrite (json_dumps_app _ [o3] _ _ (json_dumps_app _ [o2] _ _ Hd1)).
  rewrite bind_run, py_dumps_run. cbn [pyheap db clock track].
  rewrite (json_dumps_app _ [o3] _ _ Hd2).
  rewrite bind_run, py_dumps_run. cbn [pyheap db clock track]. rewrite Hd3.
  rewrite bind_run. unfold get_db. cbn [pyheap db clock track].
  unfold insert. rewrite bind_run. unfold put_db. cbn [pyheap db clock track].
  rewrite ret_run. eexists _, ([o1] ++ [o2] ++ [o3]). rewrite !app_assoc.
  unfold RollbackAgent.retarget. rewrite Hname, Hauto. done.
Qed.

(** The loop over the checkpoints of the source session inserts a copy of
    each one created no later than the target, in the order of the
    listing. *)
Lemma copy_lineage_run (new_session_id : Z) (target : Checkpoint.t) (C : CheckpointRow)
    (cps : list Checkpoint.t) (rs : list CheckpointRow) (m : Machine) :
  Checkpoint.created_at target = Some (cp_created_at C) →
  Forall2 (RollbackAgent.represents (pyheap m)) cps rs →
  Forall (λ r, RollbackAgent.copyable r = true)
    (filter (λ r, (cp_created_at r ≤ cp_created_at C)%Z) rs) →
  ∃ g,
    RollbackAgent.copy_lineage new_session_id target cps m
    = (Returned tt,
       mkMachine (pyheap m ++ g)
         (with_checkpoints (db m)
            (RollbackAgent.insert_copies new_session_id
               (filter (λ r, (cp_created_at r ≤ cp_created_at C)%Z) rs)
               (checkpoints (db m))))
         (clock m) (track m)).
Proof.
  intros Htarget Hreps. revert m Hreps.
  induction rs as [|row rs IH] in cps |- *; intros m Hreps Hok.
  - apply Forall2_nil_inv_r in Hreps as ->. simpl. rewrite ret_run.
    exists []. rewrite app_nil_r. by destruct m as [h [cs ss es] c t].
  - apply Forall2_cons_inv_r in Hreps as (cp & cps' & Hrep & Hreps & ->).
    simpl. rewrite bind_run.
    assert (RollbackAgent.created_no_later cp target
            = bool_decide (cp_created_at row ≤ cp_created_at C)%Z) as ->.
    { unfold RollbackAgent.created_no_later. rewrite Htarget.
      destruct Hrep as (_ & _ & _ & _ & -> & _).
      destruct (Z.leb_spec (cp_created_at row) (cp_created_at C)).
      - by rewrite bool_decide_eq_true_2.
      - rewrite bool_decide_eq_false_2; [done|lia]. }
    destruct (bool_decide_reflect (cp_created_at row ≤ cp_created_at C)%Z) as [Hle|Hle].
    + rewrite filter_cons_True in Hok |- * by done.
      apply Forall_cons in Hok as [Hrow Hok].
      rewrite bind_run.
      destruct (copy_checkpoint_run new_session_id cp row m Hrep Hrow) as (cp' & g1 & ->).
      rewrite ret_run.
      edestruct (IH cps') as [g2 ->].
      * cbn [pyheap]. eapply Forall2_impl; [exact Hreps|].
        intros ? ? ?. by apply represents_app.
      * exact Hok.
      * exists (g1 ++ g2). cbn [pyheap db clock track]. rewrite app_assoc. done.
    + rewrite filter_cons_False in Hok |- * by done.
      rewrite ret_run. destruct (IH cps' m Hreps Hok) as [g ->]. by exists g.
Qed.

(** Demoting sessions leaves their [agno_session_id]s as they are. *)
Lemma sql_mark_not_current_agno (d : Database) (ext : Z) (exclude_id : option Z) :
  s_agno_session_id <$> rows (internal_sessions (sql_mark_not_current d ext exclude_id))
  = s_agno_session_id <$> rows (internal_sessions d).
Proof.
  unfold sql_mark_not_current, map_sessions. destruct d as [cs ss es]. simpl.
  rewrite <- list_fmap_compose. apply list_fmap_ext. intros i r _. simpl.
  by destruct (_ && _).
Qed.

(** [create] of a session whose containers can be serialised and whose
    [agno_session_id] is new: the row is appended under the next id. *)
Lemma session_create_run (session : InternalSession.t) (state history : json) (m : Machine) :
  json_dumps (pyheap m) (InternalSession.session_state session) = Some state →
  json_dumps (pyheap m) (InternalSession.conversation_history session) = Some history →
  InternalSession.agno_session_id session
    ∉ s_agno_session_id <$> rows (internal_sessions (db m)) →
  let d0 := if InternalSession.is_current session
            then sql_mark_not_current (db m) (InternalSession.external_session_id session)
                   None
            else db m in
  let ts := default (clock m) (InternalSession.created_at session) in
    InternalSessionRepository.create session m
    = (Returned (InternalSession.with_id (InternalSession.with_created_at session (Some ts))
                   (Some (seq (internal_sessions (db m)) + 1)%Z)),
       mkMachine (pyheap m)
         (with_internal_sessions d0
            (mkTable
               (rows (internal_sessions d0)
                ++ [mkSessionRow (seq (internal_sessions (db m)) + 1)
                      (InternalSession.external_session_id session)
                      (InternalSession.agno_session_id session) state history ts
                      (InternalSession.is_current session)
                      (InternalSession.checkpoint_count session)])
               (seq (internal_sessions (db m)) + 1)))
         (clock m) (track m)).
Proof.
  intros Hstate Hhistory Hnew d0 ts.
  unfold InternalSessionRepository.create,
    InternalSessionRepository._mark_all_not_current.
  rewrite bind_run.
  assert (Hts : match InternalSession.created_at session with
                | Some ts => mret ts
                | None => now
                end m = (Returned ts, m)).
  { unfold ts. by destruct (InternalSession.created_at session). }
  rewrite Hts.
  assert (Hseq : seq (internal_sessions d0) = seq (internal_sessions (db m))).
  { unfold d0. by destruct (InternalSession.is_current session). }
  assert (Hagno : s_agno_session_id <$> rows (internal_sessions d0)
                  = s_agno_session_id <$> rows (internal_sessions (db m))).
  { unfold d0. destruct (InternalSession.is_current session); [|done].
    apply sql_mark_not_current_agno. }
  assert (Hm0 : (if InternalSession.is_current session
                 then (d1 ← get_db;
                       put_db (sql_mark_not_current d1
                                 (InternalSession.external_session_id session)
                                 (truthy_id None)))
                 else mret tt) m
                = (Returned tt, mkMachine (pyheap m) d0 (clock m) (track m))).
  { unfold d0. destruct (InternalSession.is_current session); [done|].
    rewrite ret_run. by destruct m. }
  rewrite bind_run, Hm0.
  rewrite bind_run, py_dumps_run. cbn [pyheap db clock track]. rewrite Hstate.
  rewrite bind_run, py_dumps_run. cbn [pyheap db clock track]. rewrite Hhistory.
  rewrite bind_run. unfold get_db. cbn [pyheap db clock track].
  rewrite Hagno, bool_decide_eq_false_2 by done.
  unfold insert. rewrite bind_run. unfold put_db. cbn [pyheap db clock track].
  rewrite ret_run, Hseq. done.
Qed.

(** [update] of a session that has an id and whose containers can be
    serialised. *)
Lemma session_update_run (session : InternalSession.t) (id : Z) (state history : json)
    (m : Machine) :
  truthy_id (InternalSession.id session) = Some id →
  json_dumps (pyheap m) (InternalSession.session_state session) = Some state →
  json_dumps (pyheap m) (InternalSession.conversation_history session) = Some history →
  let d0 := if InternalSession.is_current session
            then sql_mark_not_current (db m) (InternalSession.external_session_id session)
                   (Some id)
            else db m in
  ∃ b,
    InternalSessionRepository.update session m
    = (Returned b,
       mkMachine (pyheap m)
         (sql_update_session d0 id state history (InternalSession.is_current session)
            (InternalSession.checkpoint_count session))
         (clock m) (track m)).
Proof.
  intros Hid Hstate Hhistory d0. unfold InternalSessionRepository.update,
    InternalSessionRepository._mark_all_not_current. rewrite Hid.
  assert (Hm0 : (if InternalSession.is_current session
                 then (d1 ← get_db;
                       put_db (sql_mark_not_current d1
                                 (InternalSession.external_session_id session)
                                 (Some id)))
                 else mret tt) m
                = (Returned tt, mkMachine (pyheap m) d0 (clock m) (track m))).
  { unfold d0. destruct (InternalSession.is_current session); [done|].
    rewrite ret_run. by destruct m. }
  rewrite bind_run, Hm0.
  rewrite bind_run, py_dumps_run. cbn [pyheap db clock track]. rewrite Hstate.
  rewrite bind_run, py_dumps_run. cbn [pyheap db clock track]. rewrite Hhistory.
  rewrite bind_run. unfold get_db. cbn [pyheap db clock track].
  rewrite bind_run. unfold put_db. cbn [pyheap db clock track]. rewrite ret_run.
  eexists. reflexivity.
Qed.

(** Registering the new session with its external session writes the
    table of external sessions only, and always returns. *)
Lemma register_with_external_session_run (self : RollbackAgent.t) (m : Machine) :
  ∃ d', RollbackAgent._register_with_external_session self m
        = (Returned tt, mkMachine (pyheap m) d' (clock m) (track m))
        ∧ checkpoints d' = checkpoints (db m)
        ∧ internal_sessions d' = internal_sessions (db m).
Proof.
  unfold RollbackAgent._register_with_external_session,
    ExternalSessionRepository.add_internal_session.
  rewrite !bind_run. unfold get_db.
  destruct (select_external_session (db m) _) as [es|].
  - rewrite bind_run. unfold now.
    destruct (bool_decide (es_id es = 0)).
    + rewrite ret_run, ret_run. exists (db m). by destruct m.
    + rewrite bind_run. unfold put_db. cbn [pyheap db clock track].
      rewrite ret_run, ret_run. eexists. split; [reflexivity|]. done.
  - rewrite !ret_run. exists (db m). by destruct m.
Qed.

Lemma insert_copies_spec (new_session_id : Z) (rs : list CheckpointRow)
    (t : Table CheckpointRow) :
  RollbackAgent.insert_copies new_session_id rs t
  = mkTable (rows t ++ RollbackAgent.copies (seq t + 1) new_session_id rs)
      (seq t + Z.of_nat (length rs)).
Proof.
  revert t. induction rs as [|r rs IH]; intros [rws sq]; simpl.
  - by rewrite app_nil_r, Z.add_0_r.
  - rewrite IH. simpl. unfold RollbackAgent.copies. rewrite imap_cons. simpl.
    rewrite <- app_assoc. simpl. f_equal; [|lia].
    f_equal. rewrite Z.add_0_r. f_equal. apply imap_ext. intros i x _. simpl.
    f_equal. lia.
Qed.

Lemma copies_owner (first_id new_session_id : Z) (rs : list CheckpointRow)
    (r : CheckpointRow) :
  r ∈ RollbackAgent.copies first_id new_session_id rs →
  cp_internal_session_id r = new_session_id.
Proof.
  unfold RollbackAgent.copies. intros Hr.
  apply list_elem_of_lookup in Hr as [i Hi]. rewrite list_lookup_imap in Hi.
  destruct (rs !! i); [|done]. simpl in Hi. by injection Hi as <-.
Qed.

(** A listing reads the table of checkpoints only. *)
Lemma select_checkpoints_by_session_frame (d d' : Database) (sid : Z) (auto_only : bool) :
  checkpoints d' = checkpoints d →
  select_checkpoints_by_session d' sid auto_only
  = select_checkpoints_by_session d sid auto_only.
Proof. unfold select_checkpoints_by_session. by intros ->. Qed.

(** Rows appended to the table do not hide a row that was found. *)
Lemma select_checkpoint_app (d d' : Database) (id : Z) (C : CheckpointRow)
    (new : list CheckpointRow) :
  rows (checkpoints d') = rows (checkpoints d) ++ new →
  select_checkpoint d id = Some C → select_checkpoint d' id = Some C.
Proof.
  unfold select_checkpoint. intros -> HC. rewrite filter_app.
  destruct (filter _ (rows (checkpoints d))); [done|]. done.
Qed.

Lemma lineage_elem (d : Database) (C r : CheckpointRow) :
  r ∈ RollbackAgent.lineage d C ↔
  r ∈ rows (checkpoints d)
  ∧ cp_internal_session_id r = cp_internal_session_id C
  ∧ (cp_created_at r ≤ cp_created_at C)%Z.
Proof.
  unfold RollbackAgent.lineage. rewrite list_elem_of_filter.
  rewrite select_checkpoints_by_session_elem. split.
  - intros (? & ? & ? & _). done.
  - intros (? & ? & ?). done.
Qed.

Lemma select_checkpoint_elem (d : Database) (id : Z) (C : CheckpointRow) :
  select_checkpoint d id = Some C → C ∈ rows (checkpoints d) ∧ cp_id C = id.
Proof.
  unfold select_checkpoint. intros H.
  apply head_filter_Some in H as (l1 & l2 & -> & ? & _). split; [|done].
  apply elem_of_app. right. left.
Qed.

Lemma json_dumps_new_list (h g : heap) :
  json_dumps (h ++ PList [] :: g) (PRef (length h)) = Some (JList []).
Proof.
  unfold json_dumps. rewrite dumps_fuel_ref, list_lookup_middle by done. done.
Qed.

Lemma json_dumps_new_dict (h g : heap) :
  json_dumps (h ++ PDict [] :: g) (PRef (length h)) = Some (JDict []).
Proof.
  unfold json_dumps. rewrite dumps_fuel_ref, list_lookup_middle by done. done.
Qed.

(** [v or {}] on a value that can be serialised is such a value. *)
Lemma py_or_new_dict_run (v : pyval) (j : json) (m : Machine) :
  json_dumps (pyheap m) v = Some j →
  ∃ v' g j',
    py_or_new v (PDict []) m = (Returned v', grow m g)
    ∧ json_dumps (pyheap m ++ g) v' = Some j'.
Proof.
  intros Hj. unfold py_or_new. destruct (truthy (pyheap m) v).
  - exists v, [], j. rewrite grow_nil, app_nil_r. done.
  - rewrite py_new_run. exists (PRef (length (pyheap m))), [PDict []], (JDict []).
    split; [done|]. apply json_dumps_new_dict.
Qed.

(** [_create_internal_session] of an agent with a repository, a state
    that can be serialised and a new [agno_session_id]: the sessions of
    the external session are demoted and the new session, current and
    with an empty history, takes the next id. *)
Lemma create_internal_session_run (self : RollbackAgent.t) (j : json) (m : Machine) :
  RollbackAgent.internal_session_repo self = true →
  json_dumps (pyheap m) (RollbackAgent.session_state self) = Some j →
  RollbackAgent.agno_session_id self
    ∉ s_agno_session_id <$> rows (internal_sessions (db m)) →
  let new_id := (seq (internal_sessions (db m)) + 1)%Z in
  let d0 := sql_mark_not_current (db m) (RollbackAgent.external_session_id self) None in
  ∃ state history g j',
    RollbackAgent._create_internal_session self m
    = (Returned (InternalSession.mk (Some new_id) (RollbackAgent.external_session_id self)
                   (RollbackAgent.agno_session_id self) state history (Some (clock m))
                   true 0),
       mkMachine (pyheap m ++ g)
         (with_internal_sessions d0
            (mkTable
               (rows (internal_sessions d0)
                ++ [mkSessionRow new_id (RollbackAgent.external_session_id self)
                      (RollbackAgent.agno_session_id self) j' (JList []) (clock m) true 0])
               new_id))
         (clock m) (track m)).
Proof.
  intros Hrepo Hj Hnew new_id d0. unfold RollbackAgent._create_internal_session.
  destruct (py_or_new_dict_run _ _ m Hj) as (st & g & j' & Hor & Hj').
  rewrite bind_run, Hor. rewrite bind_run. unfold now. cbn [pyheap db clock track].
  rewrite bind_run, py_new_run. cbn [pyheap db clock track]. rewrite Hrepo.
  rewrite (session_create_run _ j' (JList [])); cbn [pyheap db clock track
    InternalSession.session_state InternalSession.conversation_history
    InternalSession.agno_session_id InternalSession.is_current
    InternalSession.external_session_id InternalSession.created_at
    InternalSession.checkpoint_count].
  - exists st, (PRef (length (pyheap m ++ g))), (g ++ [PList []]), j'.
    rewrite app_assoc. done.
  - by apply json_dumps_app.
  - apply json_dumps_new_list.
  - done.
Qed.

(** [_save_internal_session] of an agent with a repository and a
    session that has an id. *)
Lemma save_internal_session_run (self : RollbackAgent.t) (s : InternalSession.t) (id : Z)
    (state history : json) (m : Machine) :
  RollbackAgent.internal_session self = Some s →
  RollbackAgent.internal_session_repo self = true →
  truthy_id (InternalSession.id s) = Some id →
  json_dumps (pyheap m) (InternalSession.session_state s) = Some state →
  json_dumps (pyheap m) (InternalSession.conversation_history s) = Some history →
  let d0 := if InternalSession.is_current s
            then sql_mark_not_current (db m) (InternalSession.external_session_id s)
                   (Some id)
            else db m in
  RollbackAgent._save_internal_session self m
  = (Returned tt,
     mkMachine (pyheap m)
       (sql_update_session d0 id state history (InternalSession.is_current s)
          (InternalSession.checkpoint_count s))
       (clock m) (track m)).
Proof.
  intros Hs Hrepo Hid Hstate Hhistory d0.
  unfold RollbackAgent._save_internal_session, RollbackAgent.the_session.
  rewrite Hrepo, Hs, bind_run, ret_run, Hid.
  rewrite bool_decide_eq_true_2 by done.
  destruct (session_update_run s id state history m Hid Hstate Hhistory) as [b Hb].
  rewrite bind_run, Hb, ret_run. done.
Qed.

Ltac heap_grows :=
  solve [repeat first [eassumption | apply json_dumps_app | apply represents_app]].


End ForkFacts.

(** ** The rollback of the scenario *)

Section ForkScenarioFacts.
Import Py Store ForkScenario.

Lemma fork_scenario_lineage : RollbackAgent.lineage (db machine4) target = [target].
Proof. vm_compute. reflexivity. Qed.

Lemma fork_scenario_counters :
  seq (checkpoints (db machine4)) = 2 ∧ seq (internal_sessions (db machine4)) = 1.
Proof. vm_compute. done. Qed.


(** The scenario, computed: the agent returned, its session and what
    the new session owns. *)
Example fork_scenario_result :
  RollbackAgent.internal_session fork.1
  = Some (InternalSession.mk (Some 2%Z) 1 "agno_b" (PRef 19%nat) (PRef 20%nat)
            (Some 140%Z) true 0)
  ∧ select_checkpoints_by_session (db fork.2) 2 false = [RollbackAgent.retarget 3 2 target]
  ∧ length (select_checkpoints_by_session (db fork.2) 1 false) = 2%nat
  ∧ s_is_current <$> rows (internal_sessions (db fork.2)) = [false; true].
Proof. vm_compute. done. Qed.

(** The copies are shallow.  After the rollback the list of files is one
    object, shared by the state of the new session and the state the
    agent was constructed with; an entry added through the one shows in
    the other.  The checkpoints are stored as text: the target and its
    copy for the new session read as before. *)
Example fork_scenario_nested_mutation :
  json_dumps (pyheap fork.2) (PRef 19%nat) = Some (JDict [("files", JList [JStr "a.txt"])])
  ∧ json_dumps (pyheap later) (PRef 19%nat)
    = Some (JDict [("files", JList [JStr "a.txt"; JStr "b.txt"])])
  ∧ json_dumps (pyheap later) (RollbackAgent.session_state fork.1)
    = Some (JDict [("files", JList [JStr "a.txt"; JStr "b.txt"])])
  ∧ db later = db fork.2
  ∧ select_checkpoint (db later) 1 = Some target
  ∧ reload_state 1 later = Some (JDict [("files", JList [JStr "a.txt"])])
  ∧ reload_state 3 later = Some (JDict [("files", JList [JStr "a.txt"])]).
Proof. vm_compute. done. Qed.

End ForkScenarioFacts.

(* ===================================================================== *)
(** * Part III: further properties of the code                            *)
(* ===================================================================== *)

(** ** The registry: redo, the adapter, and undo after a run of calls *)

Section RegistryMore.
Import Protocol Registry.
Context {Args Result World : Type}.

Local Abbreviation Spec := (ToolSpec Args Result World).
Local Abbreviation Rec := (ToolInvocationRecord Args Result).
Local Abbreviation Reg := (ToolRollbackRegistry Args Result World).

(** What a record made by [redo] or by the adapter looks like. *)
Local Abbreviation made_by_call m r :=
  (timestamp r = ToolInvocationRecord_timestamp_default m
   ∧ match result r with
     | Some _ => success r = true ∧ error_message r = None
     | None => success r = false ∧ is_Some (error_message r)
     end).

Lemma redo_loop_spec (m : module_state) (tools : gmap string Spec) (records : list Rec)
    (track new_records : list Rec) (w : World) :
  ∃ added w',
    redo_loop m tools records track new_records w
    = (track ++ added, new_records ++ added, w')
    ∧ (λ r, (tool_name r, args r)) <$> added
      = (λ r, (tool_name r, args r))
          <$> filter (λ r, is_Some (tools !! tool_name r)) records
    ∧ Forall (λ r, made_by_call m r) added
    ∧ records_of_calls m tools w added w'.
Proof.
  revert track new_records w.
  induction records as [|record rest IH]; intros track new_records w.
  - exists [], w. rewrite !app_nil_r. repeat split; [constructor|].
    exists []. repeat split. intros i r Hi. by rewrite lookup_nil in Hi.
  - simpl. destruct (tools !! tool_name record) as [spec|] eqn:Hspec.
    + rewrite filter_cons_True by (by rewrite Hspec).
      destruct (forward spec (args record) w) as [o w1] eqn:Hfwd.
      set (new_record :=
             match o with
             | Returned new_result =>
                 new_ToolInvocationRecord m (tool_name record) (args record)
                   (Some new_result) true None None
             | Raised e =>
                 new_ToolInvocationRecord m (tool_name record) (args record)
                   None false (Some e) None
             end).
      assert (Hstep : ∃ added w',
                match o with
                | Returned new_result =>
                    redo_loop m tools rest
                      (track ++ [new_ToolInvocationRecord m (tool_name record)
                                   (args record) (Some new_result) true None None])
                      (new_records ++ [new_ToolInvocationRecord m (tool_name record)
                                         (args record) (Some new_result) true None None])
                      w1
                | Raised e =>
                    redo_loop m tools rest
                      (track ++ [new_ToolInvocationRecord m (tool_name record)
                                   (args record) None false (Some e) None])
                      (new_records ++ [new_ToolInvocationRecord m (tool_name record)
                                         (args record) None false (Some e) None])
                      w1
                end = ((track ++ [new_record]) ++ added,
                       (new_records ++ [new_record]) ++ added, w')
                ∧ (λ r, (tool_name r, args r)) <$> added
                  = (λ r, (tool_name r, args r))
                      <$> filter (λ r, is_Some (tools !! tool_name r)) rest
                ∧ Forall (λ r, made_by_call m r) added
                ∧ records_of_calls m tools w1 added w').
      { unfold new_record. destruct o; apply IH. }
      destruct Hstep as (added & w' & Hrun & Hnames & Hmade & (ws & Hlen & Hlast & Hcalls)).
      exists (new_record :: added), w'.
      split; [by rewrite Hrun, <- !app_assoc|].
      split.
      { rewrite !fmap_cons, Hnames. f_equal. unfold new_record. by destruct o. }
      split.
      { constructor; [|done]. unfold new_record. destruct o; simpl; eauto. }
      exists (w1 :: ws). split; [by rewrite !length_cons, Hlen|].
      split; [by rewrite last_cons_cons|].
      intros [|i] r Hi.
      * injection Hi as <-. exists spec, w.
        assert (Hname : tool_name new_record = tool_name record)
          by (unfold new_record; by destruct o).
        assert (Hargs : args new_record = args record)
          by (unfold new_record; by destruct o).
        rewrite Hname, Hargs, Hfwd. cbn [fst snd lookup list_lookup].
        split; [done|]. split; [done|]. split; [done|].
        unfold new_record. by destruct o.
      * destruct (Hcalls i r Hi) as (spec' & w_before & H1 & H2 & H3 & H4).
        exists spec', w_before. split; [done|]. split; [exact H2|]. split; [exact H3|].
        exact H4.
    + rewrite filter_cons_False by (rewrite Hspec; by intros [? ?]).
      apply IH.
Qed.

Lemma redo_spec (m : module_state) (self : Reg) (w : World) :
  ∃ new_records w',
    redo m self w
    = (new_records, mkRegistry (_tools self) (_track self ++ new_records), w')
    ∧ (λ r, (tool_name r, args r)) <$> new_records
      = (λ r, (tool_name r, args r))
          <$> filter (λ r, is_Some (_tools self !! tool_name r)) (_track self)
    ∧ Forall (λ r, made_by_call m r) new_records
    ∧ records_of_calls m (_tools self) w new_records w'.
Proof.
  unfold redo.
  destruct (redo_loop_spec m (_tools self) (_track self) (_track self) [] w)
    as (added & w' & -> & Hnames & Hmade & Hcalls).
  by exists added, w'.
Qed.

(** The records [redo] appends name registered tools. *)
Lemma redone_records_registered (tools : gmap string Spec) (records new_records : list Rec) :
  (λ r, (tool_name r, args r)) <$> new_records
  = (λ r, (tool_name r, args r)) <$> filter (λ r, is_Some (tools !! tool_name r)) records →
  filter (λ r : Rec, is_Some (tools !! tool_name r)) new_records = new_records.
Proof.
  intros Hnames. apply filter_all. intros r Hr.
  assert (Hin : (tool_name r, args r)
                ∈ (λ r : Rec, (tool_name r, args r))
                    <$> filter (λ r : Rec, is_Some (tools !! tool_name r)) records).
  { rewrite <- Hnames. apply list_elem_of_fmap. by exists r. }
  apply list_elem_of_fmap in Hin as (r' & Heq & Hr').
  apply list_elem_of_filter in Hr' as [Hreg _]. injection Heq as -> _. done.
Qed.

(** X1: [redo] runs the forward tool of every record of the track whose
    tool is registered (checkpoint tools too), in the order of the track
    and with the recorded arguments, each call in the world the call
    before it left, and the world [redo] leaves is the one the last call
    left.  It appends one new record per call to the track, which keeps
    all its old records; a call that returned is recorded with its
    result, a call that raised with [success = False], no result and the
    exception's text. *)
Theorem redo_appends_reexecutions (m : module_state) (self : Reg) (w : World) :
  let out := redo m self w in
  let new_records := out.1.1 in
  _tools out.1.2 = _tools self
  ∧ _track out.1.2 = _track self ++ new_records
  ∧ (λ r, (tool_name r, args r)) <$> new_records
    = (λ r, (tool_name r, args r))
        <$> filter (λ r, is_Some (_tools self !! tool_name r)) (_track self)
  ∧ Forall (λ r, timestamp r = ToolInvocationRecord_timestamp_default m
                 ∧ match result r with
                   | Some _ => success r = true ∧ error_message r = None
                   | None => success r = false ∧ is_Some (error_message r)
                   end) new_records
  ∧ records_of_calls m (_tools self) w new_records out.2.
Proof.
  destruct (redo_spec m self w) as (new_records & w' & Hrun & Hnames & Hmade & Hcalls).
  cbv zeta. rewrite Hrun. done.
Qed.

(** X2: [redo] is not idempotent: the records it appends are on the
    track when it is called again, so a second [redo] makes every
    registered call of the first track twice more, in the world the
    first [redo] left: first the calls of the original records, then
    those of the records the first [redo] appended.  The track keeps
    the original records and the records of both runs, and has grown by
    three times the number of the first re-executions. *)
Theorem redo_again_doubles (m : module_state) (self : Reg) (w : World) :
  let first := redo m self w in
  let second := redo m first.1.2 first.2 in
  let call := λ r : Rec, (tool_name r, args r) in
  _tools second.1.2 = _tools self
  ∧ _track second.1.2 = _track self ++ first.1.1 ++ second.1.1
  ∧ call <$> second.1.1 = (call <$> first.1.1) ++ (call <$> first.1.1)
  ∧ call <$> first.1.1
    = call <$> filter (λ r, is_Some (_tools self !! tool_name r)) (_track self)
  ∧ records_of_calls m (_tools self) w first.1.1 first.2
  ∧ records_of_calls m (_tools self) first.2 second.1.1 second.2
  ∧ length second.1.1 = (2 * length first.1.1)%nat
  ∧ length (_track second.1.2) = (length (_track self) + 3 * length first.1.1)%nat.
Proof.
  destruct (redo_spec m self w) as (new1 & w1 & Hrun1 & Hnames1 & _ & Hcalls1).
  cbv zeta. rewrite Hrun1. cbn [fst snd].
  destruct (redo_spec m (mkRegistry (_tools self) (_track self ++ new1)) w1)
    as (new2 & w2 & Hrun2 & Hnames2 & _ & Hcalls2).
  rewrite Hrun2. cbn [fst snd _tools _track] in *.
  assert (Hcall2 : (λ r : Rec, (tool_name r, args r)) <$> new2
                   = ((λ r : Rec, (tool_name r, args r)) <$> new1)
                     ++ ((λ r : Rec, (tool_name r, args r)) <$> new1)).
  { rewrite Hnames2, filter_app, fmap_app, <- Hnames1.
    by rewrite (redone_records_registered _ _ _ Hnames1). }
  assert (Hlen : length new2 = (2 * length new1)%nat).
  { apply (f_equal length) in Hcall2. rewrite length_app, !length_fmap in Hcall2. lia. }
  split; [done|]. split; [by rewrite app_assoc|]. split; [done|]. split; [done|].
  split; [done|]. split; [done|]. split; [done|].
  rewrite !length_app. lia.
Qed.

(** One call through the adapter: nothing happens for a tool that is
    not registered; otherwise the forward tool runs and one record is
    appended. *)
Lemma execute_and_record_step (m : module_state) (self : Reg) (n : string) (a : Args)
    (w : World) :
  let out := execute_and_record m self n a w in
  _tools out.1.2 = _tools self
  ∧ match _tools self !! n with
    | None => out.1.2 = self ∧ out.2 = w ∧ ∃ e, out.1.1 = Raised e
    | Some spec =>
        out.1.1 = (forward spec a w).1 ∧ out.2 = (forward spec a w).2
        ∧ ∃ record,
            _track out.1.2 = _track self ++ [record]
            ∧ tool_name record = n ∧ args record = a
            ∧ result record = result_of (forward spec a w).1
    end.
Proof.
  cbv zeta. unfold execute_and_record, get_tool.
  destruct (_tools self !! n) as [spec|]; [|by eauto].
  destruct (forward spec a w) as [[r|e] w']; simpl; split; try done;
    split; try done; split; try done; eexists; done.
Qed.

Lemma undo_record_of_call (tools : gmap string Spec) (n : string) (spec : Spec)
    (record : Rec) (w : World) :
  undoable tools →
  tools !! n = Some spec →
  tool_name record = n →
  result record = result_of (forward spec (args record) w).1 →
  undo_record tools (forward spec (args record) w).2 record = w.
Proof.
  intros Hundo Hspec Hname Hresult. specialize (Hundo n spec Hspec).
  unfold undo_record, reverse_handler. rewrite Hname.
  destruct (in_CHECKPOINT_TOOL_NAMES n); [by apply Hundo|].
  destruct Hundo as (rev & Hrev & Hback). rewrite Hspec. simpl. rewrite Hrev, Hresult.
  apply Hback.
Qed.

Lemma execute_all_snoc (m : module_state) (self : Reg) (calls : list (string * Args))
    (n : string) (a : Args) (w : World) :
  execute_all m self (calls ++ [(n, a)]) w
  = ((execute_and_record m (execute_all m self calls w).1 n a
        (execute_all m self calls w).2).1.2,
     (execute_and_record m (execute_all m self calls w).1 n a
        (execute_all m self calls w).2).2).
Proof. unfold execute_all. by rewrite foldl_app. Qed.

(** X3: when every registered tool can be undone (its reverse handler
    puts the world back as it was before the forward call, a checkpoint
    tool changes nothing), [rollback] after any run of calls made through
    [execute_and_record] leaves the world as [rollback] before the run
    would have; on a track that was empty, the world as it was before the
    run.  Calls of tools that are not registered and calls that raised
    are part of the run. *)
Theorem rollback_undoes_executed_calls (m : module_state) (self : Reg)
    (calls : list (string * Args)) (w : World) :
  undoable (_tools self) →
  let st := execute_all m self calls w in
  _tools st.1 = _tools self
  ∧ (rollback st.1 st.2).2 = (rollback self w).2
  ∧ (_track self = [] → (rollback st.1 st.2).2 = w).
Proof.
  intros Hundo. cbv zeta.
  assert (Hmain : _tools (execute_all m self calls w).1 = _tools self
                  ∧ (rollback (execute_all m self calls w).1
                       (execute_all m self calls w).2).2
                    = (rollback self w).2).
  { induction calls as [|[n a] calls IH] using rev_ind; [done|].
    destruct IH as [Htools IH]. rewrite execute_all_snoc.
    set (self1 := (execute_all m self calls w).1) in *.
    set (w1 := (execute_all m self calls w).2) in *.
    destruct (execute_and_record_step m self1 n a w1) as [Htools' Hstep].
    cbn [fst snd]. split; [congruence|].
    destruct (_tools self1 !! n) as [spec|] eqn:Hspec.
    - destruct Hstep as (_ & Hw & record & Htrack & Hname & Hargs & Hresult).
      rewrite <- IH, !rollback_spec. cbn [fst snd].
      rewrite Htools', Htrack, rev_app_distr. simpl. f_equal.
      rewrite Hw. subst a. apply (undo_record_of_call _ n spec); try done.
      by rewrite Htools.
    - destruct Hstep as (-> & -> & _). done. }
  destruct Hmain as [Htools Hmain]. split; [done|]. split; [done|].
  intros Hempty. rewrite Hmain, rollback_spec, Hempty. done.
Qed.

Lemma undo_results_names (tools : gmap string Spec) (w : World) (records : list Rec) :
  rir_tool_name <$> undo_results tools w records
  = filter (λ n, n ∉ CHECKPOINT_TOOL_NAMES) (tool_name <$> records)
  ∧ Forall (λ res, rir_error_message res = None ↔ reversed_successfully res = true)
      (undo_results tools w records).
Proof.
  revert w. induction records as [|record rest IH]; intros w; [done|]. simpl.
  destruct (IH (undo_record tools w record)) as [IHn IHf].
  rewrite fmap_app, IHn, Forall_app. unfold undo_result, in_CHECKPOINT_TOOL_NAMES.
  destruct (bool_decide_reflect (tool_name record ∈ CHECKPOINT_TOOL_NAMES)) as [Hin|Hin].
  - rewrite filter_cons_False by (by intros ?). done.
  - rewrite filter_cons_True by done.
    destruct (reverse_handler tools record) as [rev|]; simpl.
    + destruct (rev (args record) (result record) w).1; simpl;
        (split; [done|]); (split; [|done]); by repeat constructor.
    + split; [done|]. split; [|done]. by repeat constructor.
Qed.

(** X4: [rollback] returns one result per record of the track whose tool
    is not a checkpoint tool, newest record first; a result carries an
    error message exactly when the reversal is reported as failed. *)
Theorem rollback_reports_each_record (self : Reg) (w : World) :
  let results := (rollback self w).1.1 in
  rir_tool_name <$> results
  = List.rev (filter (λ n, n ∉ CHECKPOINT_TOOL_NAMES) (tool_name <$> _track self))
  ∧ Forall (λ res, rir_error_message res = None ↔ reversed_successfully res = true)
      results.
Proof.
  cbv zeta. rewrite rollback_spec. cbn [fst snd].
  destruct (undo_results_names (_tools self) w (List.rev (_track self))) as [Hn Hf].
  split; [|done].
  assert (Hrev : ∀ (A : Type) (l : list A), List.rev l = list.reverse l).
  { intros A l. apply rev_alt. }
  rewrite Hn, !Hrev, fmap_reverse, filter_reverse. done.
Qed.

Lemma register_tools_frame (toolkit : gmap string (ForwardTool Args Result World))
    (self : Reg) (tool_names : list string)
    (reverse_map : gmap string (ReverseTool Args Result World)) :
  let out := register_tools toolkit self tool_names reverse_map in
  _track out.2 = _track self
  ∧ ∀ n, n ∉ tool_names → get_tool out.2 n = get_tool self n.
Proof.
  cbv zeta. revert self. induction tool_names as [|k rest IH]; intros self; [done|].
  simpl. destruct (toolkit !! k) as [fwd|]; [|done].
  unfold register_tool. destruct (validate _); simpl; [|done].
  destruct (IH (mkRegistry (<[k := mkToolSpec k fwd
                                    (if in_CHECKPOINT_TOOL_NAMES k then None
                                     else reverse_map !! k)]> (_tools self))
                  (_track self))) as [Htrack Hframe].
  split; [done|]. intros n Hn. apply not_elem_of_cons in Hn as [Hne Hn].
  rewrite (Hframe n Hn). unfold get_tool. simpl. by rewrite lookup_insert_ne.
Qed.

(** X5: [register_tools] of the adapter returns exactly when every name
    is a callable of the toolkit and has a reverse handler in the map
    unless it is a checkpoint tool.  Then every name is registered with
    the toolkit's callable and the map's handler, no handler for a
    checkpoint tool whatever the map holds.  Returning or raising, it
    leaves the track and the tools of other names as they were. *)
Theorem register_tools_contract (toolkit : gmap string (ForwardTool Args Result World))
    (self : Reg) (tool_names : list string)
    (reverse_map : gmap string (ReverseTool Args Result World)) :
  let out := register_tools toolkit self tool_names reverse_map in
  (out.1 = Returned tt ↔
     ∀ n, n ∈ tool_names →
          is_Some (toolkit !! n)
          ∧ (n ∈ CHECKPOINT_TOOL_NAMES ∨ is_Some (reverse_map !! n)))
  ∧ (out.1 = Returned tt →
     ∀ n, n ∈ tool_names →
          ∃ fwd, toolkit !! n = Some fwd
                 ∧ get_tool out.2 n
                   = Some (mkToolSpec n fwd
                             (if in_CHECKPOINT_TOOL_NAMES n then None
                              else reverse_map !! n)))
  ∧ _track out.2 = _track self
  ∧ (∀ n, n ∉ tool_names → get_tool out.2 n = get_tool self n).
Proof.
  cbv zeta. split; [|split; [|apply register_tools_frame]].
  - revert self. induction tool_names as [|k rest IH]; intros self.
    { split; [|done]. intros _ n Hn. by apply elem_of_nil in Hn. }
    simpl. destruct (toolkit !! k) as [fwd|] eqn:Hk.
    2:{ split; [done|]. intros Hall. destruct (Hall k) as [[? ?] _]; [left|]. congruence. }
    unfold register_tool, validate, in_CHECKPOINT_TOOL_NAMES. simpl.
    destruct (bool_decide_reflect (k ∈ CHECKPOINT_TOOL_NAMES)) as [Hc|Hc]; simpl.
    + rewrite IH. split.
      * intros Hall n Hn. apply elem_of_cons in Hn as [->|Hn]; [|by apply Hall].
        split; [by rewrite Hk|by left].
      * intros Hall n Hn. apply Hall. by right.
    + destruct (reverse_map !! k) as [rev|] eqn:Hrev.
      * rewrite bool_decide_eq_false_2 by done. simpl. rewrite IH. split.
        -- intros Hall n Hn. apply elem_of_cons in Hn as [->|Hn]; [|by apply Hall].
           split; [by rewrite Hk|right; by rewrite Hrev].
        -- intros Hall n Hn. apply Hall. by right.
      * rewrite bool_decide_eq_true_2 by done. simpl. split; [done|].
        intros Hall. destruct (Hall k) as [_ [?|[? ?]]]; [left|done|congruence].
  - revert self. induction tool_names as [|k rest IH]; intros self Hret n Hn.
    { by apply elem_of_nil in Hn. }
    simpl in Hret |- *. destruct (toolkit !! k) as [fwd|] eqn:Hk; [|done].
    unfold register_tool in Hret |- *. destruct (validate _); simpl in Hret |- *; [|done].
    destruct (decide (n ∈ rest)) as [Hrest|Hrest]; [by apply IH|].
    apply elem_of_cons in Hn as [->|Hn]; [|done]. exists fwd. split; [done|].
    match goal with
    | |- get_tool (register_tools _ ?s _ _).2 _ = _ =>
        destruct (register_tools_frame toolkit s rest reverse_map) as [_ Hframe]
    end.
    rewrite (Hframe k Hrest). unfold get_tool. simpl. by rewrite lookup_insert_eq.
Qed.

End RegistryMore.

(** ** The checkpoints table: insert and lookup, delete, latest, counts *)

Section CheckpointStoreMore.
Import Py Store.

Local Arguments Py.json_dumps : simpl never.
Local Arguments Py.json_loads : simpl never.

Local Abbreviation grow m g := (mkMachine (pyheap m ++ g) (db m) (clock m) (track m)).

(** [create] of a checkpoint that names its session and whose containers
    can be serialised. *)
Lemma checkpoint_create_run (checkpoint : Checkpoint.t) (sid : Z)
    (state history metadata : json) (m : Machine) :
  Checkpoint.internal_session_id checkpoint = Some sid →
  json_dumps (pyheap m) (Checkpoint.session_state checkpoint) = Some state →
  json_dumps (pyheap m) (Checkpoint.conversation_history checkpoint) = Some history →
  json_dumps (pyheap m) (Checkpoint.metadata checkpoint) = Some metadata →
  let ts := default (clock m) (Checkpoint.created_at checkpoint) in
  let new_id := (seq (checkpoints (db m)) + 1)%Z in
  CheckpointRepository.create checkpoint m
  = (Returned (Checkpoint.with_id (Checkpoint.with_created_at checkpoint (Some ts))
                 (Some new_id)),
     mkMachine (pyheap m)
       (with_checkpoints (db m)
          (mkTable
             (rows (checkpoints (db m))
              ++ [mkCheckpointRow new_id sid (Checkpoint.checkpoint_name checkpoint) state
                    history (Checkpoint.is_auto checkpoint) ts metadata])
             new_id))
       (clock m) (track m)).
Proof.
  intros Hsid Hstate Hhistory Hmetadata ts new_id.
  unfold CheckpointRepository.create. rewrite bind_run.
  assert (Hts : match Checkpoint.created_at checkpoint with
                | Some ts => mret ts
                | None => now
                end m = (Returned ts, m)).
  { unfold ts. by destruct (Checkpoint.created_at checkpoint). }
  rewrite Hts, bind_run, py_dumps_run, Hstate, bind_run, py_dumps_run, Hhistory.
  rewrite bind_run, py_dumps_run, Hmetadata, Hsid.
  rewrite bind_run. unfold get_db, insert. rewrite bind_run. unfold put_db.
  by rewrite ret_run.
Qed.

(** X6: a checkpoint that is saved can be read back.  [create] of a
    checkpoint that names its session and whose state, history and
    metadata can be serialised returns it with the next id and appends
    one row; from then on, and whatever is done to the Python objects,
    [get_by_id] with that id returns a checkpoint with the same session,
    name, kind and creation time whose state, history and metadata read
    as they did when it was saved. *)
Theorem checkpoint_create_then_get_by_id (checkpoint : Checkpoint.t) (sid : Z)
    (state history metadata : json) (m : Machine) :
  Checkpoint.internal_session_id checkpoint = Some sid →
  json_dumps (pyheap m) (Checkpoint.session_state checkpoint) = Some state →
  json_dumps (pyheap m) (Checkpoint.conversation_history checkpoint) = Some history →
  json_dumps (pyheap m) (Checkpoint.metadata checkpoint) = Some metadata →
  (∀ r, r ∈ rows (checkpoints (db m)) → (cp_id r ≤ seq (checkpoints (db m)))%Z) →
  let new_id := (seq (checkpoints (db m)) + 1)%Z in
  let row := mkCheckpointRow new_id sid (Checkpoint.checkpoint_name checkpoint) state
               history (Checkpoint.is_auto checkpoint)
               (default (clock m) (Checkpoint.created_at checkpoint)) metadata in
  ∃ saved m1,
    CheckpointRepository.create checkpoint m = (Returned saved, m1)
    ∧ Checkpoint.id saved = Some new_id
    ∧ pyheap m1 = pyheap m
    ∧ rows (checkpoints (db m1)) = rows (checkpoints (db m)) ++ [row]
    ∧ ∀ m2, db m2 = db m1 →
        ∃ loaded g,
          CheckpointRepository.get_by_id new_id m2 = (Returned (Some loaded), grow m2 g)
          ∧ RollbackAgent.represents (pyheap m2 ++ g) loaded row.
Proof.
  intros Hsid Hstate Hhistory Hmetadata Hids new_id row.
  eexists _, _. split; [by apply (checkpoint_create_run _ sid state history metadata)|].
  cbn [pyheap db checkpoints with_checkpoints rows Checkpoint.id Checkpoint.with_id].
  split; [done|]. split; [done|]. split; [done|]. intros m2 Hdb.
  assert (Hsel : select_checkpoint (db m2) new_id = Some row).
  { rewrite Hdb. unfold select_checkpoint.
    cbn [checkpoints with_checkpoints rows]. rewrite filter_app, filter_none.
    - by rewrite filter_cons_True.
    - intros r Hr ?. apply Hids in Hr. unfold new_id in *. lia. }
  destruct (checkpoint_get_by_id_run new_id m2)
    as [[Hnone _]|(row' & loaded & g & Hrow & Hget & Hrep)]; [congruence|].
  rewrite Hsel in Hrow. injection Hrow as <-. by exists loaded, g.
Qed.

Lemma checkpoint_delete_contract_run (checkpoint_id : Z) (m : Machine) :
  let out := CheckpointRepository.delete checkpoint_id m in
  out.1 = Returned (bool_decide (is_Some (select_checkpoint (db m) checkpoint_id)))
  ∧ select_checkpoint (db out.2) checkpoint_id = None
  ∧ (∀ id, id ≠ checkpoint_id →
       select_checkpoint (db out.2) id = select_checkpoint (db m) id).
Proof.
  cbv zeta. unfold CheckpointRepository.delete, delete_checkpoint.
  cbv beta iota delta [mbind M_bind mret M_ret get_db put_db]. cbn [fst snd db pyheap].
  split.
  { f_equal. unfold select_checkpoint. apply bool_decide_ext.
    destruct (filter (λ r, cp_id r = checkpoint_id) (rows (checkpoints (db m))));
      simpl; split; try lia; try (by intros [? ?]); eauto. }
  split.
  { unfold select_checkpoint. cbn [checkpoints with_checkpoints rows].
    rewrite filter_none; [done|]. intros r Hr. by apply list_elem_of_filter in Hr as [? _]. }
  intros id Hne. unfold select_checkpoint.
  cbn [checkpoints with_checkpoints rows]. f_equal.
  rewrite list_filter_filter. apply filter_ext_in. intros r _. split; [tauto|].
  intros ->. done.
Qed.

(** X7: [delete] of a checkpoint returns whether a row had the id;
    afterwards no row has it, [get_by_id] returns [None], every other
    checkpoint is found as before, and the sessions are untouched. *)
Theorem checkpoint_delete_contract (checkpoint_id : Z) (m : Machine) :
  let out := CheckpointRepository.delete checkpoint_id m in
  out.1 = Returned (bool_decide (is_Some (select_checkpoint (db m) checkpoint_id)))
  ∧ select_checkpoint (db out.2) checkpoint_id = None
  ∧ CheckpointRepository.get_by_id checkpoint_id out.2 = (Returned None, out.2)
  ∧ (∀ id, id ≠ checkpoint_id →
       select_checkpoint (db out.2) id = select_checkpoint (db m) id)
  ∧ internal_sessions (db out.2) = internal_sessions (db m)
  ∧ external_sessions (db out.2) = external_sessions (db m)
  ∧ pyheap out.2 = pyheap m.
Proof.
  cbv zeta. unfold CheckpointRepository.delete, delete_checkpoint.
  cbv beta iota delta [mbind M_bind mret M_ret get_db put_db]. cbn [fst snd db pyheap].
  assert (Hnone : select_checkpoint
                    (with_checkpoints (db m)
                       (mkTable (filter (λ r, cp_id r ≠ checkpoint_id)
                                   (rows (checkpoints (db m))))
                          (seq (checkpoints (db m))))) checkpoint_id = None).
  { unfold select_checkpoint. cbn [checkpoints with_checkpoints rows].
    rewrite filter_none; [done|]. intros r Hr. by apply list_elem_of_filter in Hr as [? _]. }
  split.
  { f_equal. unfold select_checkpoint. apply bool_decide_ext.
    destruct (filter (λ r, cp_id r = checkpoint_id) (rows (checkpoints (db m))));
      simpl; split; try lia; try (by intros [? ?]); eauto. }
  split; [done|]. split.
  { unfold CheckpointRepository.get_by_id. rewrite bind_run. unfold get_db.
    cbn [db]. by rewrite Hnone. }
  split; [|done]. intros id Hne. unfold select_checkpoint.
  cbn [checkpoints with_checkpoints rows]. f_equal.
  rewrite list_filter_filter. apply filter_ext_in. intros r _. split; [tauto|].
  intros ->. done.
Qed.

(** X8: [get_latest_checkpoint] returns [None] exactly when the session
    has no checkpoint; otherwise it returns a checkpoint of the session
    that no checkpoint of the session is newer than. *)
Theorem get_latest_checkpoint_is_newest (sid : Z) (m : Machine) :
  ((∀ r, r ∈ rows (checkpoints (db m)) → cp_internal_session_id r ≠ sid)
   ∧ CheckpointRepository.get_latest_checkpoint sid m = (Returned None, m))
  ∨ (∃ row cp g,
       CheckpointRepository.get_latest_checkpoint sid m = (Returned (Some cp), grow m g)
       ∧ RollbackAgent.represents (pyheap m ++ g) cp row
       ∧ row ∈ rows (checkpoints (db m))
       ∧ cp_internal_session_id row = sid
       ∧ ∀ r, r ∈ rows (checkpoints (db m)) → cp_internal_session_id r = sid →
              (cp_created_at r ≤ cp_created_at row)%Z).
Proof.
  unfold CheckpointRepository.get_latest_checkpoint. rewrite bind_run. unfold get_db.
  pose proof (select_checkpoints_by_session_elem (db m) sid false) as Helem.
  pose proof (newest_first_sorted cp_created_at
                (filter (λ r, cp_internal_session_id r = sid
                              ∧ (false = true → cp_is_auto r = true))
                   (rows (checkpoints (db m))))) as Hsorted.
  fold (select_checkpoints_by_session (db m) sid false) in Hsorted.
  destruct (select_checkpoints_by_session (db m) sid false) as [|row rest]; simpl.
  - left. split; [|done]. intros r Hr Hsid.
    assert (r ∈ []) as Hin%elem_of_nil by (apply Helem; done). done.
  - right. destruct (row_to_checkpoint_run row m) as (cp & g & Hrun & Hrep).
    exists row, cp, g. rewrite bind_run, Hrun, ret_run.
    destruct (proj1 (Helem row)) as (Hrow & Hsid & _); [left|].
    split; [done|]. split; [done|]. split; [done|]. split; [done|].
    intros r Hr Hrsid.
    assert (r ∈ row :: rest) as Hin by (apply Helem; done).
    apply elem_of_cons in Hin as [->|Hin]; [lia|].
    apply StronglySorted_inv in Hsorted as [_ Hall].
    by apply (proj1 (Forall_forall _ _) Hall).
Qed.

Lemma delete_auto_checkpoints_run (sid keep_latest : Z) (m : Machine) :
  CheckpointRepository.delete_auto_checkpoints sid keep_latest m
  = (Returned (delete_auto_checkpoints_sql (db m) sid keep_latest).2,
     mkMachine (pyheap m) (delete_auto_checkpoints_sql (db m) sid keep_latest).1 (clock m)
       (track m)).
Proof.
  unfold CheckpointRepository.delete_auto_checkpoints.
  cbv beta iota delta [mbind M_bind mret M_ret get_db put_db].
  by destruct (delete_auto_checkpoints_sql (db m) sid keep_latest).
Qed.

(** X9: the two ends of [keep_latest].  With a negative [keep_latest]
    (for SQLite a negative [LIMIT] is no limit) [delete_auto_checkpoints]
    deletes nothing and returns 0; with 0 it deletes every automatic
    checkpoint of the session, returns their number, and keeps every
    other row in its place. *)
Theorem delete_auto_checkpoints_keep_all_or_none (sid keep_latest : Z) (m : Machine) :
  let out := CheckpointRepository.delete_auto_checkpoints sid keep_latest m in
  ((keep_latest < 0)%Z → out = (Returned 0%nat, m))
  ∧ (keep_latest = 0%Z →
     out.1 = Returned (length (filter (λ r, cp_internal_session_id r = sid
                                            ∧ cp_is_auto r = true)
                                 (rows (checkpoints (db m)))))
     ∧ rows (checkpoints (db out.2))
       = filter (λ r, ¬ (cp_internal_session_id r = sid ∧ cp_is_auto r = true))
           (rows (checkpoints (db m))))
  ∧ internal_sessions (db out.2) = internal_sessions (db m)
  ∧ pyheap out.2 = pyheap m.
Proof.
  cbv zeta. rewrite delete_auto_checkpoints_run.
  unfold delete_auto_checkpoints_sql, select_keep_ids, sql_limit.
  cbn [fst snd db pyheap checkpoints with_checkpoints internal_sessions rows].
  split; [|split; [|done]].
  - intros Hneg. apply Z.ltb_lt in Hneg. rewrite Hneg.
    set (autos := select_checkpoints_by_session (db m) sid true).
    set (doomed := λ r : CheckpointRow,
           match cp_id <$> autos with
           | [] => bool_decide (cp_internal_session_id r = sid) && cp_is_auto r
           | _ :: _ => bool_decide (cp_internal_session_id r = sid) && cp_is_auto r
                       && bool_decide (cp_id r ∉ cp_id <$> autos)
           end).
    assert (Hnone : ∀ r, r ∈ rows (checkpoints (db m)) → doomed r = false).
    { intros r Hr. unfold doomed.
      destruct (bool_decide_reflect (cp_internal_session_id r = sid)) as [Hs|Hs];
        [|by destruct (cp_id <$> autos)].
      destruct (cp_is_auto r) eqn:Ha; [|by destruct (cp_id <$> autos)].
      assert (Hin : cp_id r ∈ cp_id <$> autos).
      { apply list_elem_of_fmap. exists r. split; [done|].
        by apply select_checkpoints_by_session_elem. }
      destruct (cp_id <$> autos) as [|k ks] eqn:Hk; [by apply elem_of_nil in Hin|].
      simpl. rewrite bool_decide_eq_false_2; [done|]. by intros ?. }
    rewrite (filter_all (λ r, doomed r = false)) by done.
    rewrite (filter_none (λ r, doomed r = true)).
    + destruct m as [h [[rws sq] ss es] c t]. done.
    + intros r Hr. rewrite (Hnone r Hr). done.
  - intros ->. change (0 <? 0)%Z with false. cbn [Z.to_nat]. rewrite take_0.
    cbn [fmap list_fmap]. split.
    + do 2 f_equal. apply filter_ext_in. intros r _.
      rewrite andb_true_iff, bool_decide_eq_true. by destruct (cp_is_auto r).
    + apply filter_ext_in. intros r _.
      destruct (bool_decide_reflect (cp_internal_session_id r = sid)) as [Hs|Hs];
        destruct (cp_is_auto r); simpl; split; try done; try tauto;
        intros _ [? ?]; done.
Qed.

Lemma count_split (rs : list CheckpointRow) :
  length rs = (length (filter (λ r, cp_is_auto r = true) rs)
               + length (filter (λ r, cp_is_auto r = false) rs))%nat.
Proof.
  induction rs as [|r rs IH]; [done|]. destruct (cp_is_auto r) eqn:Ha.
  - rewrite filter_cons_True, filter_cons_False by (done || congruence). simpl. lia.
  - rewrite filter_cons_False, filter_cons_True by (done || congruence). simpl. lia.
Qed.

Lemma count_checkpoints_run (sid : Z) (m : Machine) :
  let rs := filter (λ r, cp_internal_session_id r = sid) (rows (checkpoints (db m))) in
  CheckpointRepository.count_checkpoints sid m
  = (Returned (CheckpointRepository.mkCounts (length rs)
                 (length (filter (λ r, cp_is_auto r = true) rs))
                 (length (filter (λ r, cp_is_auto r = false) rs))), m).
Proof. done. Qed.

(** X10: what [count_checkpoints] reports before and after
    [delete_auto_checkpoints].  The total is the automatic plus the
    manual checkpoints; the cleanup with [keep_latest >= 0] leaves the
    manual count as it was and the automatic count at [keep_latest], or
    as it was when that is smaller; the number it returns is the number
    of automatic checkpoints that went. *)
Theorem count_checkpoints_after_cleanup (sid keep_latest : Z) (m : Machine) :
  (0 ≤ keep_latest)%Z →
  NoDup (cp_id <$> rows (checkpoints (db m))) →
  ∃ before after deleted m',
    CheckpointRepository.count_checkpoints sid m = (Returned before, m)
    ∧ CheckpointRepository.delete_auto_checkpoints sid keep_latest m
      = (Returned deleted, m')
    ∧ CheckpointRepository.count_checkpoints sid m' = (Returned after, m')
    ∧ CheckpointRepository.count_total before
      = (CheckpointRepository.count_auto before
         + CheckpointRepository.count_manual before)%nat
    ∧ CheckpointRepository.count_total after
      = (CheckpointRepository.count_auto after
         + CheckpointRepository.count_manual after)%nat
    ∧ CheckpointRepository.count_manual after = CheckpointRepository.count_manual before
    ∧ CheckpointRepository.count_auto after
      = Nat.min (Z.to_nat keep_latest) (CheckpointRepository.count_auto before)
    ∧ deleted = (CheckpointRepository.count_auto before
                 - CheckpointRepository.count_auto after)%nat.
Proof.
  intros Hk Hnd. eexists _, _, _, _.
  split; [apply count_checkpoints_run|].
  split; [apply delete_auto_checkpoints_run|].
  split; [apply count_checkpoints_run|].
  rewrite delete_auto_checkpoints_sql_spec by done.
  cbn [CheckpointRepository.count_total CheckpointRepository.count_auto
         CheckpointRepository.count_manual fst snd db checkpoints with_checkpoints rows].
  set (rws := rows (checkpoints (db m))).
  set (autos := select_checkpoints_by_session (db m) sid true).
  set (n := Z.to_nat keep_latest).
  set (keep := λ r : CheckpointRow, cp_id r ∉ cp_id <$> drop n autos).
  assert (Hautos : ∀ r, r ∈ autos ↔
            r ∈ rws ∧ cp_internal_session_id r = sid ∧ cp_is_auto r = true).
  { intros r. unfold autos. rewrite select_checkpoints_by_session_elem. tauto. }
  assert (Hnda : NoDup (cp_id <$> autos))
    by by apply select_checkpoints_by_session_NoDup.
  (* the automatic checkpoints of the session, before and after *)
  assert (Hperm : filter (λ r, cp_is_auto r = true)
                    (filter (λ r, cp_internal_session_id r = sid) rws) ≡ₚ autos).
  { unfold autos, select_checkpoints_by_session. rewrite newest_first_perm.
    rewrite list_filter_filter. fold rws.
    erewrite (filter_ext_in _ (λ r, cp_internal_session_id r = sid
                                   ∧ (true = true → cp_is_auto r = true))); [done|].
    intros r _. tauto. }
  assert (Hauto_before : length (filter (λ r, cp_is_auto r = true)
                                   (filter (λ r, cp_internal_session_id r = sid) rws))
                         = length autos) by by rewrite Hperm.
  assert (Hauto_after : length (filter (λ r, cp_is_auto r = true)
                                  (filter (λ r, cp_internal_session_id r = sid)
                                     (filter keep rws)))
                        = Nat.min n (length autos)).
  { assert (Hcomm : filter (λ r, cp_is_auto r = true)
                      (filter (λ r, cp_internal_session_id r = sid) (filter keep rws))
                    = filter keep
                        (filter (λ r, cp_is_auto r = true)
                           (filter (λ r, cp_internal_session_id r = sid) rws))).
    { rewrite !list_filter_filter. apply filter_ext_in. intros r _. tauto. }
    rewrite Hcomm, Hperm. rewrite <- (take_drop n autos) at 1.
    rewrite filter_app, filter_all, filter_none, app_nil_r, length_take; [done| |].
    - intros r Hr Hkeep. apply Hkeep. apply list_elem_of_fmap. eauto.
    - intros r Hr. unfold keep.
      apply (take_drop_keys cp_id n autos r); [done| |].
      + rewrite <- (take_drop n autos). apply elem_of_app. by left.
      + apply list_elem_of_fmap. eauto. }
  assert (Hmanual : filter (λ r, cp_is_auto r = false)
                      (filter (λ r, cp_internal_session_id r = sid) (filter keep rws))
                    = filter (λ r, cp_is_auto r = false)
                        (filter (λ r, cp_internal_session_id r = sid) rws)).
  { rewrite !list_filter_filter. apply filter_ext_in. intros r Hr. split; [tauto|].
    intros [Hm Hs].
    assert (Hkeep : keep r); [|tauto].
    intros (r' & Hid & Hr')%list_elem_of_fmap.
    assert (Hin' : r' ∈ autos).
    { rewrite <- (take_drop n autos). apply elem_of_app. by right. }
    apply Hautos in Hin' as (Hrow' & _ & Ha').
    assert (r = r') as <- by (by eapply (NoDup_fmap_elem_inj cp_id); [exact Hnd|..]).
    congruence. }
  split; [apply count_split|]. split; [apply count_split|].
  split; [by rewrite Hmanual|].
  rewrite Hauto_before, Hauto_after. split; [done|].
  rewrite length_drop. fold n. lia.
Qed.

End CheckpointStoreMore.

(** ** The internal sessions table: insert and lookup, failed writes *)

Section SessionStoreMore.
Import Py Store.

Local Arguments Py.json_dumps : simpl never.
Local Arguments Py.json_loads : simpl never.

Local Abbreviation grow m g := (mkMachine (pyheap m ++ g) (db m) (clock m) (track m)).

Lemma row_to_session_represents (row : SessionRow) (m : Machine) :
  ∃ s g,
    InternalSessionRepository._row_to_session row m = (Returned s, grow m g)
    ∧ InternalSessionRepository.represents (pyheap m ++ g) s row.
Proof.
  unfold InternalSessionRepository._row_to_session.
  rewrite ?bind_run, py_loads_run.
  rewrite ?bind_run, py_loads_run. cbn [pyheap db clock track].
  rewrite ret_run.
  pose proof (json_loads_dumps (s_state_data row) (pyheap m)) as Hd1.
  destruct (json_loads_extends (s_state_data row) (pyheap m)) as [g1 Hg1].
  set (h1 := (json_loads (s_state_data row) (pyheap m)).2) in *.
  pose proof (json_loads_dumps (s_conversation_history row) h1) as Hd2.
  destruct (json_loads_extends (s_conversation_history row) h1) as [g2 Hg2].
  set (h2 := (json_loads (s_conversation_history row) h1).2) in *.
  eexists _, (g1 ++ g2).
  assert (h2 = pyheap m ++ g1 ++ g2) as Hh2.
  { rewrite Hg2, Hg1. by rewrite <- !app_assoc. }
  rewrite <- Hh2. split; [reflexivity|].
  repeat split; cbn; try done.
  rewrite Hg2. by apply json_dumps_app.
Qed.

(** The three lookups that return one session load the row they select. *)
Lemma session_lookup_run (select : Database → option SessionRow) (m : Machine) :
  match select (db m) with
  | Some row =>
      ∃ s g,
        InternalSessionRepository._row_to_session row m = (Returned s, grow m g)
        ∧ (d ← get_db;
           match select d with
           | Some row => s ← InternalSessionRepository._row_to_session row; mret (Some s)
           | None => mret None
           end) m = (Returned (Some s), grow m g)
        ∧ InternalSessionRepository.represents (pyheap m ++ g) s row
  | None =>
      (d ← get_db;
       match select d with
       | Some row => s ← InternalSessionRepository._row_to_session row; mret (Some s)
       | None => mret None
       end) m = (Returned None, m)
  end.
Proof.
  rewrite !bind_run. unfold get_db. destruct (select (db m)) as [row|]; [|done].
  destruct (row_to_session_represents row m) as (s & g & Hrun & Hrep).
  exists s, g. rewrite bind_run, Hrun. done.
Qed.

(** X11: a session that is saved can be found again.  [create] of a
    session whose state and history can be serialised and whose
    [agno_session_id] is not in the table returns it with the next id;
    from then on [get_by_id] with that id and [get_by_agno_session_id]
    return the session as it was saved, and so does [get_current_session]
    for its external session when it was saved as current. *)
Theorem session_create_then_lookup (session : InternalSession.t) (state history : json)
    (m : Machine) :
  json_dumps (pyheap m) (InternalSession.session_state session) = Some state →
  json_dumps (pyheap m) (InternalSession.conversation_history session) = Some history →
  InternalSession.agno_session_id session
    ∉ s_agno_session_id <$> rows (internal_sessions (db m)) →
  (∀ r, r ∈ rows (internal_sessions (db m)) → (s_id r ≤ seq (internal_sessions (db m)))%Z) →
  let new_id := (seq (internal_sessions (db m)) + 1)%Z in
  let row := mkSessionRow new_id (InternalSession.external_session_id session)
               (InternalSession.agno_session_id session) state history
               (default (clock m) (InternalSession.created_at session))
               (InternalSession.is_current session)
               (InternalSession.checkpoint_count session) in
  ∃ saved m1,
    InternalSessionRepository.create session m = (Returned saved, m1)
    ∧ InternalSession.id saved = Some new_id
    ∧ pyheap m1 = pyheap m
    ∧ ∀ m2, db m2 = db m1 →
        ∃ loaded g,
          InternalSessionRepository.get_by_id new_id m2 = (Returned (Some loaded), grow m2 g)
          ∧ InternalSessionRepository.represents (pyheap m2 ++ g) loaded row
          ∧ InternalSessionRepository.get_by_agno_session_id
              (InternalSession.agno_session_id session) m2
            = (Returned (Some loaded), grow m2 g)
          ∧ (InternalSession.is_current session = true →
             InternalSessionRepository.get_current_session
               (InternalSession.external_session_id session) m2
             = (Returned (Some loaded), grow m2 g)).
Proof.
  intros Hstate Hhistory Hnew Hids new_id row.
  eexists _, _. split; [by apply session_create_run|].
  cbn [pyheap db InternalSession.id InternalSession.with_id].
  split; [done|]. split; [done|]. intros m2 Hdb.
  set (ext := InternalSession.external_session_id session) in *.
  set (d0 := if InternalSession.is_current session
             then sql_mark_not_current (db m) ext None else db m) in *.
  assert (Hrows : rows (internal_sessions (db m2)) = rows (internal_sessions d0) ++ [row]).
  { rewrite Hdb. done. }
  assert (Hd0 : ∀ r, r ∈ rows (internal_sessions d0) →
            (s_id r ≤ seq (internal_sessions (db m)))%Z
            ∧ s_agno_session_id r ≠ InternalSession.agno_session_id session
            ∧ (InternalSession.is_current session = true →
               ¬ (s_external_session_id r = ext ∧ s_is_current r = true))).
  { intros r Hr. unfold d0 in Hr |- *.
    destruct (InternalSession.is_current session).
    - apply map_sessions_elem in Hr as (r0 & -> & Hr0).
      assert (Hagno : s_agno_session_id r0 ≠ InternalSession.agno_session_id session).
      { intros Heq. apply Hnew. rewrite <- Heq. apply list_elem_of_fmap. eauto. }
      destruct (bool_decide_reflect (s_external_session_id r0 = ext)) as [He|He]; simpl.
      + rewrite ?bool_decide_eq_true_2 by done. simpl.
        split; [by apply Hids|]. split; [done|]. intros _ [_ ?]. done.
      + split; [by apply Hids|]. split; [done|]. intros _ [? _]. done.
    - split; [by apply Hids|]. split; [|done].
      intros Heq. apply Hnew. rewrite <- Heq. apply list_elem_of_fmap. eauto. }
  assert (Hby_id : select_session (db m2) new_id = Some row).
  { unfold select_session. rewrite Hrows, filter_app, filter_none.
    - by rewrite filter_cons_True.
    - intros r Hr ?. apply Hd0 in Hr as [? _]. unfold new_id in *. lia. }
  assert (Hby_agno : select_session_by_agno (db m2)
                       (InternalSession.agno_session_id session) = Some row).
  { unfold select_session_by_agno. rewrite Hrows, filter_app, filter_none.
    - by rewrite filter_cons_True.
    - intros r Hr ?. by apply Hd0 in Hr as (_ & ? & _). }
  pose proof (session_lookup_run (λ d, select_session d new_id) m2) as Hl1.
  pose proof (session_lookup_run
                (λ d, select_session_by_agno d (InternalSession.agno_session_id session))
                m2) as Hl2.
  pose proof (session_lookup_run (λ d, select_current_session d ext) m2) as Hl3.
  cbv beta in Hl1, Hl2, Hl3. rewrite Hby_id in Hl1. rewrite Hby_agno in Hl2.
  destruct Hl1 as (loaded & g & Hload & Hget1 & Hrep).
  destruct Hl2 as (loaded2 & g2 & Hload2 & Hget2 & _).
  rewrite Hload in Hload2. injection Hload2 as <- Hg. apply app_inv_head in Hg as <-.
  exists loaded, g. split; [exact Hget1|]. split; [exact Hrep|].
  split; [exact Hget2|]. intros Hcur.
  assert (Hby_cur : select_current_session (db m2) ext = Some row).
  { unfold select_current_session. rewrite Hrows, filter_app, filter_none.
    - by rewrite filter_cons_True.
    - intros r Hr. apply Hd0 in Hr as (_ & _ & Hno). by apply Hno. }
  rewrite Hby_cur in Hl3. destruct Hl3 as (loaded3 & g3 & Hload3 & Hget3 & _).
  rewrite Hload in Hload3. injection Hload3 as <- Hg3. apply app_inv_head in Hg3 as <-.
  exact Hget3.
Qed.

Lemma sql_mark_not_current_ids (d : Database) (ext : Z) (exclude_id : option Z) :
  s_id <$> rows (internal_sessions (sql_mark_not_current d ext exclude_id))
  = s_id <$> rows (internal_sessions d).
Proof.
  unfold sql_mark_not_current, map_sessions. destruct d as [cs ss es]. simpl.
  rewrite <- list_fmap_compose. apply list_fmap_ext. intros i r _. simpl.
  by destruct (_ && _).
Qed.

(** After the demotion that spares no row of the external session, the
    external session has no current session. *)
Lemma sql_mark_not_current_none (d : Database) (ext : Z) (exclude_id : option Z) :
  (∀ r, r ∈ rows (internal_sessions d) → Some (s_id r) ≠ exclude_id) →
  current_sessions (sql_mark_not_current d ext exclude_id) ext = []
  ∧ select_current_session (sql_mark_not_current d ext exclude_id) ext = None.
Proof.
  intros Hnot.
  assert (Hnone : filter (λ r, s_external_session_id r = ext ∧ s_is_current r = true)
                    (rows (internal_sessions (sql_mark_not_current d ext exclude_id)))
                  = []).
  { apply filter_none. intros r Hr [He Hc].
    apply map_sessions_elem in Hr as (r0 & -> & Hr0).
    destruct (bool_decide_reflect (s_external_session_id r0 = ext)) as [He0|He0];
      simpl in *.
    - rewrite bool_decide_eq_true_2 in Hc by (by apply Hnot). done.
    - done. }
  unfold current_sessions, select_current_session. by rewrite Hnone.
Qed.

(** X12: [create] with an [agno_session_id] that is in the table raises
    [IntegrityError] and adds no row; but the demotion of the other
    sessions was committed before the insert, so a session that was to be
    created as current leaves its external session without any current
    session.  A session that was not to be current leaves everything as
    it was. *)
Theorem session_create_duplicate_agno (session : InternalSession.t) (state history : json)
    (m : Machine) :
  json_dumps (pyheap m) (InternalSession.session_state session) = Some state →
  json_dumps (pyheap m) (InternalSession.conversation_history session) = Some history →
  InternalSession.agno_session_id session
    ∈ s_agno_session_id <$> rows (internal_sessions (db m)) →
  ∃ e m',
    InternalSessionRepository.create session m = (Raised e, m')
    ∧ String.prefix "IntegrityError" e = true
    ∧ pyheap m' = pyheap m
    ∧ checkpoints (db m') = checkpoints (db m)
    ∧ s_id <$> rows (internal_sessions (db m')) = s_id <$> rows (internal_sessions (db m))
    ∧ (InternalSession.is_current session = true →
       current_sessions (db m') (InternalSession.external_session_id session) = []
       ∧ select_current_session (db m') (InternalSession.external_session_id session)
         = None)
    ∧ (InternalSession.is_current session = false → m' = m).
Proof.
  intros Hstate Hhistory Hdup.
  unfold InternalSessionRepository.create,
    InternalSessionRepository._mark_all_not_current.
  rewrite bind_run.
  assert (Hts : ∃ ts, match InternalSession.created_at session with
                      | Some ts => mret ts
                      | None => now
                      end m = (Returned ts, m)).
  { destruct (InternalSession.created_at session); eexists; reflexivity. }
  destruct Hts as [ts ->].
  set (ext := InternalSession.external_session_id session).
  set (d0 := if InternalSession.is_current session
             then sql_mark_not_current (db m) ext None else db m).
  assert (Hagno : s_agno_session_id <$> rows (internal_sessions d0)
                  = s_agno_session_id <$> rows (internal_sessions (db m))).
  { unfold d0. destruct (InternalSession.is_current session); [|done].
    apply sql_mark_not_current_agno. }
  assert (Hm0 : (if InternalSession.is_current session
                 then (d1 ← get_db; put_db (sql_mark_not_current d1 ext (truthy_id None)))
                 else mret tt) m
                = (Returned tt, mkMachine (pyheap m) d0 (clock m) (track m))).
  { unfold d0. destruct (InternalSession.is_current session); [done|].
    rewrite ret_run. by destruct m. }
  rewrite bind_run, Hm0.
  rewrite bind_run, py_dumps_run. cbn [pyheap db clock track]. rewrite Hstate.
  rewrite bind_run, py_dumps_run. cbn [pyheap db clock track]. rewrite Hhistory.
  rewrite bind_run. unfold get_db. cbn [pyheap db clock track].
  rewrite Hagno, bool_decide_eq_true_2 by done.
  eexists _, _. split; [reflexivity|]. cbn [pyheap db].
  split; [done|]. split; [done|]. unfold d0.
  destruct (InternalSession.is_current session).
  - split; [done|]. split; [apply sql_mark_not_current_ids|]. split; [|done].
    intros _. apply sql_mark_not_current_none. done.
  - split; [done|]. split; [done|]. split; [done|]. intros _. by destruct m.
Qed.

(** [update] of a session that has an id and whose containers can be
    serialised, with the value it returns. *)
Lemma session_update_returns (session : InternalSession.t) (id : Z) (state history : json)
    (m : Machine) :
  truthy_id (InternalSession.id session) = Some id →
  json_dumps (pyheap m) (InternalSession.session_state session) = Some state →
  json_dumps (pyheap m) (InternalSession.conversation_history session) = Some history →
  let d0 := if InternalSession.is_current session
            then sql_mark_not_current (db m) (InternalSession.external_session_id session)
                   (Some id)
            else db m in
  InternalSessionRepository.update session m
  = (Returned (bool_decide (is_Some (select_session d0 id))),
     mkMachine (pyheap m)
       (sql_update_session d0 id state history (InternalSession.is_current session)
          (InternalSession.checkpoint_count session))
       (clock m) (track m)).
Proof.
  intros Hid Hstate Hhistory d0. unfold InternalSessionRepository.update,
    InternalSessionRepository._mark_all_not_current. rewrite Hid.
  assert (Hm0 : (if InternalSession.is_current session
                 then (d1 ← get_db;
                       put_db (sql_mark_not_current d1
                                 (InternalSession.external_session_id session)
                                 (Some id)))
                 else mret tt) m
                = (Returned tt, mkMachine (pyheap m) d0 (clock m) (track m))).
  { unfold d0. destruct (InternalSession.is_current session); [done|].
    rewrite ret_run. by destruct m. }
  rewrite bind_run, Hm0.
  rewrite bind_run, py_dumps_run. cbn [pyheap db clock track]. rewrite Hstate.
  rewrite bind_run, py_dumps_run. cbn [pyheap db clock track]. rewrite Hhistory.
  rewrite bind_run. unfold get_db. cbn [pyheap db clock track].
  rewrite bind_run. unfold put_db. cbn [pyheap db clock track]. by rewrite ret_run.
Qed.

(** X13: [update] with the id of no row returns [False] and rewrites no
    row; all the same, when the object is marked current, every session
    of the external session it names has been demoted, and that external
    session is left without any current session. *)
Theorem session_update_missing_row (session : InternalSession.t) (id : Z)
    (state history : json) (m : Machine) :
  truthy_id (InternalSession.id session) = Some id →
  select_session (db m) id = None →
  json_dumps (pyheap m) (InternalSession.session_state session) = Some state →
  json_dumps (pyheap m) (InternalSession.conversation_history session) = Some history →
  ∃ m',
    InternalSessionRepository.update session m = (Returned false, m')
    ∧ pyheap m' = pyheap m
    ∧ checkpoints (db m') = checkpoints (db m)
    ∧ (InternalSession.is_current session = true →
       db m' = sql_mark_not_current (db m) (InternalSession.external_session_id session)
                 (Some id)
       ∧ current_sessions (db m') (InternalSession.external_session_id session) = [])
    ∧ (InternalSession.is_current session = false → m' = m).
Proof.
  intros Hid Hnone Hstate Hhistory.
  rewrite (session_update_returns session id state history m Hid Hstate Hhistory).
  set (ext := InternalSession.external_session_id session).
  set (d0 := if InternalSession.is_current session
             then sql_mark_not_current (db m) ext (Some id) else db m).
  assert (Hids : ∀ r, r ∈ rows (internal_sessions d0) → s_id r ≠ id).
  { intros r Hr. assert (Hin : s_id r ∈ s_id <$> rows (internal_sessions (db m))).
    { unfold d0 in Hr. destruct (InternalSession.is_current session).
      - rewrite <- (sql_mark_not_current_ids (db m) ext (Some id)).
        apply list_elem_of_fmap. eauto.
      - apply list_elem_of_fmap. eauto. }
    apply list_elem_of_fmap in Hin as (r0 & -> & Hr0).
    by apply (select_session_None (db m)). }
  assert (Hsame : sql_update_session d0 id state history
                    (InternalSession.is_current session)
                    (InternalSession.checkpoint_count session) = d0).
  { unfold sql_update_session, map_sessions.
    assert (Hrows : (λ r, if bool_decide (s_id r = id)
                          then mkSessionRow (s_id r) (s_external_session_id r)
                                 (s_agno_session_id r) state history (s_created_at r)
                                 (InternalSession.is_current session)
                                 (InternalSession.checkpoint_count session)
                          else r) <$> rows (internal_sessions d0)
                    = rows (internal_sessions d0)).
    { rewrite <- (list_fmap_id (rows (internal_sessions d0))) at 2.
      apply list_fmap_ext. intros i r Hr. apply list_elem_of_lookup_2 in Hr.
      by rewrite bool_decide_eq_false_2 by (by apply Hids). }
    rewrite Hrows. by destruct d0 as [cs [rws sq] es]. }
  assert (Hret : bool_decide (is_Some (select_session d0 id)) = false).
  { apply bool_decide_eq_false_2. intros [r Hr].
    apply select_session_Some in Hr as [Hr Hrid]. by apply (Hids r). }
  rewrite Hret, Hsame. eexists. split; [reflexivity|]. cbn [pyheap db].
  split; [done|]. unfold d0. destruct (InternalSession.is_current session).
  - split; [done|]. split; [|done]. intros _. split; [done|].
    apply sql_mark_not_current_none. intros r Hr [= Heq].
    by apply (select_session_None (db m) id r).
  - split; [done|]. split; [done|]. intros _. by destruct m.
Qed.

(** X14: [set_current_session] reads the row first: with the id of no
    row it returns [False] and changes nothing at all; with the id of a
    row it returns [True], that row is current, and the rows of other
    external sessions are as they were. *)
Theorem set_current_session_contract (session_id : Z) (m : Machine) :
  let out := InternalSessionRepository.set_current_session session_id m in
  match select_session (db m) session_id with
  | None => out = (Returned false, m)
  | Some row =>
      out.1 = Returned true
      ∧ checkpoints (db out.2) = checkpoints (db m)
      ∧ (∃ row', row' ∈ rows (internal_sessions (db out.2))
                 ∧ s_id row' = session_id ∧ s_is_current row' = true
                 ∧ s_external_session_id row' = s_external_session_id row)
      ∧ (∀ r, r ∈ rows (internal_sessions (db m)) →
              s_external_session_id r ≠ s_external_session_id row →
              s_id r ≠ session_id →
              r ∈ rows (internal_sessions (db out.2)))
  end.
Proof.
  cbv zeta. unfold InternalSessionRepository.set_current_session,
    InternalSessionRepository._mark_all_not_current. rewrite bind_run.
  destruct (session_get_by_id_run session_id m)
    as [[Hnone ->]|(row & st & hi & h' & Hrow & ->)].
  - rewrite Hnone. by rewrite ret_run.
  - rewrite Hrow. cbn [InternalSession.external_session_id].
    rewrite !bind_run. unfold get_db, put_db. cbn [pyheap db clock track].
    rewrite !bind_run. cbn [pyheap db clock track]. rewrite ret_run. cbn [fst snd db].
    apply select_session_Some in Hrow as [Hin Hid].
    split.
    { f_equal. apply bool_decide_eq_true_2.
      assert (Hmem : session_id ∈ s_id <$> rows (internal_sessions
                       (sql_mark_not_current (db m) (s_external_session_id row) None))).
      { rewrite sql_mark_not_current_ids. apply list_elem_of_fmap. eauto. }
      apply list_elem_of_fmap in Hmem as (r & Hr1 & Hr2).
      unfold select_session.
      destruct (filter _ _) as [|x l] eqn:Hf; [|by eexists].
      assert (r ∈ []) as []%elem_of_nil. rewrite <- Hf. by apply list_elem_of_filter. }
    split; [done|]. split.
    + exists (set_is_current true (set_is_current false row)). split; [|by rewrite <- Hid].
      apply map_sessions_elem. exists (set_is_current false row). split.
      { cbn [set_is_current s_id]. by rewrite bool_decide_eq_true_2. }
      apply map_sessions_elem. exists row. split; [|done].
      rewrite bool_decide_eq_true_2 by done. done.
    + intros r Hr Hext Hne.
      apply map_sessions_elem. exists r. split.
      { by rewrite bool_decide_eq_false_2. }
      apply map_sessions_elem. exists r. split; [|done].
      rewrite bool_decide_eq_false_2 by done. done.
Qed.

Lemma session_represents_app (h g : heap) (s : InternalSession.t) (row : SessionRow) :
  InternalSessionRepository.represents h s row →
  InternalSessionRepository.represents (h ++ g) s row.
Proof.
  intros (? & ? & ? & ? & ? & ? & ? & ?).
  repeat split; try done; by apply json_dumps_app.
Qed.

Lemma for_each_row_to_session (rs : list SessionRow) (m : Machine) :
  ∃ sessions g,
    for_each InternalSessionRepository._row_to_session rs m = (Returned sessions, grow m g)
    ∧ Forall2 (InternalSessionRepository.represents (pyheap m ++ g)) sessions rs.
Proof.
  revert m. induction rs as [|row rs IH]; intros m.
  - exists [], []. rewrite app_nil_r. simpl. rewrite ret_run. destruct m.
    split; [done|constructor].
  - simpl. rewrite bind_run.
    destruct (row_to_session_represents row m) as (s & g1 & -> & Hrep).
    rewrite bind_run.
    destruct (IH (mkMachine (pyheap m ++ g1) (db m) (clock m) (track m)))
      as (sessions & g2 & -> & Hreps).
    cbn [pyheap db clock track] in *. rewrite ret_run.
    exists (s :: sessions), (g1 ++ g2). rewrite app_assoc. split; [done|].
    constructor; [by apply session_represents_app|done].
Qed.

(** X15: [get_by_external_session] returns the sessions of the external
    session, each of them once and as stored, newest first;
    [count_sessions] is their number. *)
Theorem get_by_external_session_lists (external_session_id : Z) (m : Machine) :
  ∃ sessions listed g,
    InternalSessionRepository.get_by_external_session external_session_id m
    = (Returned sessions, grow m g)
    ∧ Forall2 (InternalSessionRepository.represents (pyheap m ++ g)) sessions listed
    ∧ listed ≡ₚ filter (λ r, s_external_session_id r = external_session_id)
                  (rows (internal_sessions (db m)))
    ∧ StronglySorted (λ a b, (s_created_at b ≤ s_created_at a)%Z) listed
    ∧ InternalSessionRepository.count_sessions external_session_id m
      = (Returned (length sessions), m).
Proof.
  unfold InternalSessionRepository.get_by_external_session,
    InternalSessionRepository.count_sessions.
  rewrite !bind_run. unfold get_db.
  destruct (for_each_row_to_session
              (select_sessions_by_external (db m) external_session_id) m)
    as (sessions & g & Hrun & Hreps).
  exists sessions, (select_sessions_by_external (db m) external_session_id), g.
  split; [done|]. split; [done|]. unfold select_sessions_by_external in *.
  split; [apply newest_first_perm|]. split; [apply newest_first_sorted|].
  rewrite ret_run. do 2 f_equal.
  rewrite (Forall2_length _ _ _ Hreps). by rewrite newest_first_perm.
Qed.

End SessionStoreMore.

(** ** External sessions: the list of internal sessions and its pointer *)

Section ExternalSessionMore.
Import Store.

(** X16: the methods of [ExternalSession] keep the list of internal
    session ids free of duplicates and the current id inside the list.
    [add_internal_session] with an id that is in the list changes
    nothing (the id does not become current); with a new id it appends
    it and makes it current.  [set_current_internal_session] returns
    [True] exactly for an id of the list, and changes nothing when it
    returns [False]. *)
Theorem external_session_ids_invariant (self : ExternalRow) (agno_session_id : string) :
  ExternalSession.wf self →
  ExternalSession.wf (ExternalSession.add_internal_session self agno_session_id)
  ∧ ExternalSession.wf
      (ExternalSession.set_current_internal_session self agno_session_id).2
  ∧ (agno_session_id ∈ es_internal_session_ids self →
     ExternalSession.add_internal_session self agno_session_id = self)
  ∧ (agno_session_id ∉ es_internal_session_ids self →
     es_internal_session_ids (ExternalSession.add_internal_session self agno_session_id)
     = es_internal_session_ids self ++ [agno_session_id]
     ∧ es_current_internal_session_id
         (ExternalSession.add_internal_session self agno_session_id)
       = Some agno_session_id)
  ∧ ((ExternalSession.set_current_internal_session self agno_session_id).1 = true
     ↔ agno_session_id ∈ es_internal_session_ids self)
  ∧ ((ExternalSession.set_current_internal_session self agno_session_id).1 = false →
     (ExternalSession.set_current_internal_session self agno_session_id).2 = self)
  ∧ ((ExternalSession.set_current_internal_session self agno_session_id).1 = true →
     es_current_internal_session_id
       (ExternalSession.set_current_internal_session self agno_session_id).2
     = Some agno_session_id
     ∧ es_internal_session_ids
         (ExternalSession.set_current_internal_session self agno_session_id).2
       = es_internal_session_ids self).
Proof.
  intros [Hnd Hcur].
  unfold ExternalSession.add_internal_session, ExternalSession.set_current_internal_session,
    ExternalSession.wf.
  destruct (bool_decide_reflect (agno_session_id ∈ es_internal_session_ids self))
    as [Hin|Hin]; simpl.
  - repeat split; try done. intros a [= <-]. done.
  - repeat split; try done.
    + apply NoDup_app. split; [done|]. split; [|apply NoDup_singleton].
      intros x Hx ->%list_elem_of_singleton. done.
    + intros a [= <-]. apply elem_of_app. right. by apply list_elem_of_singleton.
Qed.

Lemma external_update_run (session : ExternalRow) (m : Machine) :
  es_id session ≠ 0%Z →
  ExternalSessionRepository.update session m
  = (Returned (bool_decide (is_Some (select_external_session (db m) (es_id session)))),
     mkMachine (pyheap m)
       (sql_update_external_session (db m)
          (ExternalSession.with_updated_at session (Some (clock m))))
       (clock m) (track m)).
Proof.
  intros Hid. unfold ExternalSessionRepository.update.
  rewrite bool_decide_eq_false_2 by done.
  rewrite bind_run. unfold now. rewrite bind_run. unfold get_db.
  rewrite bind_run. unfold put_db. by rewrite ret_run.
Qed.

(** The row found under an id after an [UPDATE ... WHERE id = ?]. *)
Lemma select_external_session_updated (d : Database) (new : ExternalRow) (id : Z) :
  select_external_session (sql_update_external_session d new) id
  = (λ r, if bool_decide (es_id r = es_id new)
          then mkExternalRow (es_id r) (es_user_id r) (es_session_name new)
                 (es_is_active new) (es_internal_session_ids new)
                 (es_current_internal_session_id new) (es_updated_at new)
          else r) <$> select_external_session d id.
Proof.
  unfold select_external_session, sql_update_external_session.
  cbn [external_sessions with_external_sessions rows].
  induction (rows (external_sessions d)) as [|r rs IH]; [done|].
  rewrite fmap_cons.
  destruct (decide (es_id r = id)) as [Hr|Hr].
  - rewrite !filter_cons_True; [done|done|]. by destruct (bool_decide _).
  - rewrite !filter_cons_False; [done|done|]. by destruct (bool_decide _).
Qed.

(** The repository method is the method of the object between a
    [get_by_id] and an [update]. *)
Lemma add_internal_session_unfold (external_session_id : Z) (agno_session_id : string)
    (m : Machine) :
  ExternalSessionRepository.add_internal_session external_session_id agno_session_id m
  = (session ← ExternalSessionRepository.get_by_id external_session_id;
     match session with
     | None => mret false
     | Some session =>
         ExternalSessionRepository.update
           (ExternalSession.add_internal_session session agno_session_id)
     end) m.
Proof.
  unfold ExternalSessionRepository.add_internal_session,
    ExternalSessionRepository.get_by_id, ExternalSessionRepository.update.
  rewrite !bind_run. unfold get_db. rewrite ret_run.
  destruct (select_external_session (db m) external_session_id) as [session|] eqn:Hs;
    [|done].
  unfold ExternalSession.add_internal_session.
  assert (Hfound : is_Some (select_external_session (db m) (es_id session))).
  { unfold select_external_session in Hs.
    apply head_filter_Some in Hs as (l1 & l2 & Hrows & Hid & _).
    rewrite Hid, <- Hid. unfold select_external_session. rewrite Hrows, filter_app.
    rewrite Hid. destruct (filter _ l1); simpl; [|by eexists].
    rewrite filter_cons_True by done. by eexists. }
  rewrite bind_run. unfold now.
  destruct (bool_decide (agno_session_id ∈ es_internal_session_ids session));
    cbn [es_id]; destruct (bool_decide (es_id session = 0)); try done;
    rewrite ?bind_run; unfold now, get_db, put_db; rewrite ?bind_run, ?ret_run;
    cbn [pyheap db clock track]; by rewrite bool_decide_eq_true_2.
Qed.

(** X17: [add_internal_session] of the repository returns [False] and
    changes nothing when no external session has the id; otherwise (ids
    are not 0) it returns [True], the external session is stored with the
    internal session in its list and [updated_at] set to now, and every
    other external session and the other tables are as before. *)
Theorem external_add_internal_session_contract (external_session_id : Z)
    (agno_session_id : string) (m : Machine) :
  external_session_id ≠ 0%Z →
  let out := ExternalSessionRepository.add_internal_session external_session_id
               agno_session_id m in
  match select_external_session (db m) external_session_id with
  | None => out = (Returned false, m)
  | Some session =>
      out.1 = Returned true
      ∧ select_external_session (db out.2) external_session_id
        = Some (ExternalSession.with_updated_at
                  (ExternalSession.add_internal_session session agno_session_id)
                  (Some (clock m)))
      ∧ (∀ id, id ≠ external_session_id →
           select_external_session (db out.2) id = select_external_session (db m) id)
      ∧ checkpoints (db out.2) = checkpoints (db m)
      ∧ internal_sessions (db out.2) = internal_sessions (db m)
      ∧ pyheap out.2 = pyheap m
  end.
Proof.
  intros Hne. cbv zeta. rewrite add_internal_session_unfold.
  unfold ExternalSessionRepository.get_by_id. rewrite !bind_run. unfold get_db.
  rewrite ret_run.
  destruct (select_external_session (db m) external_session_id) as [session|] eqn:Hs;
    [|done].
  assert (Hid : es_id session = external_session_id).
  { unfold select_external_session in Hs.
    by apply head_filter_Some in Hs as (l1 & l2 & _ & Hid & _). }
  assert (Hid' : es_id (ExternalSession.add_internal_session session agno_session_id)
                 = external_session_id).
  { unfold ExternalSession.add_internal_session. by destruct (bool_decide _). }
  rewrite external_update_run by (by rewrite Hid').
  cbn [fst snd pyheap db]. rewrite Hid', Hs.
  split; [by rewrite bool_decide_eq_true_2|].
  split.
  { rewrite select_external_session_updated, Hs. simpl.
    rewrite bool_decide_eq_true_2 by (by rewrite Hid, Hid'). f_equal.
    unfold ExternalSession.with_updated_at, ExternalSession.add_internal_session.
    by destruct (bool_decide _). }
  split; [|done]. intros id Hne'. rewrite select_external_session_updated.
  destruct (select_external_session (db m) id) as [r|] eqn:Hr; [|done]. simpl.
  assert (es_id r = id).
  { unfold select_external_session in Hr.
    by apply head_filter_Some in Hr as (l1 & l2 & _ & ? & _). }
  rewrite bool_decide_eq_false_2; [done|].
  unfold ExternalSession.with_updated_at. cbn [es_id]. congruence.
Qed.

(** X18: [set_current_internal_session] of the repository returns
    [True] exactly when the external session exists and the internal
    session is in its list; then the pointer is that internal session
    and the list is as it was; when it returns [False] nothing has
    changed. *)
Theorem external_set_current_internal_session_contract (external_session_id : Z)
    (agno_session_id : string) (m : Machine) :
  external_session_id ≠ 0%Z →
  let out := ExternalSessionRepository.set_current_internal_session external_session_id
               agno_session_id m in
  (out.1 = Returned true ↔
     ∃ session, select_external_session (db m) external_session_id = Some session
                ∧ agno_session_id ∈ es_internal_session_ids session)
  ∧ (out.1 = Returned false → out.2 = m)
  ∧ (∀ session, select_external_session (db m) external_session_id = Some session →
       agno_session_id ∈ es_internal_session_ids session →
       ∃ session', select_external_session (db out.2) external_session_id = Some session'
         ∧ es_current_internal_session_id session' = Some agno_session_id
         ∧ es_internal_session_ids session' = es_internal_session_ids session
         ∧ es_is_active session' = es_is_active session).
Proof.
  intros Hne. cbv zeta.
  unfold ExternalSessionRepository.set_current_internal_session,
    ExternalSessionRepository.get_by_id. rewrite !bind_run. unfold get_db.
  rewrite ret_run.
  destruct (select_external_session (db m) external_session_id) as [session|] eqn:Hs.
  2:{ rewrite ret_run. cbn [fst snd]. split; [|done]. split; [done|].
      intros (? & ? & _). done. }
  assert (Hid : es_id session = external_session_id).
  { unfold select_external_session in Hs.
    by apply head_filter_Some in Hs as (l1 & l2 & _ & Hid & _). }
  unfold ExternalSession.set_current_internal_session.
  destruct (bool_decide_reflect (agno_session_id ∈ es_internal_session_ids session))
    as [Hin|Hin].
  - rewrite external_update_run by (cbn [es_id]; congruence).
    cbn [fst snd es_id db]. rewrite Hid, Hs.
    rewrite bool_decide_eq_true_2 by done.
    split; [split; [eauto|done]|]. split; [done|].
    intros session0 [= <-] _. rewrite select_external_session_updated, Hs. simpl.
    rewrite bool_decide_eq_true_2 by done. eexists. split; [reflexivity|]. done.
  - rewrite ret_run. cbn [fst snd]. split.
    + split; [done|]. intros (session0 & [= <-] & ?). done.
    + split; [done|]. intros session0 [= <-] ?. done.
Qed.

Lemma owned_rows_updated (d : Database) (new : ExternalRow) (session_id user_id : Z) :
  length (filter (λ r, es_id r = session_id ∧ es_user_id r = user_id)
            (rows (external_sessions (sql_update_external_session d new))))
  = length (filter (λ r, es_id r = session_id ∧ es_user_id r = user_id)
              (rows (external_sessions d))).
Proof.
  unfold sql_update_external_session. cbn [external_sessions with_external_sessions rows].
  induction (rows (external_sessions d)) as [|r rs IH]; [done|].
  rewrite fmap_cons.
  destruct (decide (es_id r = session_id ∧ es_user_id r = user_id)) as [Hr|Hr].
  - rewrite !filter_cons_True; [|done|by destruct (bool_decide _)].
    cbn [length]. by rewrite IH.
  - rewrite !filter_cons_False; [done|done|by destruct (bool_decide _)].
Qed.

(** X25: [deactivate] is a soft delete.  It returns [False] and changes
    nothing when no external session has the id; otherwise (ids are not
    0) it returns [True] and the session is still stored under its id,
    inactive, with its list of internal sessions, its current one and
    its name as they were; who owns which session is as before, and so
    are the other external sessions, the internal sessions and the
    checkpoints. *)
Theorem external_deactivate_is_soft (session_id : Z) (m : Machine) :
  session_id ≠ 0%Z →
  let out := ExternalSessionRepository.deactivate session_id m in
  match select_external_session (db m) session_id with
  | None => out = (Returned false, m)
  | Some session =>
      out.1 = Returned true
      ∧ select_external_session (db out.2) session_id
        = Some (ExternalSession.with_updated_at
                  (ExternalSession.with_is_active session false) (Some (clock m)))
      ∧ (∀ id user_id,
           (ExternalSessionRepository.check_ownership id user_id out.2).1
           = (ExternalSessionRepository.check_ownership id user_id m).1)
      ∧ (∀ id, id ≠ session_id →
           select_external_session (db out.2) id = select_external_session (db m) id)
      ∧ checkpoints (db out.2) = checkpoints (db m)
      ∧ internal_sessions (db out.2) = internal_sessions (db m)
      ∧ pyheap out.2 = pyheap m
  end.
Proof.
  intros Hne. cbv zeta. unfold ExternalSessionRepository.deactivate,
    ExternalSessionRepository.get_by_id. rewrite !bind_run. unfold get_db.
  rewrite ret_run.
  destruct (select_external_session (db m) session_id) as [session|] eqn:Hs; [|done].
  assert (Hid : es_id session = session_id).
  { unfold select_external_session in Hs.
    by apply head_filter_Some in Hs as (l1 & l2 & _ & Hid & _). }
  rewrite bind_run. unfold now. cbv beta iota.
  rewrite external_update_run by (cbn [ExternalSession.with_updated_at
    ExternalSession.with_is_active es_id]; by rewrite Hid).
  cbn [fst snd pyheap db ExternalSession.with_updated_at ExternalSession.with_is_active
       es_id es_user_id es_session_name es_is_active es_internal_session_ids
       es_current_internal_session_id es_updated_at].
  rewrite Hid, Hs.
  split; [by rewrite bool_decide_eq_true_2|].
  split.
  { rewrite select_external_session_updated, Hs. simpl.
    by rewrite bool_decide_eq_true_2. }
  split.
  { intros id user_id. unfold ExternalSessionRepository.check_ownership.
    rewrite !bind_run. unfold get_db. rewrite !ret_run. cbn [fst snd db].
    by rewrite owned_rows_updated. }
  split; [|done]. intros id Hne'. rewrite select_external_session_updated.
  destruct (select_external_session (db m) id) as [r|] eqn:Hr; [|done]. simpl.
  assert (es_id r = id).
  { unfold select_external_session in Hr.
    by apply head_filter_Some in Hr as (l1 & l2 & _ & ? & _). }
  rewrite bool_decide_eq_false_2; [done|]. congruence.
Qed.

End ExternalSessionMore.

(** ** The agent's other tools and the service *)

Section AgentMore.
Import Py Store.

Local Arguments Py.json_dumps : simpl never.
Local Arguments Py.json_loads : simpl never.

Local Abbreviation grow m g := (mkMachine (pyheap m ++ g) (db m) (clock m) (track m)).

(** X19: the tools after which the agent makes no automatic checkpoint
    are among the tools the registry never reverses: [_is_checkpoint_tool]
    accepts exactly the reserved names of the protocol other than
    "save_checkpoint" and "checkpoint", after which an automatic
    checkpoint is made as after any other tool. *)
Theorem is_checkpoint_tool_reserved (tool_name : option string) :
  RollbackAgent._is_checkpoint_tool tool_name = true
  ↔ ∃ n, tool_name = Some n
         ∧ n ∈ Protocol.CHECKPOINT_TOOL_NAMES
         ∧ n ≠ "save_checkpoint" ∧ n ≠ "checkpoint".
Proof.
  unfold RollbackAgent._is_checkpoint_tool.
  destruct tool_name as [n|]; [|split; [done|by intros (? & ? & _)]].
  unfold RollbackAgent.checkpoint_tool_names, Protocol.CHECKPOINT_TOOL_NAMES.
  destruct (bool_decide_reflect (n = "")) as [->|Hne].
  - split; [done|]. intros (n & [= <-] & Hin & _).
    rewrite !elem_of_cons, elem_of_nil in Hin.
    destruct Hin as [?|[?|[?|[?|[?|[?|[?|[?|[]]]]]]]]]; discriminate.
  - rewrite bool_decide_eq_true, !elem_of_cons, elem_of_nil. split.
    + intros [->|[->|[->|[->|[->|[->|[]]]]]]];
        (eexists; split; [reflexivity|]);
        rewrite !elem_of_cons; (split; [tauto|]); split; discriminate.
    + intros (n' & [= <-] & Hin & Hn1 & Hn2).
      rewrite !elem_of_cons, elem_of_nil in Hin. tauto.
Qed.

(** X20: [delete_checkpoint_tool] deletes a checkpoint only when it
    belongs to the agent's own session.  For an id that no checkpoint
    has, and for the checkpoint of another session, the store is left as
    it is; for a checkpoint of the agent's session the row is deleted and
    every other checkpoint is found as before. *)
Theorem delete_checkpoint_tool_guard (self : RollbackAgent.t) (s : InternalSession.t)
    (checkpoint_id : Z) (m : Machine) :
  RollbackAgent.checkpoint_repo self = true →
  RollbackAgent.internal_session self = Some s →
  let out := RollbackAgent.delete_checkpoint_tool self checkpoint_id m in
  match select_checkpoint (db m) checkpoint_id with
  | None => out = (Returned (RollbackAgent.DeleteNotFound checkpoint_id), m)
  | Some row =>
      if bool_decide (Some (cp_internal_session_id row) = InternalSession.id s)
      then out.1 = Returned (RollbackAgent.Deleted checkpoint_id)
           ∧ select_checkpoint (db out.2) checkpoint_id = None
           ∧ (∀ id, id ≠ checkpoint_id →
                select_checkpoint (db out.2) id = select_checkpoint (db m) id)
      else out.1 = Returned RollbackAgent.DeleteForeign ∧ db out.2 = db m
  end.
Proof.
  intros Hrepo Hs. cbv zeta. unfold RollbackAgent.delete_checkpoint_tool.
  rewrite Hrepo. cbn [negb]. rewrite bind_run.
  destruct (checkpoint_get_by_id_run checkpoint_id m)
    as [[-> ->]|(row & cp & g & Hrow & -> & Hrep)]; [by rewrite ret_run|].
  rewrite Hrow. destruct Hrep as (_ & Hsid & _).
  unfold RollbackAgent.the_session. rewrite Hs, bind_run, ret_run, Hsid.
  destruct (bool_decide_reflect (Some (cp_internal_session_id row) = InternalSession.id s))
    as [Heq|Hne].
  - rewrite bool_decide_eq_false_2 by (by intros ?). rewrite bind_run.
    pose proof (checkpoint_delete_contract_run checkpoint_id (grow m g)) as Hdel.
    cbv zeta in Hdel. destruct Hdel as (Hret & Hnone & Hothers).
    destruct (CheckpointRepository.delete checkpoint_id (grow m g)) as [o m'] eqn:Hd.
    cbn [fst snd] in *. subst o. rewrite ret_run. cbn [fst snd].
    rewrite bool_decide_eq_true_2.
    + split; [done|]. split; [done|]. exact Hothers.
    + cbn [db]. by rewrite Hrow.
  - rewrite bool_decide_eq_true_2 by done. rewrite ret_run. done.
Qed.

(** X21: a rollback to a checkpoint that does not exist: the service
    catches the [ValueError] of [from_checkpoint] and returns [None];
    no session is created, nothing is written, and the tools of the
    current agent are not reversed. *)
Theorem rollback_to_missing_checkpoint
    (rollback_tools_from_track_index : RollbackAgent.t → pyval → M unit)
    (current_agent : option RollbackAgent.t) (external_session_id checkpoint_id : Z)
    (agno_session_id : string) (rollback_tools : bool) (m : Machine) :
  select_checkpoint (db m) checkpoint_id = None →
  AgentService.rollback_to_checkpoint rollback_tools_from_track_index current_agent
    external_session_id checkpoint_id agno_session_id rollback_tools m
  = (Returned None, m).
Proof.
  intros Hnone.
  assert (Hget : CheckpointRepository.get_by_id checkpoint_id m = (Returned None, m)).
  { destruct (checkpoint_get_by_id_run checkpoint_id m)
      as [[_ ->]|(row & cp & g & Hrow & _)]; [done|congruence]. }
  unfold AgentService.rollback_to_checkpoint, AgentService.except_ValueError.
  rewrite bind_run.
  assert (Hfirst : match current_agent with
                   | Some agent =>
                       if rollback_tools
                       then
                         checkpoint ← CheckpointRepository.get_by_id checkpoint_id;
                         position ← AgentService.tool_track_position checkpoint;
                         match position with
                         | Some tool_track_position =>
                             rollback_tools_from_track_index agent tool_track_position
                         | None => mret tt
                         end
                       else mret tt
                   | None => mret tt
                   end m = (Returned tt, m)).
  { destruct current_agent as [agent|]; [|done]. destruct rollback_tools; [|done].
    rewrite bind_run, Hget. done. }
  rewrite Hfirst. unfold RollbackAgent.from_checkpoint. cbn [negb].
  rewrite bind_run, Hget. done.
Qed.

(** X22: [resume_agent] on a stored session.  When the external
    session exists and the internal session asked for (by id, or the
    current one of the external session when no id is given) is stored,
    the agent returned carries that session as loaded from its row, takes
    over its [agno_session_id], and has the session's state object as its
    own [session_state]; nothing is written to the store.  The session is
    looked up by its id alone: that it belongs to the external session
    is not checked. *)
Theorem resume_agent_resumes_stored_session (external_session_id : Z)
    (internal_session_id : option Z) (agno_session_id : string) (m : Machine)
    (external : ExternalRow) (row : SessionRow) :
  select_external_session (db m) external_session_id = Some external →
  match truthy_id internal_session_id with
  | Some id => select_session (db m) id
  | None => select_current_session (db m) external_session_id
  end = Some row →
  ∃ agent s g,
    AgentService.resume_agent external_session_id internal_session_id agno_session_id m
    = (Returned (Some agent), grow m g)
    ∧ RollbackAgent.internal_session agent = Some s
    ∧ InternalSessionRepository.represents (pyheap m ++ g) s row
    ∧ RollbackAgent.external_session_id agent = external_session_id
    ∧ RollbackAgent.agno_session_id agent = s_agno_session_id row
    ∧ RollbackAgent.session_state agent = InternalSession.session_state s.
Proof.
  intros Hext Hrow. unfold AgentService.resume_agent, ExternalSessionRepository.get_by_id.
  rewrite !bind_run. unfold get_db at 1. rewrite ret_run, Hext.
  assert (Hload : ∃ s g,
            match truthy_id internal_session_id with
            | Some id => InternalSessionRepository.get_by_id id
            | None => InternalSessionRepository.get_current_session external_session_id
            end m = (Returned (Some s), grow m g)
            ∧ InternalSessionRepository.represents (pyheap m ++ g) s row).
  { destruct (truthy_id internal_session_id) as [id|].
    - pose proof (session_lookup_run (λ d, select_session d id) m) as Hl.
      cbv beta in Hl. rewrite Hrow in Hl. destruct Hl as (s & g & _ & Hget & Hrep).
      by exists s, g.
    - pose proof (session_lookup_run
                    (λ d, select_current_session d external_session_id) m) as Hl.
      cbv beta in Hl. rewrite Hrow in Hl. destruct Hl as (s & g & _ & Hget & Hrep).
      by exists s, g. }
  destruct Hload as (s & g & Hget & Hrep). rewrite bind_run, Hget.
  unfold RollbackAgent.init. rewrite !bind_run, py_new_run, !ret_run.
  cbn [pyheap db clock track].
  eexists _, s, (g ++ [PList []]). rewrite app_assoc. split; [reflexivity|].
  cbn. split; [done|]. split; [by apply session_represents_app|].
  destruct Hrep as (_ & _ & Hagno & _). done.
Qed.

Lemma py_get_run (l : loc) (kvs : list (string * pyval)) (k : string) (m : Machine) :
  pyheap m !! l = Some (PDict kvs) →
  py_get (PRef l) k m = (Returned (default PNone (dict_get kvs k)), m).
Proof. intros H. unfold py_get, getitem_or_None. by rewrite H. Qed.

Lemma handle_agent_response_requested (agent : RollbackAgent.t) (l : loc)
    (kvs : list (string * pyval)) (requested checkpoint_id : pyval) (m : Machine) :
  RollbackAgent.session_state agent = PRef l →
  pyheap m !! l = Some (PDict kvs) →
  dict_get kvs "rollback_requested" = Some requested →
  truthy (pyheap m) requested = true →
  dict_get kvs "rollback_checkpoint_id" = Some checkpoint_id →
  truthy (pyheap m) checkpoint_id = true →
  AgentService.handle_agent_response agent m
  = let saved :=
      RollbackAgent._save_internal_session agent
        (mkMachine
           (<[l := PDict (dict_set kvs "rollback_requested" (PBool false))]> (pyheap m))
           (db m) (clock m) (track m)) in
    (match saved.1 with Returned _ => Returned true | Raised e => Raised e end, saved.2).
Proof.
  intros Hstate Hl Hreq Htr Hcid Htc.
  unfold AgentService.handle_agent_response. rewrite Hstate.
  rewrite bind_run, (py_get_run l kvs) by done. rewrite Hreq. cbn [default from_option id].
  rewrite bind_run. unfold get_heap at 1. rewrite Htr.
  rewrite bind_run, (py_get_run l kvs) by done. rewrite Hcid. cbn [default from_option id].
  rewrite bind_run. unfold get_heap at 1. rewrite Htc.
  rewrite bind_run, py_setitem_run. unfold setitem. rewrite Hl.
  rewrite bind_run. cbv zeta.
  by destruct (RollbackAgent._save_internal_session agent _) as [[[]|e] m2].
Qed.

Lemma handle_agent_response_not_requested (agent : RollbackAgent.t) (l : loc)
    (kvs : list (string * pyval)) (m : Machine) :
  RollbackAgent.session_state agent = PRef l →
  pyheap m !! l = Some (PDict kvs) →
  truthy (pyheap m) (default PNone (dict_get kvs "rollback_requested")) = false →
  AgentService.handle_agent_response agent m = (Returned false, m).
Proof.
  intros Hstate Hl Hreq.
  unfold AgentService.handle_agent_response. rewrite Hstate.
  rewrite bind_run, (py_get_run l kvs) by done.
  rewrite bind_run. unfold get_heap at 1. by rewrite Hreq.
Qed.

(** X23: a rollback request is taken up once.  When the agent's state
    holds a true [rollback_requested] and a true
    [rollback_checkpoint_id], [handle_agent_response] sets the flag to
    [False], keeps the id and every other key, writes no checkpoint, and
    returns [True] unless saving the session raises; asked again, it
    returns [False] and changes nothing. *)
Theorem handle_agent_response_consumes_request (agent : RollbackAgent.t) (l : loc)
    (kvs : list (string * pyval)) (requested checkpoint_id : pyval) (m : Machine) :
  RollbackAgent.session_state agent = PRef l →
  pyheap m !! l = Some (PDict kvs) →
  dict_get kvs "rollback_requested" = Some requested →
  truthy (pyheap m) requested = true →
  dict_get kvs "rollback_checkpoint_id" = Some checkpoint_id →
  truthy (pyheap m) checkpoint_id = true →
  let out := AgentService.handle_agent_response agent m in
  (out.1 = Returned true ∨ ∃ e, out.1 = Raised e)
  ∧ pyheap out.2
    = <[l := PDict (dict_set kvs "rollback_requested" (PBool false))]> (pyheap m)
  ∧ (∀ k, k ≠ "rollback_requested" →
          getitem_or_None (PRef l) k (pyheap out.2)
          = getitem_or_None (PRef l) k (pyheap m))
  ∧ checkpoints (db out.2) = checkpoints (db m)
  ∧ AgentService.handle_agent_response agent out.2 = (Returned false, out.2).
Proof.
  intros Hstate Hl Hreq Htr Hcid Htc. cbv zeta.
  assert (Hlt : (l < length (pyheap m))%nat) by (by eapply lookup_lt_Some).
  rewrite (handle_agent_response_requested agent l kvs requested checkpoint_id m)
    by done.
  cbv zeta.
  set (h1 := <[l := PDict (dict_set kvs "rollback_requested" (PBool false))]> (pyheap m)).
  set (m1 := mkMachine h1 (db m) (clock m) (track m)).
  pose proof (save_internal_session_frame agent m1) as Hframe. cbv zeta in Hframe.
  destruct Hframe as (Hcp & _ & Hheap & _).
  set (saved := RollbackAgent._save_internal_session agent m1) in *.
  cbn [fst snd].
  assert (Hl2 : pyheap saved.2 !! l
                = Some (PDict (dict_set kvs "rollback_requested" (PBool false)))).
  { rewrite Hheap. unfold m1, h1. cbn [pyheap]. by apply list_lookup_insert_eq. }
  split.
  { destruct (saved.1) as [[]|e]; [by left|right; by eexists]. }
  split; [exact Hheap|].
  split.
  { intros k Hk. unfold getitem_or_None. rewrite Hl2, Hl.
    by rewrite dict_get_set_ne. }
  split; [exact Hcp|].
  apply (handle_agent_response_not_requested agent l _ _ Hstate Hl2).
  by rewrite dict_get_set_eq.
Qed.

Lemma rstrip_slash_no_trailing_slash (s : string) :
  PyStr.ends_with_slash (PyStr.rstrip PyStr.is_slash s) = false.
Proof.
  induction s as [|a rest IH]; [done|]. cbn [PyStr.rstrip].
  destruct (PyStr.rstrip PyStr.is_slash rest) as [|b rest'] eqn:Hrest.
  - destruct (PyStr.is_slash a) eqn:Ha; [done|]. cbn. by rewrite Ha.
  - exact IH.
Qed.

Lemma ends_with_slash_append (s t : string) :
  t ≠ "" → PyStr.ends_with_slash (String.append s t) = PyStr.ends_with_slash t.
Proof.
  intros Ht. induction s as [|a rest IH]; [done|].
  change (String.append (String a rest) t) with (String a (String.append rest t)).
  destruct (String.append rest t) as [|b u] eqn:Hu.
  - destruct rest, t; done.
  - exact IH.
Qed.

(** X24: [_sanitize_base_url] returns [None] exactly when there is no
    URL or nothing is left of it once surrounding white space and
    trailing slashes are removed; otherwise the result is what is left,
    with [https://] put in front unless it already starts with
    [http://] or [https://], so it always carries a scheme and never
    ends with a slash. *)
Theorem sanitize_base_url_contract (raw_url : option string) :
  let body := PyStr.rstrip PyStr.is_slash (PyStr.strip (default "" raw_url)) in
  match AgentService._sanitize_base_url raw_url with
  | None => body = ""
  | Some url =>
      body ≠ ""
      ∧ url = (if String.prefix "http://" body || String.prefix "https://" body
               then body else String.append "https://" body)
      ∧ String.prefix "http://" url || String.prefix "https://" url = true
      ∧ PyStr.ends_with_slash url = false
  end.
Proof.
  cbv zeta. unfold AgentService._sanitize_base_url.
  destruct raw_url as [raw|]; [|done]. cbn [default from_option id].
  case_bool_decide as Hraw; [by subst|].
  pose proof (rstrip_slash_no_trailing_slash (PyStr.strip raw)) as Hend.
  destruct (PyStr.rstrip PyStr.is_slash (PyStr.strip raw)) as [|a body] eqn:Hbody; [done|].
  rewrite bool_decide_eq_false_2 by done.
  destruct (String.prefix "http://" (String a body) || String.prefix "https://" (String a body))
    eqn:Hscheme.
  - done.
  - split; [done|]. split; [done|]. split; [done|].
    by rewrite ends_with_slash_append.
Qed.

(** X26: building an agent with a session repository for a stored
    external session, under a new [agno_session_id] and with a state
    that can be serialised: the agent holds a new internal session with
    the next id, that session is the one current session of the
    external session, the external session has it in its list (and as
    its current one, the id being new to the list), and no checkpoint
    is written. *)
Theorem agent_init_creates_current_session (external_session_id : Z)
    (agno_session_id : string) (auto_checkpoint checkpoint_repo : bool)
    (session_state : option pyval) (j : json) (external : ExternalRow) (m : Machine) :
  external_session_id ≠ 0%Z →
  select_external_session (db m) external_session_id = Some external →
  json_dumps (pyheap m) (default PNone session_state) = Some j →
  agno_session_id ∉ s_agno_session_id <$> rows (internal_sessions (db m)) →
  let new_id := (seq (internal_sessions (db m)) + 1)%Z in
  ∃ agent s m',
    RollbackAgent.init external_session_id agno_session_id auto_checkpoint true
      checkpoint_repo false session_state m
    = (Returned agent, m')
    ∧ RollbackAgent.internal_session agent = Some s
    ∧ InternalSession.id s = Some new_id
    ∧ InternalSession.agno_session_id s = agno_session_id
    ∧ InternalSession.is_current s = true
    ∧ (λ r, (s_id r, s_agno_session_id r))
        <$> current_sessions (db m') external_session_id
      = [(new_id, agno_session_id)]
    ∧ select_external_session (db m') external_session_id
      = Some (ExternalSession.with_updated_at
                (ExternalSession.add_internal_session external agno_session_id)
                (Some (clock m)))
    ∧ checkpoints (db m') = checkpoints (db m).
Proof.
  intros Hne Hext Hj Hnew new_id.
  unfold RollbackAgent.init. rewrite bind_run, py_new_run.
  set (self := RollbackAgent.mk _ _ _ _ _ _ _ _ _ _ _).
  set (m1 := mkMachine (pyheap m ++ [PList []]) (db m) (clock m) (track m)).
  destruct (create_internal_session_run self j m1 eq_refl) as (state & history & g & j' & Hc).
  { by apply json_dumps_app. }
  { exact Hnew. }
  cbv zeta in Hc. rewrite bind_run, Hc. clear Hc.
  cbn [pyheap db clock track m1 self RollbackAgent.external_session_id
       RollbackAgent.agno_session_id].
  set (d0 := sql_mark_not_current (db m) external_session_id None).
  set (row := mkSessionRow _ _ _ _ _ _ _ _).
  set (d1 := with_internal_sessions d0 _).
  assert (Hext1 : select_external_session d1 external_session_id = Some external).
  { rewrite <- Hext. unfold select_external_session, d1, d0, sql_mark_not_current,
      map_sessions. by destruct (db m). }
  assert (Hid : es_id external = external_session_id).
  { unfold select_external_session in Hext.
    by apply head_filter_Some in Hext as (l1 & l2 & _ & Hid & _). }
  assert (Hid' : es_id (ExternalSession.add_internal_session external agno_session_id)
                 = external_session_id).
  { unfold ExternalSession.add_internal_session. by destruct (bool_decide _). }
  rewrite bind_run. unfold RollbackAgent._register_with_external_session.
  rewrite bind_run, add_internal_session_unfold.
  cbn [RollbackAgent.with_internal_session RollbackAgent.external_session_id
       RollbackAgent.agno_session_id].
  unfold ExternalSessionRepository.get_by_id. rewrite !bind_run. unfold get_db at 1.
  rewrite ret_run. cbn [db].
  change (RollbackAgent.external_session_id self) with external_session_id.
  change (RollbackAgent.agno_session_id self) with agno_session_id.
  rewrite Hext1.
  rewrite external_update_run by (by rewrite Hid').
  rewrite !ret_run. cbn [pyheap db clock track].
  eexists _, _, _. split; [reflexivity|]. cbn [RollbackAgent.internal_session].
  split; [reflexivity|]. split; [reflexivity|]. split; [reflexivity|].
  split; [reflexivity|].
  split.
  { unfold current_sessions, sql_update_external_session, d1.
    cbn [db internal_sessions with_external_sessions with_internal_sessions rows].
    rewrite filter_app.
    destruct (sql_mark_not_current_none (db m) external_session_id None) as [Hnone _];
      [done|].
    unfold current_sessions in Hnone. fold d0 in Hnone. rewrite Hnone.
    rewrite filter_cons_True by done. done. }
  split; [|by destruct (db m)].
  cbn [db]. rewrite select_external_session_updated, Hext1. simpl.
  rewrite bool_decide_eq_true_2 by (by rewrite Hid, Hid'). f_equal.
  unfold ExternalSession.with_updated_at, ExternalSession.add_internal_session.
  by destruct (bool_decide _).
Qed.

End AgentMore.

(** ** The properties at concrete inputs *)

Section CounterScenarioFacts.
Import Protocol Registry CounterScenario.

Lemma counter_tools_undoable : undoable (_tools registry0).
Proof.
  assert (Htools : _tools registry0 = <["add" := add_spec]> ∅) by reflexivity.
  intros n spec Hn. rewrite Htools in Hn.
  apply lookup_insert_Some in Hn as [[<- <-]|[_ Hn]]; [|by rewrite lookup_empty in Hn].
  cbn. exists subtract. split; [done|]. intros a w. unfold add, subtract.
  destruct (a <? 0)%Z; cbn; lia.
Qed.

(** X3, witness: four calls through the adapter, one refused and one to
    a tool that is not registered, take the counter from 10 to 15;
    [rollback] takes it back to 10. *)
Lemma rollback_undoes_executed_calls_witness :
  let st := execute_all module0 registry0 calls 10%Z in
  st.2 = 15%Z ∧ (rollback st.1 st.2).2 = 10%Z.
Proof.
  split; [vm_compute; reflexivity|].
  exact (proj2 (proj2 (rollback_undoes_executed_calls module0 registry0 calls 10%Z
                         counter_tools_undoable)) eq_refl).
Defined.

End CounterScenarioFacts.

Section StoreScenarioFacts.
Import Py Store StoreScenario.

Local Abbreviation grow m g := (mkMachine (pyheap m ++ g) (db m) (clock m) (track m)).

Lemma machine0_checkpoint_ids (r : CheckpointRow) :
  r ∈ rows (checkpoints (db machine0)) → (cp_id r ≤ seq (checkpoints (db machine0)))%Z.
Proof.
  intros Hr. cbn in Hr.
  repeat (apply elem_of_cons in Hr as [->|Hr]; [cbn; lia|]). by apply elem_of_nil in Hr.
Qed.

Lemma machine0_session_ids (r : SessionRow) :
  r ∈ rows (internal_sessions (db machine0)) →
  (s_id r ≤ seq (internal_sessions (db machine0)))%Z.
Proof.
  intros Hr. cbn in Hr.
  repeat (apply elem_of_cons in Hr as [->|Hr]; [cbn; lia|]). by apply elem_of_nil in Hr.
Qed.

Lemma external_row1_wf : ExternalSession.wf external_row1.
Proof.
  split.
  - cbn. apply NoDup_cons. split; [|apply NoDup_singleton].
    intros Hin. apply elem_of_cons in Hin as [?|Hin]; [done|].
    by apply elem_of_nil in Hin.
  - cbn. intros a [= <-]. apply elem_of_cons. right. apply elem_of_cons. by left.
Qed.

(** X6, witness: a manual checkpoint for session 2 gets id 4 and is
    loaded again as stored. *)
Lemma checkpoint_create_then_get_by_id_witness :
  ∃ saved m1,
    CheckpointRepository.create new_checkpoint machine0 = (Returned saved, m1)
    ∧ Checkpoint.id saved = Some 4%Z
    ∧ ∃ loaded g,
        CheckpointRepository.get_by_id 4 m1 = (Returned (Some loaded), grow m1 g)
        ∧ RollbackAgent.represents (pyheap m1 ++ g) loaded
            (mkCheckpointRow 4 2 (Some "Manual") (JDict [("counter", JInt 0)]) (JList [])
               false 200 (JDict [])).
Proof.
  destruct (checkpoint_create_then_get_by_id new_checkpoint 2 (JDict [("counter", JInt 0)])
              (JList []) (JDict []) machine0 eq_refl eq_refl eq_refl eq_refl
              machine0_checkpoint_ids)
    as (saved & m1 & Hcreate & Hid & _ & _ & Hload).
  exists saved, m1. split; [exact Hcreate|]. split; [exact Hid|].
  exact (Hload m1 eq_refl).
Defined.

(** X10, witness: the store with ten automatic and three manual
    checkpoints in session 1, cleaned up to the five latest. *)
Lemma count_checkpoints_after_cleanup_witness :
  ∃ before after deleted m',
    CheckpointRepository.count_checkpoints 1 PruneScenario.machine0
    = (Returned before, PruneScenario.machine0)
    ∧ CheckpointRepository.delete_auto_checkpoints 1 5 PruneScenario.machine0
      = (Returned deleted, m')
    ∧ CheckpointRepository.count_checkpoints 1 m' = (Returned after, m')
    ∧ CheckpointRepository.count_total before
      = (CheckpointRepository.count_auto before
         + CheckpointRepository.count_manual before)%nat
    ∧ CheckpointRepository.count_total after
      = (CheckpointRepository.count_auto after
         + CheckpointRepository.count_manual after)%nat
    ∧ CheckpointRepository.count_manual after = CheckpointRepository.count_manual before
    ∧ CheckpointRepository.count_auto after
      = Nat.min (Z.to_nat 5) (CheckpointRepository.count_auto before)
    ∧ deleted = (CheckpointRepository.count_auto before
                 - CheckpointRepository.count_auto after)%nat.
Proof.
  apply (count_checkpoints_after_cleanup 1 5 PruneScenario.machine0).
  - lia.
  - refine (bool_decide_unpack _ _). vm_compute. exact I.
Defined.

(** The counts of that store, evaluated: thirteen checkpoints, ten of
    them automatic, before; eight, five of them automatic, after. *)
Example cleanup_counts :
  let out := CheckpointRepository.delete_auto_checkpoints 1 5 PruneScenario.machine0 in
  (CheckpointRepository.count_checkpoints 1 PruneScenario.machine0).1
  = Returned (CheckpointRepository.mkCounts 13 10 3)
  ∧ out.1 = Returned 5%nat
  ∧ (CheckpointRepository.count_checkpoints 1 out.2).1
    = Returned (CheckpointRepository.mkCounts 8 5 3).
Proof. vm_compute. done. Qed.

(** X11, witness: a third session, created current, is found by its
    id, by its [agno_session_id] and as the current session. *)
Lemma session_create_then_lookup_witness :
  ∃ saved m1,
    InternalSessionRepository.create new_session machine0 = (Returned saved, m1)
    ∧ InternalSession.id saved = Some 3%Z
    ∧ ∃ loaded g,
        InternalSessionRepository.get_by_id 3 m1 = (Returned (Some loaded), grow m1 g)
        ∧ InternalSessionRepository.get_by_agno_session_id "agno_c" m1
          = (Returned (Some loaded), grow m1 g)
        ∧ InternalSessionRepository.get_current_session 1 m1
          = (Returned (Some loaded), grow m1 g).
Proof.
  assert (Hfresh : InternalSession.agno_session_id new_session
                   ∉ s_agno_session_id <$> rows (internal_sessions (db machine0))).
  { cbn. intros Hin. repeat (apply elem_of_cons in Hin as [?|Hin]; [done|]).
    by apply elem_of_nil in Hin. }
  destruct (session_create_then_lookup new_session (JDict [("counter", JInt 0)]) (JList [])
              machine0 eq_refl eq_refl Hfresh machine0_session_ids)
    as (saved & m1 & Hcreate & Hid & _ & Hload).
  exists saved, m1. split; [exact Hcreate|]. split; [exact Hid|].
  destruct (Hload m1 eq_refl) as (loaded & g & Hget & _ & Hagno & Hcur).
  exists loaded, g. split; [exact Hget|]. split; [exact Hagno|]. exact (Hcur eq_refl).
Defined.

(** X12, witness: a session with the [agno_session_id] of session 1 is
    refused, and external session 1 is left without a current
    session. *)
Lemma session_create_duplicate_agno_witness :
  ∃ e m',
    InternalSessionRepository.create duplicate_session machine0 = (Raised e, m')
    ∧ String.prefix "IntegrityError" e = true
    ∧ select_current_session (db machine0) 1 = Some session_row2
    ∧ select_current_session (db m') 1 = None.
Proof.
  assert (Hdup : InternalSession.agno_session_id duplicate_session
                 ∈ s_agno_session_id <$> rows (internal_sessions (db machine0))).
  { cbn. apply elem_of_cons. by left. }
  destruct (session_create_duplicate_agno duplicate_session (JDict [("counter", JInt 0)])
              (JList []) machine0 eq_refl eq_refl Hdup)
    as (e & m' & Hcreate & He & _ & _ & _ & Hcur & _).
  exists e, m'. split; [exact Hcreate|]. split; [exact He|]. split; [reflexivity|].
  exact (proj2 (Hcur eq_refl)).
Defined.

(** X13, witness: saving a session object whose row 7 does not exist
    returns [False] and leaves external session 1 without a current
    session. *)
Lemma session_update_missing_row_witness :
  ∃ m',
    InternalSessionRepository.update deleted_session machine0 = (Returned false, m')
    ∧ current_sessions (db m') 1 = [].
Proof.
  destruct (session_update_missing_row deleted_session 7 (JDict [("counter", JInt 0)])
              (JList []) machine0 eq_refl eq_refl eq_refl eq_refl)
    as (m' & Hupdate & _ & _ & Hcur & _).
  exists m'. split; [exact Hupdate|]. exact (proj2 (Hcur eq_refl)).
Defined.

(** X16, witness: the external session of the scenario, with a third
    internal session added, and with the first one made current. *)
Lemma external_session_ids_invariant_witness :
  ExternalSession.wf (ExternalSession.add_internal_session external_row1 "agno_c")
  ∧ ExternalSession.wf
      (ExternalSession.set_current_internal_session external_row1 "agno_a").2.
Proof.
  split.
  - exact (proj1 (external_session_ids_invariant external_row1 "agno_c" external_row1_wf)).
  - exact (proj1 (proj2 (external_session_ids_invariant external_row1 "agno_a"
                           external_row1_wf))).
Defined.

(** X17, witness: a third internal session is added to external
    session 1 and becomes its current one. *)
Lemma external_add_internal_session_contract_witness :
  let out := ExternalSessionRepository.add_internal_session 1 "agno_c" machine0 in
  out.1 = Returned true
  ∧ select_external_session (db out.2) 1
    = Some (mkExternalRow 1 1 "Project Discussion" true ["agno_a"; "agno_b"; "agno_c"]
              (Some "agno_c") (Some 200)).
Proof.
  assert (Hne : (1 ≠ 0)%Z) by lia.
  pose proof (external_add_internal_session_contract 1 "agno_c" machine0 Hne) as H.
  cbv zeta in H.
  change (select_external_session (db machine0) 1) with (Some external_row1) in H.
  destruct H as (H1 & H2 & _). split; [exact H1|exact H2].
Defined.

(** X25, witness: external session 1 deactivated: it is still
    stored, inactive, with both internal sessions, and user 1 still
    owns it. *)
Lemma external_deactivate_is_soft_witness :
  let out := ExternalSessionRepository.deactivate 1 machine0 in
  out.1 = Returned true
  ∧ select_external_session (db out.2) 1
    = Some (mkExternalRow 1 1 "Project Discussion" false ["agno_a"; "agno_b"]
              (Some "agno_b") (Some 200))
  ∧ (ExternalSessionRepository.check_ownership 1 1 out.2).1 = Returned true.
Proof.
  assert (Hne : (1 ≠ 0)%Z) by lia.
  pose proof (external_deactivate_is_soft 1 machine0 Hne) as H.
  cbv zeta in H.
  change (select_external_session (db machine0) 1) with (Some external_row1) in H.
  destruct H as (H1 & H2 & H3 & _). split; [exact H1|]. split; [exact H2|].
  rewrite H3. reflexivity.
Defined.

(** X18, witness: the first internal session is made current again. *)
Lemma external_set_current_internal_session_contract_witness :
  let out := ExternalSessionRepository.set_current_internal_session 1 "agno_a" machine0 in
  out.1 = Returned true
  ∧ ∃ session', select_external_session (db out.2) 1 = Some session'
      ∧ es_current_internal_session_id session' = Some "agno_a"
      ∧ es_internal_session_ids session' = ["agno_a"; "agno_b"].
Proof.
  assert (Hne : (1 ≠ 0)%Z) by lia.
  assert (Hin : "agno_a" ∈ es_internal_session_ids external_row1) by (cbn; apply elem_of_cons; by left).
  destruct (external_set_current_internal_session_contract 1 "agno_a" machine0 Hne)
    as (Hiff & _ & Hset).
  split.
  - apply Hiff. exists external_row1. split; [reflexivity|exact Hin].
  - destruct (Hset external_row1 eq_refl Hin) as (session' & Hsel & Hcur & Hids & _).
    exists session'. split; [exact Hsel|]. split; [exact Hcur|exact Hids].
Defined.

(** X20, witness: the agent on session 2 deletes checkpoint 3, which is
    its own, and is refused checkpoint 1 of session 1. *)
Lemma delete_checkpoint_tool_guard_witness :
  let own := RollbackAgent.delete_checkpoint_tool agent 3 machine0 in
  let foreign := RollbackAgent.delete_checkpoint_tool agent 1 machine0 in
  (own.1 = Returned (RollbackAgent.Deleted 3)
   ∧ select_checkpoint (db own.2) 3 = None)
  ∧ (foreign.1 = Returned RollbackAgent.DeleteForeign ∧ db foreign.2 = db machine0).
Proof.
  pose proof (delete_checkpoint_tool_guard agent session2 3 machine0 eq_refl eq_refl)
    as Hown.
  pose proof (delete_checkpoint_tool_guard agent session2 1 machine0 eq_refl eq_refl)
    as Hforeign.
  cbv zeta in Hown, Hforeign.
  change (select_checkpoint (db machine0) 3) with (Some checkpoint_row3) in Hown.
  change (select_checkpoint (db machine0) 1) with (Some checkpoint_row1) in Hforeign.
  cbv iota beta in Hown, Hforeign.
  rewrite bool_decide_eq_true_2 in Hown by reflexivity.
  rewrite bool_decide_eq_false_2 in Hforeign by discriminate.
  destruct Hown as (H1 & H2 & _). split; [split; [exact H1|exact H2]|exact Hforeign].
Defined.

(** X21, witness: a rollback to checkpoint 9, which does not exist. *)
Lemma rollback_to_missing_checkpoint_witness :
  AgentService.rollback_to_checkpoint (λ _ _, mret tt) (Some agent) 1 9 "agno_c" true
    machine0
  = (Returned None, machine0).
Proof.
  exact (rollback_to_missing_checkpoint (λ _ _, mret tt) (Some agent) 1 9 "agno_c" true
           machine0 eq_refl).
Defined.

(** X22, witness: resuming external session 1 without naming an
    internal session picks up session 2, the current one. *)
Lemma resume_agent_resumes_stored_session_witness :
  ∃ resumed s g,
    AgentService.resume_agent 1 None "agno_c" machine0
    = (Returned (Some resumed), grow machine0 g)
    ∧ RollbackAgent.internal_session resumed = Some s
    ∧ InternalSessionRepository.represents (pyheap machine0 ++ g) s session_row2
    ∧ RollbackAgent.external_session_id resumed = 1%Z
    ∧ RollbackAgent.agno_session_id resumed = "agno_b"
    ∧ RollbackAgent.session_state resumed = InternalSession.session_state s.
Proof.
  exact (resume_agent_resumes_stored_session 1 None "agno_c" machine0 external_row1
           session_row2 eq_refl eq_refl).
Defined.

(** X23, witness: the request in the agent's state is taken up; the
    checkpoint id stays for the caller. *)
Lemma handle_agent_response_consumes_request_witness :
  let out := AgentService.handle_agent_response agent machine0 in
  (out.1 = Returned true ∨ ∃ e, out.1 = Raised e)
  ∧ getitem_or_None (PRef 3%nat) "rollback_requested" (pyheap out.2)
    = Some (PBool false)
  ∧ getitem_or_None (PRef 3%nat) "rollback_checkpoint_id" (pyheap out.2)
    = Some (PInt 1)
  ∧ AgentService.handle_agent_response agent out.2 = (Returned false, out.2).
Proof.
  destruct (handle_agent_response_consumes_request agent 3%nat request (PBool true)
              (PInt 1) machine0 eq_refl eq_refl eq_refl eq_refl eq_refl eq_refl)
    as (Hret & Hheap & Hkeys & _ & Hagain).
  split; [exact Hret|]. split; [by rewrite Hheap|].
  split; [|exact Hagain].
  assert (Hk : "rollback_checkpoint_id" ≠ "rollback_requested") by discriminate.
  exact (Hkeys "rollback_checkpoint_id" Hk).
Defined.

(** X26, witness: an agent built for external session 1 under the new
    id [agno_c]: its session 3 is the current one, and the external
    session lists it. *)
Lemma agent_init_creates_current_session_witness :
  ∃ built s m',
    RollbackAgent.init 1 "agno_c" true true true false (Some (PRef 0%nat)) machine0
    = (Returned built, m')
    ∧ RollbackAgent.internal_session built = Some s
    ∧ InternalSession.id s = Some 3%Z
    ∧ (λ r, (s_id r, s_agno_session_id r)) <$> current_sessions (db m') 1
      = [(3%Z, "agno_c")]
    ∧ select_external_session (db m') 1
      = Some (mkExternalRow 1 1 "Project Discussion" true ["agno_a"; "agno_b"; "agno_c"]
                (Some "agno_c") (Some 200)).
Proof.
  assert (Hne : (1 ≠ 0)%Z) by lia.
  assert (Hfresh : "agno_c" ∉ s_agno_session_id <$> rows (internal_sessions (db machine0))).
  { cbn. intros Hin. repeat (apply elem_of_cons in Hin as [?|Hin]; [done|]).
    by apply elem_of_nil in Hin. }
  destruct (agent_init_creates_current_session 1 "agno_c" true true (Some (PRef 0%nat))
              (JDict [("counter", JInt 0)]) external_row1 machine0 Hne eq_refl eq_refl
              Hfresh)
    as (built & s & m' & Hinit & Hs & Hid & _ & _ & Hcur & Hext & _).
  exists built, s, m'. split; [exact Hinit|]. split; [exact Hs|]. split; [exact Hid|].
  split; [exact Hcur|exact Hext].
Defined.

End StoreScenarioFacts.
